(** * Email Trigger App: the frontend sources against their specification

    A shallow embedding of the React frontend ([App.jsx], [DashboardLayout],
    [TriggersPage], [SettingsPage], [EmailsPage], [EmailDashboard],
    [EmailList], [TriggerManager], [LoginCard], [Breadcrumb],
    [services/api.js]) and of the one rule-engine operation
    the specification describes without code ([time_range]).

    Layout: the JavaScript values and built-ins the sources rely on ([Js]),
    the effects of a handler ([Eff]), the HTTP client ([Api]), then one module
    per source file, then the theorems. *)

From Stdlib Require Import ZArith NArith QArith List String Ascii Bool Lia.
From Stdlib Require Import DecimalString.
From stdpp Require Import gmap strings list fin_maps.

Set Warnings "-register-all".
#[local] Open Scope N_scope.

(* ===================================================================== *)
(** ** JavaScript values                                                   *)
(* ===================================================================== *)

Module Js.

(** A JavaScript string is a sequence of UTF-16 code units. *)
Abbreviation jsstring := (list N).

(** The code units of an ASCII literal of the sources. *)
Definition u16 (s : string) : jsstring :=
  List.map N_of_ascii (list_ascii_of_string s).

Definition ch (a : ascii) : N := N_of_ascii a.

(** The code unit of the double quote. *)
Definition dquote : N := 34.

(** A JSON text written with apostrophes where it has double quotes. *)
Definition json_text (s : string) : jsstring :=
  List.map (fun c => if c =? 39 then dquote else c) (u16 s).

(** The values that reach the frontend: [undefined] and everything
    [JSON.parse] or an HTTP response body can hold.  Numbers are kept exact
    (a rational); the rounding of a literal to the nearest double is not
    modelled.  An object is a finite map from property names to values. *)
Inductive JsVal : Type :=
| JUndefined
| JNull
| JBool (b : bool)
| JNum (q : Q)
| JStr (s : jsstring)
| JArr (elems : list JsVal)
| JObj (fields : gmap jsstring JsVal).

(** What a statement can throw. *)
Inductive Exn : Type :=
| TypeError (what : string)
| RangeError (what : string)
| SyntaxError
| Rejected (error : JsVal).

(** The completion of an expression: a value, or an exception. *)
Inductive Completion (A : Type) : Type :=
| Return (a : A)
| Throw (e : Exn).
Arguments Return {A} a.
Arguments Throw {A} e.

(** ToBoolean: [undefined], [null], [false], [0] and [''] are falsy. *)
Definition truthy (v : JsVal) : bool :=
  match v with
  | JUndefined | JNull => false
  | JBool b => b
  | JNum q => negb (Qeq_bool q 0)
  | JStr s => match s with [] => false | _ => true end
  | JArr _ | JObj _ => true
  end.

(** [!v] *)
Definition js_not (v : JsVal) : JsVal := JBool (negb (truthy v)).

(** [a || b] *)
Definition js_or (a b : JsVal) : JsVal := if truthy a then a else b.

Definition jsstring_eqb (a b : jsstring) : bool :=
  bool_decide (a = b).

(** [a === b].  Primitives compare by value.  Arrays and objects compare by
    identity, which the values of this model do not carry: every array or
    object stands for one obtained on its own (a fresh [JSON.parse] result,
    a response body), so two of them are never identical. *)
Definition strict_eq (a b : JsVal) : bool :=
  match a, b with
  | JUndefined, JUndefined => true
  | JNull, JNull => true
  | JBool x, JBool y => Bool.eqb x y
  | JNum x, JNum y => Qeq_bool x y
  | JStr x, JStr y => jsstring_eqb x y
  | _, _ => false
  end.

(** [a !== b] *)
Definition strict_neq (a b : JsVal) : bool := negb (strict_eq a b).

Definition is_primitive (v : JsVal) : bool :=
  match v with
  | JArr _ | JObj _ => false
  | _ => true
  end.

(** The value of property [k] of an object with these own properties;
    [undefined] when it has none of that name. *)
Definition field (fields : gmap jsstring JsVal) (k : string) : JsVal :=
  default JUndefined (fields !! u16 k).

(** [v.k] for a property name [k] that no built-in prototype defines (all
    the names the sources read this way are such: [user_id], [id],
    [isActive], [subject], [body], [data], [detail], ...; [length] is
    treated where it is read).  Reading a property of [undefined] or [null]
    throws a TypeError; a primitive, an array or an object without the
    property gives [undefined]. *)
Definition get (v : JsVal) (k : string) : Completion JsVal :=
  match v with
  | JUndefined | JNull =>
      Throw (TypeError ("Cannot read properties of null or undefined: " ++ k))
  | JObj fields => Return (field fields k)
  | _ => Return JUndefined
  end.

(** [v?.k]: [undefined] instead of the TypeError. *)
Definition get_opt (v : JsVal) (k : string) : JsVal :=
  match get v k with
  | Return x => x
  | Throw _ => JUndefined
  end.

(** *** [JSON.parse] *)

(** Outcome of a parsing function: a syntax error, recursion budget spent,
    or a result with the rest of the input. *)
Inductive Parse (A : Type) : Type :=
| Bad
| Stuck
| Got (a : A) (rest : jsstring).
Arguments Bad {A}.
Arguments Stuck {A}.
Arguments Got {A} a rest.

Definition is_ws (c : N) : bool :=
  (c =? 32) || (c =? 9) || (c =? 10) || (c =? 13).

Fixpoint skip_ws (s : jsstring) : jsstring :=
  match s with
  | c :: r => if is_ws c then skip_ws r else s
  | [] => []
  end.

Definition is_digit (c : N) : bool := (48 <=? c) && (c <=? 57).

Definition digit_val (c : N) : Z := Z.of_N (c - 48).

(** The longest prefix of decimal digits, folded into the number [acc]
    stands before; also returns how many digits were read. *)
Fixpoint take_digits (s : jsstring) (acc : Z) (n : nat) : Z * nat * jsstring :=
  match s with
  | c :: r => if is_digit c then take_digits r (10 * acc + digit_val c)%Z (S n)
              else (acc, n, s)
  | [] => (acc, n, [])
  end.

(** The rational [m * 10^e], in lowest terms. *)
Definition scale10 (m e : Z) : Q :=
  if (0 <=? e)%Z then inject_Z (m * 10 ^ e)
  else Qred (Qmake m (Z.to_pos (10 ^ (- e)))).

(** A JSON number: an optional minus sign; then a single zero, or a nonzero
    digit followed by digits; then optionally a point and one or more digits;
    then optionally e or E, an optional sign, and one or more digits. *)
Definition number_sign (s : jsstring) : bool * jsstring :=
  match s with
  | c :: r => if c =? ch "-" then (true, r) else (false, s)
  | [] => (false, s)
  end.

Definition number_int (s : jsstring) : option (Z * jsstring) :=
  match s with
  | c :: r =>
      if c =? ch "0" then Some (0%Z, r)
      else if is_digit c then
        let '(m, _, r') := take_digits s 0%Z 0%nat in Some (m, r')
      else None
  | [] => None
  end.

(** The digits after the point extend the mantissa [m]; their number is
    returned with it. *)
Definition number_frac (m : Z) (s : jsstring) : option (Z * nat * jsstring) :=
  match s with
  | c :: r =>
      if c =? ch "." then
        let '(m', n, r') := take_digits r m 0%nat in
        match n with
        | O => None
        | _ => Some (m', n, r')
        end
      else Some (m, 0%nat, s)
  | [] => Some (m, 0%nat, s)
  end.

Definition exp_sign (s : jsstring) : bool * jsstring :=
  match s with
  | d :: r =>
      if d =? ch "-" then (true, r)
      else if d =? ch "+" then (false, r)
      else (false, s)
  | [] => (false, s)
  end.

Definition number_exp (s : jsstring) : option (Z * jsstring) :=
  match s with
  | c :: r =>
      if (c =? ch "e") || (c =? ch "E") then
        let '(eneg, r1) := exp_sign r in
        let '(e, n, r2) := take_digits r1 0%Z 0%nat in
        match n with
        | O => None
        | _ => Some ((if eneg then - e else e)%Z, r2)
        end
      else Some (0%Z, s)
  | [] => Some (0%Z, s)
  end.

Definition parse_number (s : jsstring) : Parse Q :=
  let '(neg, s1) := number_sign s in
  match number_int s1 with
  | None => Bad
  | Some (m, s2) =>
      match number_frac m s2 with
      | None => Bad
      | Some (m', nfrac, s3) =>
          match number_exp s3 with
          | None => Bad
          | Some (e, s4) =>
              Got (scale10 (if neg then - m' else m') (e - Z.of_nat nfrac)) s4
          end
      end
  end.

Definition hex_val (c : N) : option N :=
  if is_digit c then Some (c - 48)
  else if (97 <=? c) && (c <=? 102) then Some (c - 87)
  else if (65 <=? c) && (c <=? 70) then Some (c - 55)
  else None.

(** The characters of a string literal after its opening quote, up to and
    including the closing quote.  [acc] holds the code units read so far,
    last first. *)
Fixpoint parse_chars (s : jsstring) (acc : jsstring) : Parse jsstring :=
  match s with
  | [] => Bad
  | c :: r =>
      if c =? dquote then Got (rev acc) r
      else if c <? 32 then Bad
      else if c =? ch "\" then
        match r with
        | [] => Bad
        | e :: r1 =>
            if e =? dquote then parse_chars r1 (dquote :: acc)
            else if e =? ch "\" then parse_chars r1 (ch "\" :: acc)
            else if e =? ch "/" then parse_chars r1 (ch "/" :: acc)
            else if e =? ch "b" then parse_chars r1 (8 :: acc)
            else if e =? ch "f" then parse_chars r1 (12 :: acc)
            else if e =? ch "n" then parse_chars r1 (10 :: acc)
            else if e =? ch "r" then parse_chars r1 (13 :: acc)
            else if e =? ch "t" then parse_chars r1 (9 :: acc)
            else if e =? ch "u" then
              match r1 with
              | h1 :: h2 :: h3 :: h4 :: r2 =>
                  match hex_val h1, hex_val h2, hex_val h3, hex_val h4 with
                  | Some a, Some b, Some c', Some d =>
                      parse_chars r2 (((a * 16 + b) * 16 + c') * 16 + d :: acc)
                  | _, _, _, _ => Bad
                  end
              | _ => Bad
              end
            else Bad
        end
      else parse_chars r (c :: acc)
  end.

Definition parse_string (s : jsstring) : Parse jsstring :=
  match s with
  | c :: r => if c =? dquote then parse_chars r [] else Bad
  | [] => Bad
  end.

(** [lit] stripped from the front of [s]. *)
Fixpoint expect (lit s : jsstring) : option jsstring :=
  match lit, s with
  | [], _ => Some s
  | a :: lit', b :: s' => if a =? b then expect lit' s' else None
  | _ :: _, [] => None
  end.

Definition parse_word (w : string) (v : JsVal) (s : jsstring) : Parse JsVal :=
  match expect (u16 w) s with
  | Some r => Got v r
  | None => Bad
  end.

(** value, the elements of an array after '[' or ',', and the members of an
    object after '{' or ','.  Every call spends one unit of [fuel]. *)
Fixpoint parse_value (fuel : nat) (s : jsstring) : Parse JsVal :=
  match fuel with
  | O => Stuck
  | S fuel =>
      match skip_ws s with
      | [] => Bad
      | c :: r =>
          if c =? ch "{" then
            match skip_ws r with
            | c' :: r' =>
                if c' =? ch "}" then Got (JObj ∅) r'
                else parse_members fuel (c' :: r') ∅
            | [] => Bad
            end
          else if c =? ch "[" then
            match skip_ws r with
            | c' :: r' =>
                if c' =? ch "]" then Got (JArr []) r'
                else parse_elements fuel (c' :: r') []
            | [] => Bad
            end
          else if c =? dquote then
            match parse_chars r [] with
            | Got str r' => Got (JStr str) r'
            | Bad => Bad
            | Stuck => Stuck
            end
          else if c =? ch "t" then parse_word "true" (JBool true) (c :: r)
          else if c =? ch "f" then parse_word "false" (JBool false) (c :: r)
          else if c =? ch "n" then parse_word "null" JNull (c :: r)
          else
            match parse_number (c :: r) with
            | Got q r' => Got (JNum q) r'
            | Bad => Bad
            | Stuck => Stuck
            end
      end
  end
with parse_elements (fuel : nat) (s : jsstring) (acc : list JsVal) : Parse JsVal :=
  match fuel with
  | O => Stuck
  | S fuel =>
      match parse_value fuel s with
      | Got v r =>
          match skip_ws r with
          | c :: r' =>
              if c =? ch "," then parse_elements fuel r' (acc ++ [v])
              else if c =? ch "]" then Got (JArr (acc ++ [v])) r'
              else Bad
          | [] => Bad
          end
      | Bad => Bad
      | Stuck => Stuck
      end
  end
with parse_members (fuel : nat) (s : jsstring) (acc : gmap jsstring JsVal) : Parse JsVal :=
  match fuel with
  | O => Stuck
  | S fuel =>
      match parse_string (skip_ws s) with
      | Got k r =>
          match skip_ws r with
          | c :: r' =>
              if c =? ch ":" then
                match parse_value fuel r' with
                | Got v r'' =>
                    match skip_ws r'' with
                    | d :: r3 =>
                        if d =? ch "," then parse_members fuel r3 (<[k := v]> acc)
                        else if d =? ch "}" then Got (JObj (<[k := v]> acc)) r3
                        else Bad
                    | [] => Bad
                    end
                | Bad => Bad
                | Stuck => Stuck
                end
              else Bad
          | [] => Bad
          end
      | Bad => Bad
      | Stuck => Stuck
      end
  end.

(** [JSON.parse(text)]: one value between optional white space, or a
    SyntaxError. *)
Definition JSON_parse (text : jsstring) : Completion JsVal :=
  match parse_value (2 * List.length text + 1) text with
  | Got v r => match skip_ws r with [] => Return v | _ => Throw SyntaxError end
  | Bad => Throw SyntaxError
  | Stuck => Throw SyntaxError
  end.

End Js.

(* ===================================================================== *)
(** ** Effects of a handler                                                *)
(* ===================================================================== *)

Module Eff.
Import Js.

(** A template literal: source text with interpolated values. *)
Inductive Seg : Type :=
| Lit (s : string)
| Hole (v : JsVal).

Abbreviation Template := (list Seg).

Inductive Verb : Type := GET | POST | PUT | DELETE.

(** What axios is asked to send. *)
Record Request : Type := mkRequest {
  verb : Verb;
  url : Template;
  params : list (string * JsVal);
  body : option JsVal
}.

Inductive ToastKind : Type := TLoading | TSuccess | TError.

(** What a handler does that can be observed from outside. *)
Inductive Event : Type :=
| Toast (kind : ToastKind) (message : Template)
| ToastDismiss
| Http (request : Request)
| ConsoleError (label : string)
| ConsoleLog (label : string)
| SetState (name : string) (value : JsVal).

Abbreviation Log := (list Event).

Definition requests (log : Log) : list Request :=
  omap (fun e => match e with Http r => Some r | _ => None end) log.

(** A handler run to completion.  It is given the requests sent before it
    started (all a server can tell one moment from another by), adds its
    events to the log and returns or throws.  An [await] is the sequencing
    of this monad; the interleaving of handlers that are pending at the same
    time is not modelled. *)
Definition M (A : Type) : Type := list Request -> Log * Completion A.

Definition ret {A} (a : A) : M A := fun _ => ([], Return a).

Definition bind {A B} (m : M A) (k : A -> M B) : M B :=
  fun past =>
    match m past with
    | (log, Return a) =>
        let '(log', c) := k a (past ++ requests log) in (log ++ log', c)
    | (log, Throw e) => (log, Throw e)
    end.

Definition throw {A} (e : Exn) : M A := fun _ => ([], Throw e).

Definition emit (e : Event) : M unit := fun _ => ([e], Return tt).

Definition lift {A} (c : Completion A) : M A := fun _ => ([], c).

(** [try { body } catch (error) { handler }] *)
Definition try_catch {A} (body : M A) (handler : Exn -> M A) : M A :=
  fun past =>
    match body past with
    | (log, Return a) => (log, Return a)
    | (log, Throw e) =>
        let '(log', c) := handler e (past ++ requests log) in (log ++ log', c)
    end.

(** [try { body } finally { final }] *)
Definition try_finally {A} (body : M A) (final : M unit) : M A :=
  fun past =>
    let '(log, c) := body past in
    match final (past ++ requests log) with
    | (log', Return _) => (log ++ log', c)
    | (log', Throw e) => (log ++ log', Throw e)
    end.

Declare Scope eff_scope.
Delimit Scope eff_scope with eff.
Notation "x <- m ;; k" := (bind m (fun x => k))
  (at level 100, m at next level, right associativity) : eff_scope.
Notation "m ;;; k" := (bind m (fun _ => k))
  (at level 100, right associativity) : eff_scope.

(** The events and the completion of a handler that starts before any
    request was sent. *)
Definition events {A} (m : M A) : Log := fst (m []).
Definition outcome {A} (m : M A) : Completion A := snd (m []).


(** The messages a user sees as errors. *)
Definition error_toasts (log : Log) : list Template :=
  omap (fun e => match e with Toast TError m => Some m | _ => None end) log.

(** The answer of the server to one request: a 2xx response with its
    parsed body ([response.data]), or a failure, for which axios rejects
    with an error object. *)
Inductive Reply : Type :=
| Resolve (data : JsVal)
| Reject (error : gmap jsstring JsVal).

(** The backend is outside the sources: any function from the requests
    received so far and the next one to a reply. *)
Definition Server : Type := list Request -> Request -> Reply.

End Eff.

(* ===================================================================== *)
(** ** services/api.js                                                     *)
(* ===================================================================== *)

Module Api.
Import Js Eff.
#[local] Open Scope eff_scope.

(** [error.response?.data?.detail || error.message || 'An error occurred'] *)
Definition interceptor_message (error : JsVal) : Completion JsVal :=
  match get error "response" with
  | Throw e => Throw e
  | Return response =>
      match get error "message" with
      | Throw e => Throw e
      | Return message =>
          Return (js_or (get_opt (get_opt response "data") "detail")
                        (js_or message (JStr (u16 "An error occurred"))))
      end
  end.

Section WithServer.
Variable server : Server.

(** A call through the axios instance [api] with its response interceptor:
    a response passes through; an error is shown with [toast.error] and
    rejected again. *)
Definition api_call (req : Request) : M JsVal :=
  fun past =>
    match server past req with
    | Resolve data =>
        (emit (Http req) ;;;
         ret (JObj {[ u16 "data" := data ]})) past
    | Reject error =>
        (emit (Http req) ;;;
         message <- lift (interceptor_message (JObj error)) ;;
         emit (Toast TError [Hole message]) ;;;
         throw (Rejected (JObj error))) past
    end.

End WithServer.

(** The [n]-th positional argument; a missing one is [undefined]. *)
Definition arg (n : nat) (args : list JsVal) : JsVal := nth n args JUndefined.

(** A parameter with a default value: [limit = 10]. *)
Definition arg_default (n : nat) (d : JsVal) (args : list JsVal) : JsVal :=
  match arg n args with
  | JUndefined => d
  | v => v
  end.

Definition api_get (u : Template) (ps : list (string * JsVal)) : Request :=
  mkRequest GET u ps None.
Definition api_post (u : Template) (data : option JsVal) : Request :=
  mkRequest POST u [] data.
Definition api_put (u : Template) (data : option JsVal) : Request :=
  mkRequest PUT u [] data.
Definition api_delete (u : Template) : Request :=
  mkRequest DELETE u [] None.

(** The object [emailAPI]: its property names with their functions, in the
    order of the source. *)
Definition emailAPI : list (string * (list JsVal -> Request)) :=
  [ ("getAuthUrl", fun a =>
       api_get [Lit "/auth/"; Hole (arg 0 a); Lit "/login"] []);
    ("handleCallback", fun a =>
       api_get [Lit "/auth/"; Hole (arg 0 a); Lit "/callback"] [("code", arg 1 a)]);
    ("getSupportedProviders", fun _ =>
       api_get [Lit "/providers"] []);
    ("getUserEmails", fun a =>
       api_get [Lit "/users/"; Hole (arg 0 a); Lit "/emails"]
               [("limit", arg_default 1 (JNum 10) a)]);
    ("getTriggers", fun a =>
       api_get [Lit "/users/"; Hole (arg 0 a); Lit "/triggers"] []);
    ("createTrigger", fun a =>
       api_post [Lit "/users/"; Hole (arg 0 a); Lit "/triggers"] (Some (arg 1 a)));
    ("updateTrigger", fun a =>
       api_put [Lit "/users/"; Hole (arg 0 a); Lit "/triggers/"; Hole (arg 1 a)]
               (Some (arg 2 a)));
    ("deleteTrigger", fun a =>
       api_delete [Lit "/users/"; Hole (arg 0 a); Lit "/triggers/"; Hole (arg 1 a)]);
    ("testEmailNotification", fun a =>
       api_post [Lit "/test-email-notification/"; Hole (arg 0 a)] None);
    ("startEmailMonitoring", fun a =>
       api_get [Lit "/start-email-monitoring/"; Hole (arg 0 a)] []);
    ("debugOAuthCredentials", fun _ =>
       api_get [Lit "/debug-oauth-credentials"] []);
    ("testOAuth", fun _ =>
       api_get [Lit "/auth/test-oauth"] []);
    ("healthCheck", fun _ =>
       api_get [Lit "/health"] []) ].

(** [emailAPI.name]: the function stored under [name], if any. *)
Fixpoint property {A} (name : string) (obj : list (string * A)) : option A :=
  match obj with
  | [] => None
  | (k, f) :: rest => if String.eqb k name then Some f else property name rest
  end.

(** [emailAPI.name(args)]: calling a property that the object does not
    have throws a TypeError before anything is sent. *)
Definition call (server : Server) (name : string) (args : list JsVal) : M JsVal :=
  match property name emailAPI with
  | None => throw (TypeError ("emailAPI." ++ name ++ " is not a function"))
  | Some f => api_call server (f args)
  end.

End Api.

(* ===================================================================== *)
(** ** The effective user id of DashboardLayout, TriggersPage, SettingsPage *)
(* ===================================================================== *)

Module SavedUser.
Import Js Eff.
#[local] Open Scope eff_scope.

(** [localStorage]: string keys, string values. *)
Abbreviation Storage := (gmap string jsstring).

Definition STORAGE_KEY : string := "emailTriggerUser".

(** [localStorage.getItem(key)], [None] standing for [null]. *)
Definition getItem (localStorage : Storage) (key : string) : option jsstring :=
  localStorage !! key.

(** [useState(user.user_id)] *)
Definition initialState (user : JsVal) : Completion JsVal :=
  get user "user_id".

(** The body of the [useEffect] that the three components share word for
    word.  It returns the value given to [setEffectiveUserId], if it is
    called. *)
Definition effect (user : JsVal) (localStorage : Storage) : M (option JsVal) :=
  match getItem localStorage STORAGE_KEY with
  | None => ret None
  | Some savedUser =>
      if truthy (JStr savedUser) then
        try_catch
          (userData <- lift (JSON_parse savedUser) ;;
           cached <- lift (get userData "user_id") ;;
           own <- lift (get user "user_id") ;;
           if strict_neq cached own then
             emit (SetState "effectiveUserId" cached) ;;;
             ret (Some cached)
           else ret None)
          (fun _ =>
             emit (ConsoleError "Error parsing saved user data:") ;;;
             ret None)
      else ret None
  end.

(** The [user_id] the effect finds in the cache, when the entry is there,
    is not empty, is JSON and is not [null]. *)
Definition cached_user_id (localStorage : Storage) : option JsVal :=
  match getItem localStorage STORAGE_KEY with
  | None => None
  | Some savedUser =>
      if truthy (JStr savedUser) then
        match JSON_parse savedUser with
        | Return userData =>
            match get userData "user_id" with
            | Return cached => Some cached
            | Throw _ => None
            end
        | Throw _ => None
        end
      else None
  end.

(** The cached id when it is to replace [own]. *)
Definition override (own : JsVal) (localStorage : Storage) : option JsVal :=
  match cached_user_id localStorage with
  | Some cached => if strict_eq cached own then None else Some cached
  | None => None
  end.

(** The values of [effectiveUserId] over the renders of a mounted
    component: the initial state, then the state the effect sets (a state
    change renders again). *)
Definition renders (user : JsVal) (localStorage : Storage) : M (list JsVal) :=
  id0 <- lift (initialState user) ;;
  set <- effect user localStorage ;;
  ret (match set with
       | Some id1 => [id0; id1]
       | None => [id0]
       end).

(** The state once the effect has run. *)
Definition settled (user : JsVal) (localStorage : Storage) : M JsVal :=
  ids <- renders user localStorage ;;
  ret (List.last ids JUndefined).

(** A component that hands [effectiveUserId] to a child whose own effect
    runs [child] with it after the first render and again after every
    change: the effects of the first render run child first, then the
    state set by [effect] renders again. *)
Definition mounted (child : JsVal -> M unit) (user : JsVal) (localStorage : Storage)
  : M unit :=
  id0 <- lift (initialState user) ;;
  child id0 ;;;
  set <- effect user localStorage ;;
  match set with
  | Some id1 => child id1
  | None => ret tt
  end.

End SavedUser.

(* ===================================================================== *)
(** ** components/TriggerManager.jsx                                       *)
(* ===================================================================== *)

Module TriggerManager.
Import Js Eff Api.
#[local] Open Scope eff_scope.

Definition triggerTypes : list (string * string) :=
  [ ("sender_contains", "Sender contains");
    ("subject_contains", "Subject contains");
    ("body_contains", "Body contains");
    ("sender_exact", "Exact sender");
    ("subject_regex", "Subject regex");
    ("attachment_exists", "Has attachments");
    ("time_range", "Time range") ].

Definition actionTypes : list (string * string) :=
  [ ("log_message", "Log message");
    ("mark_as_read", "Mark as read");
    ("forward_email", "Forward email");
    ("send_notification", "Send notification");
    ("webhook_call", "Call webhook");
    ("custom_script", "Run script") ].

(** The [value]s a select offers, one [option] per entry. *)
Definition offered (types : list (string * string)) : list string :=
  List.map fst types.

Section WithServer.
Variable server : Server.
Variable userId : JsVal.

Definition fetchTriggers : M unit :=
  try_finally
    (try_catch
       (emit (SetState "loading" (JBool true)) ;;;
        response <- call server "getTriggers" [userId] ;;
        data <- lift (get response "data") ;;
        triggers <- lift (get data "triggers") ;;
        emit (SetState "triggers" (js_or triggers (JArr []))))
       (fun _ =>
          emit (Toast TError [Lit "Failed to fetch triggers"]) ;;;
          emit (ConsoleError "Fetch triggers error:")))
    (emit (SetState "loading" (JBool false))).

Definition handleUpdateTrigger (updatedTrigger : JsVal) : M unit :=
  try_catch
    (id <- lift (get updatedTrigger "id") ;;
     call server "updateTrigger" [userId; id; updatedTrigger] ;;;
     fetchTriggers ;;;
     emit (SetState "editingTrigger" JNull) ;;;
     emit (Toast TSuccess [Lit "Trigger updated successfully!"]))
    (fun _ =>
       emit (Toast TError [Lit "Failed to update trigger"]) ;;;
       emit (ConsoleError "Update trigger error:")).

(** [triggers.find(t => t.id === triggerId)]: the first element that
    passes, [undefined] when none does. *)
Fixpoint find_by_id (triggers : list JsVal) (triggerId : JsVal) : Completion JsVal :=
  match triggers with
  | [] => Return JUndefined
  | t :: rest =>
      match get t "id" with
      | Throw e => Throw e
      | Return id =>
          if strict_eq id triggerId then Return t
          else find_by_id rest triggerId
      end
  end.

(** The decimal name of an array index. *)
Definition index_key (i : nat) : jsstring :=
  u16 (NilZero.string_of_uint (Nat.to_uint i)).

Fixpoint indexed {A} (f : A -> JsVal) (i : nat) (l : list A)
  : gmap jsstring JsVal :=
  match l with
  | [] => ∅
  | x :: rest => <[index_key i := f x]> (indexed f (S i) rest)
  end.

(** The own enumerable properties [{...v}] copies: those of an object; the
    indices of an array or of a string; none for the other primitives. *)
Definition spread (v : JsVal) : gmap jsstring JsVal :=
  match v with
  | JObj fields => fields
  | JArr elems => indexed (fun x => x) 0 elems
  | JStr s => indexed (fun c => JStr [c]) 0 s
  | _ => ∅
  end.

Definition toggleTrigger (triggers : list JsVal) (triggerId : JsVal) : M unit :=
  trigger <- lift (find_by_id triggers triggerId) ;;
  if truthy trigger then
    isActive <- lift (get trigger "isActive") ;;
    handleUpdateTrigger
      (JObj (<[u16 "isActive" := js_not isActive]> (spread trigger)))
  else ret tt.

End WithServer.

(** *** TriggerForm *)

(** [!['attachment_exists'].includes(formData.triggerType)] *)
Definition needsCondition (triggerType : JsVal) : bool :=
  negb (existsb (fun x => strict_eq x triggerType)
                [JStr (u16 "attachment_exists")]).

Inductive Field : Type :=
| NameInput
| TriggerTypeSelect
| ConditionInput
| ActionSelect
| DescriptionInput.

(** The inputs of the rendered form, top to bottom. *)
Definition form_fields (triggerType : JsVal) : list Field :=
  [NameInput; TriggerTypeSelect]
  ++ (if needsCondition triggerType then [ConditionInput] else [])
  ++ [ActionSelect; DescriptionInput].

End TriggerManager.

(* ===================================================================== *)
(** ** pages/DashboardHome.jsx and components/DashboardLayout.jsx          *)
(* ===================================================================== *)

Module DashboardHome.
Import Js Eff Api.
#[local] Open Scope eff_scope.

Definition of_nat (n : nat) : JsVal := JNum (inject_Z (Z.of_nat n)).

(** [v.length] of a truthy value *)
Definition js_length (v : JsVal) : Completion JsVal :=
  match v with
  | JArr elems => Return (of_nat (List.length elems))
  | JStr s => Return (of_nat (List.length s))
  | _ => get v "length"
  end.

(** [l.filter(t => t.isActive)] on the elements of an array *)
Fixpoint filter_active (l : list JsVal) : Completion (list JsVal) :=
  match l with
  | [] => Return []
  | t :: rest =>
      match get t "isActive" with
      | Throw e => Throw e
      | Return a =>
          match filter_active rest with
          | Throw e => Throw e
          | Return kept => Return (if truthy a then t :: kept else kept)
          end
      end
  end.

(** [triggers.filter(t => t.isActive).length] *)
Definition count_active (triggers : JsVal) : Completion JsVal :=
  match triggers with
  | JArr elems =>
      match filter_active elems with
      | Throw e => Throw e
      | Return kept => Return (of_nat (List.length kept))
      end
  | _ => Throw (TypeError "triggers.filter is not a function")
  end.

(** [emails.slice(0, 3)] *)
Definition slice_3 (emails : JsVal) : Completion JsVal :=
  match emails with
  | JArr elems => Return (JArr (firstn 3 elems))
  | JStr s => Return (JStr (firstn 3 s))
  | _ => Throw (TypeError "emails.slice is not a function")
  end.

Section WithServer.
Variable server : Server.

Definition loadDashboardData (effectiveUserId : JsVal) : M unit :=
  try_finally
    (try_catch
       (emit (SetState "loading" (JBool true)) ;;;
        emailsResponse <- call server "getUserEmails" [effectiveUserId; JNum 5] ;;
        emailsData <- lift (get emailsResponse "data") ;;
        emails0 <- lift (get emailsData "emails") ;;
        let emails := js_or emails0 (JArr []) in
        triggersResponse <- call server "getTriggers" [effectiveUserId] ;;
        triggersData <- lift (get triggersResponse "data") ;;
        triggers0 <- lift (get triggersData "triggers") ;;
        let triggers := js_or triggers0 (JArr []) in
        activeTriggers <- lift (count_active triggers) ;;
        connectionStatus <-
          (if negb (truthy emailsData) then ret (JStr (u16 "error"))
           else
             err <- lift (get emailsData "error") ;;
             ret (JStr (u16 (if truthy err then "error" else "connected")))) ;;
        totalEmails <- lift (js_length emails) ;;
        recentEmails <- lift (slice_3 emails) ;;
        emit (SetState "stats"
                (JObj (<[u16 "totalEmails" := totalEmails]>
                      (<[u16 "activeTriggers" := activeTriggers]>
                      (<[u16 "recentEmails" := recentEmails]>
                      (<[u16 "connectionStatus" := connectionStatus]> ∅)))))))
       (fun _ =>
          emit (ConsoleError "Failed to load dashboard data:") ;;;
          emit (Toast TError [Lit "Failed to load dashboard data"])))
    (emit (SetState "loading" (JBool false))).

End WithServer.
End DashboardHome.

Module DashboardLayout.
Import Js Eff SavedUser.
#[local] Open Scope eff_scope.

(** The layout mounted at [/dashboard]: its outlet context carries
    [effectiveUserId], and DashboardHome loads its data again whenever that
    value changes. *)
Definition mount (server : Server) (user : JsVal) (localStorage : Storage) : M unit :=
  mounted (DashboardHome.loadDashboardData server) user localStorage.

End DashboardLayout.

(* ===================================================================== *)
(** ** pages/TriggersPage.jsx                                              *)
(* ===================================================================== *)

Module TriggersPage.
Import Js Eff SavedUser.
#[local] Open Scope eff_scope.

(** [<TriggerManager userId={effectiveUserId} />]: the manager fetches the
    triggers when it mounts and whenever [userId] changes. *)
Definition mount (server : Server) (user : JsVal) (localStorage : Storage) : M unit :=
  mounted (TriggerManager.fetchTriggers server) user localStorage.

End TriggersPage.

(* ===================================================================== *)
(** ** pages/SettingsPage.jsx                                              *)
(* ===================================================================== *)

Module SettingsPage.
Import Js Eff Api SavedUser.
#[local] Open Scope eff_scope.

Section WithServer.
Variable server : Server.

(** The statements of [testEmailPermissions] that follow
    [const data = response.data]: what the user is told about the result
    of the probe. *)
Definition report (data : JsVal) : M unit :=
  emit ToastDismiss ;;;
  error <- lift (get data "error") ;;
  if truthy error then
    emit (Toast TError [Lit "Permission test failed: "; Hole error])
  else
    userTest <- lift (get data "user_test") ;;
    messageTest <- lift (get data "messages_test") ;;
    userOk <- lift (get userTest "success") ;;
    both <- (if truthy userOk then
               messagesOk <- lift (get messageTest "success") ;;
               ret (truthy messagesOk)
             else ret false) ;;
    (if both then
       emit (Toast TSuccess
               [Lit "✅ Email permissions working! You can read emails."])
     else
       userOk' <- lift (get userTest "success") ;;
       profileOnly <- (if truthy userOk' then
                         messagesOk <- lift (get messageTest "success") ;;
                         ret (negb (truthy messagesOk))
                       else ret false) ;;
       if profileOnly then
         emit (Toast TError
                 [Lit "❌ Can access profile but cannot read emails. Check permissions."])
       else
         emit (Toast TError
                 [Lit "❌ Cannot access Microsoft Graph API. Token may be invalid."])) ;;;
    emit (ConsoleLog "Permission Test Results:").

Definition testEmailPermissions (effectiveUserId : JsVal) : M unit :=
  try_catch
    (emit (Toast TLoading [Lit "Testing email permissions..."]) ;;;
     response <- call server "testEmailPermissions" [effectiveUserId] ;;
     data <- lift (get response "data") ;;
     report data)
    (fun _ =>
       emit ToastDismiss ;;;
       emit (Toast TError [Lit "Failed to test permissions"]) ;;;
       emit (ConsoleError "Permission test error:")).

(** The page once mounted, then a click on 'Test Email Permissions'. *)
Definition mount_and_test (user : JsVal) (localStorage : Storage) : M unit :=
  effectiveUserId <- settled user localStorage ;;
  testEmailPermissions effectiveUserId.

End WithServer.
End SettingsPage.

(* ===================================================================== *)
(** ** components/EmailDashboard.jsx                                       *)
(* ===================================================================== *)

Module EmailDashboard.
Import Js Eff Api.
#[local] Open Scope eff_scope.

Section WithServer.
Variable server : Server.

Definition handleTestTrigger (effectiveUserId : JsVal) : M unit :=
  try_catch
    (call server "testTrigger" [effectiveUserId] ;;;
     emit (Toast TSuccess [Lit "Trigger test completed! Check console for details."]))
    (fun _ => emit (Toast TError [Lit "Failed to test triggers"])).

(** The same text as [SettingsPage.testEmailPermissions]. *)
Definition testEmailPermissions (effectiveUserId : JsVal) : M unit :=
  SettingsPage.testEmailPermissions server effectiveUserId.

End WithServer.
End EmailDashboard.

(* ===================================================================== *)
(** ** components/EmailList.jsx                                            *)
(* ===================================================================== *)

Module EmailList.
Import Js.

(** What the browser answers when a detached [div] is given [text] as its
    [innerHTML] and its text is read back: the statement throws, or the
    element reports its [textContent] and [innerText]. *)
Inductive DomOutcome : Type :=
| DomThrows (e : Exn)
| DomText (textContent innerText : jsstring).

(** The white space of [\s] and of [trim]. *)
Definition is_space (c : N) : bool :=
  ((9 <=? c) && (c <=? 13)) || (c =? 32) || (c =? 160) || (c =? 5760)
  || ((8192 <=? c) && (c <=? 8202)) || (c =? 8232) || (c =? 8233)
  || (c =? 8239) || (c =? 8287) || (c =? 12288) || (c =? 65279).

Definition has_char (c : N) (s : jsstring) : bool :=
  existsb (N.eqb c) s.

(** [text.replace(/<[^>]*>/g, ' ')]: every stretch from a '<' to the next
    '>' becomes one space; a '<' with no '>' after it stays.  [inside]
    tells that the scan is between the two. *)
Fixpoint strip_tags (inside : bool) (s : jsstring) : jsstring :=
  match s with
  | [] => []
  | c :: r =>
      if inside then
        if c =? ch ">" then 32 :: strip_tags false r else strip_tags true r
      else if (c =? ch "<") && has_char (ch ">") r then strip_tags true r
      else c :: strip_tags false r
  end.

(** [text.replace(/\s+/g, ' ')]: [after_space] tells that the previous
    code unit was white space. *)
Fixpoint collapse_spaces (after_space : bool) (s : jsstring) : jsstring :=
  match s with
  | [] => []
  | c :: r =>
      if is_space c then
        if after_space then collapse_spaces true r
        else 32 :: collapse_spaces true r
      else c :: collapse_spaces false r
  end.

Fixpoint trim_start (s : jsstring) : jsstring :=
  match s with
  | c :: r => if is_space c then trim_start r else s
  | [] => []
  end.

Definition trim (s : jsstring) : jsstring :=
  rev (trim_start (rev (trim_start s))).

(** [text.includes(c)] for a one-character string [c] *)
Definition includes (text : JsVal) (c : N) : Completion bool :=
  match text with
  | JStr s => Return (has_char c s)
  | JArr elems => Return (existsb (strict_eq (JStr [c])) elems)
  | _ => Throw (TypeError "text.includes is not a function")
  end.

(** [text.length > length ? text.substring(0, length) + '...' : text], for
    the strings and arrays that reach it. *)
Definition cut (text : JsVal) (length : nat) : Completion JsVal :=
  match text with
  | JStr s =>
      Return (if (length <? List.length s)%nat
              then JStr (firstn length s ++ u16 "...")
              else text)
  | JArr elems =>
      if (length <? List.length elems)%nat
      then Throw (TypeError "text.substring is not a function")
      else Return text
  | _ => Return text
  end.


Section WithDom.
Variable dom : JsVal -> DomOutcome.

Definition truncateText (text : JsVal) (length : nat) : Completion JsVal :=
  if negb (truthy text) then Return (JStr [])
  else
    match includes text (ch "<") with
    | Throw e => Throw e
    | Return lt =>
        match (if lt then includes text (ch ">") else Return false) with
        | Throw e => Throw e
        | Return gt =>
            if lt && gt then
              match dom text with
              | DomText textContent innerText =>
                  cut (js_or (JStr textContent)
                             (js_or (JStr innerText) (JStr [])))
                      length
              | DomThrows _ =>
                  match text with
                  | JStr s =>
                      cut (JStr (trim (collapse_spaces false (strip_tags false s))))
                          length
                  | _ => Throw (TypeError "text.replace is not a function")
                  end
              end
            else cut text length
        end
    end.




End WithDom.



Section WithDates.
Variable dom : JsVal -> DomOutcome.
(** The time value of [new Date(date)] for a [date] that is not [undefined]
    or [null] (a string is parsed and a number clipped as the browser
    does); [None] stands for an Invalid Date. *)
Variable time_value : JsVal -> option Z.
(** date-fns's [format(date, 'MMM d, yyyy h:mm a')] of a valid date with
    the given time value, in the local time zone. *)
Variable format : Z -> jsstring.




End WithDates.
End EmailList.

(* ===================================================================== *)
(** ** App.jsx                                                             *)
(* ===================================================================== *)

Module App.
Import Js.

Inductive Page : Type :=
| DashboardHome
| EmailsPage
| TriggersPage
| SettingsPage.

(** What [AppContent] returns. *)
Inductive Element : Type :=
| Spinner (caption : string)
| LoginPage
| Navigate (to : string)
| DashboardLayout (user : JsVal) (outlet : Page).

(** The route a path selects. *)
Inductive Matched : Type :=
| RouteLogin
| RouteDashboard (child : Page)
| RouteRoot
| RouteSplat.

Definition lower (c : ascii) : ascii :=
  let n := nat_of_ascii c in
  if ((65 <=? n) && (n <=? 90))%nat then ascii_of_nat (n + 32) else c.

Fixpoint lowercase (s : string) : string :=
  match s with
  | EmptyString => EmptyString
  | String c r => String (lower c) (lowercase r)
  end.

(** [s] without the slashes at its end. *)
Fixpoint strip_slashes (s : string) : string :=
  match s with
  | EmptyString => EmptyString
  | String c r =>
      match strip_slashes r with
      | EmptyString => if Ascii.eqb c "/" then EmptyString else String c EmptyString
      | r' => String c r'
      end
  end.

(** The matching of [<Routes>]: a route path matches without regard to
    letter case and to slashes at the end; the splat takes what is left.
    Percent-escapes in the path are not decoded. *)
Definition matchRoutes (pathname : string) : Matched :=
  let p := lowercase (strip_slashes pathname) in
  if String.eqb p "/login" then RouteLogin
  else if String.eqb p "/dashboard" then RouteDashboard DashboardHome
  else if String.eqb p "/dashboard/emails" then RouteDashboard EmailsPage
  else if String.eqb p "/dashboard/triggers" then RouteDashboard TriggersPage
  else if String.eqb p "/dashboard/settings" then RouteDashboard SettingsPage
  else if String.eqb p "" then RouteRoot
  else RouteSplat.

(** The [element] of the matched route. *)
Definition route_element (user : JsVal) (m : Matched) : Element :=
  match m with
  | RouteLogin =>
      if truthy user then Navigate "/dashboard" else LoginPage
  | RouteDashboard child =>
      if truthy user then DashboardLayout user child else Navigate "/login"
  | RouteRoot | RouteSplat =>
      Navigate (if truthy user then "/dashboard" else "/login")
  end.

(** The state of [AppContent]. *)
Record State : Type := mkState {
  user : JsVal;
  loading : bool;
  isProcessingOAuth : bool
}.

Definition AppContent (st : State) (pathname : string) : Element :=
  if loading st || isProcessingOAuth st then
    Spinner (if isProcessingOAuth st then "Processing authentication..."
             else "Loading...")
  else route_element (user st) (matchRoutes pathname).

End App.

(* ===================================================================== *)
(** ** The rule engine's [time_range] match                                *)
(* ===================================================================== *)

Module RuleEngine.

(** The closed enums of the specification (sections 3 and 4.4, 4.5). *)
Inductive TriggerType : Type :=
| sender_contains
| subject_contains
| body_contains
| sender_exact
| subject_regex
| attachment_exists
| time_range.

Inductive Action : Type :=
| log_message
| mark_as_read
| forward_email
| send_notification
| webhook_call
| custom_script.

Definition all_trigger_types : list TriggerType :=
  [sender_contains; subject_contains; body_contains; sender_exact;
   subject_regex; attachment_exists; time_range].

Definition all_actions : list Action :=
  [log_message; mark_as_read; forward_email; send_notification;
   webhook_call; custom_script].

Definition trigger_type_name (t : TriggerType) : string :=
  match t with
  | sender_contains => "sender_contains"
  | subject_contains => "subject_contains"
  | body_contains => "body_contains"
  | sender_exact => "sender_exact"
  | subject_regex => "subject_regex"
  | attachment_exists => "attachment_exists"
  | time_range => "time_range"
  end.

Definition action_name (a : Action) : string :=
  match a with
  | log_message => "log_message"
  | mark_as_read => "mark_as_read"
  | forward_email => "forward_email"
  | send_notification => "send_notification"
  | webhook_call => "webhook_call"
  | custom_script => "custom_script"
  end.

(** A local time of day. *)
Record TimeOfDay : Type := mkTime { hour : nat; minute : nat }.

Definition minutes (t : TimeOfDay) : nat := hour t * 60 + minute t.

(** The part of a UnifiedMessage the match reads: [received_at], as the
    local day and time of day it denotes. *)
Record ReceivedAt : Type := mkReceived { day : Z; time_of_day : TimeOfDay }.

Definition digit (c : ascii) : option nat :=
  let n := nat_of_ascii c in
  if ((48 <=? n) && (n <=? 57))%nat then Some (n - 48)%nat else None.

(** Modelled from the spec: the parsing of one "HH:MM" of a [time_range]
    condition; the rule engine is backend code that is not among the
    sources.  Two digits, a colon, two digits; hours below 24, minutes
    below 60. *)
Definition parse_hhmm (h1 h2 colon m1 m2 : ascii) : option TimeOfDay :=
  match digit h1, digit h2, digit m1, digit m2 with
  | Some a, Some b, Some c, Some d =>
      let h := (a * 10 + b)%nat in
      let m := (c * 10 + d)%nat in
      if Ascii.eqb colon ":" && (h <? 24)%nat && (m <? 60)%nat
      then Some (mkTime h m) else None
  | _, _, _, _ => None
  end.

(** Modelled from the spec: a [time_range] condition is a window
    "HH:MM-HH:MM". *)
Definition parse_window (condition : string) : option (TimeOfDay * TimeOfDay) :=
  match list_ascii_of_string condition with
  | [h1; h2; c1; m1; m2; dash; h3; h4; c2; m3; m4] =>
      match parse_hhmm h1 h2 c1 m1 m2, parse_hhmm h3 h4 c2 m3 m4 with
      | Some from, Some to =>
          if Ascii.eqb dash "-" then Some (from, to) else None
      | _, _ => None
      end
  | _ => None
  end.

(** Modelled from the spec: a time of day falls within the window when it
    lies between its two ends, both included; a window whose start is
    later than its end wraps around midnight. *)
Definition within (from to t : TimeOfDay) : bool :=
  if (minutes from <=? minutes to)%nat
  then ((minutes from <=? minutes t) && (minutes t <=? minutes to))%nat
  else ((minutes from <=? minutes t) || (minutes t <=? minutes to))%nat.

(** Modelled from the spec: the match of a [time_range] rule against a
    message (section 4.4); a condition that is not a window matches
    nothing. *)
Definition time_range_matches (condition : string) (received_at : ReceivedAt) : bool :=
  match parse_window condition with
  | Some (from, to) => within from to (time_of_day received_at)
  | None => false
  end.

End RuleEngine.

(* ===================================================================== *)
(** ** Environments and inputs used in examples                            *)
(* ===================================================================== *)

Module Samples.
Import Js Eff SavedUser.

(** A server that is down: axios rejects every request with a network
    error. *)
Definition unreachable : Server :=
  fun _ _ => Reject {[ u16 "message" := JStr (u16 "Network Error") ]}.

(** A server that answers every request with an empty object. *)
Definition quiet : Server := fun _ _ => Resolve (JObj ∅).

(** A browser without a document: building the element throws. *)
Definition no_document : JsVal -> EmailList.DomOutcome :=
  fun _ => EmailList.DomThrows (TypeError "document is not defined").

(** The structured result of the permission probe. *)
Definition probe_result (profileOk messagesOk : bool) : JsVal :=
  JObj {[ u16 "user_test" := JObj {[ u16 "success" := JBool profileOk ]};
          u16 "messages_test" := JObj {[ u16 "success" := JBool messagesOk ]} ]}.

(** The authenticated user with id 1. *)
Definition user_1 : JsVal :=
  JObj {[ u16 "user_id" := JNum 1; u16 "email" := JStr (u16 "ann@example.com") ]}.

(** A cache that holds another user's data. *)
Definition cache_of_4 : Storage :=
  {[ STORAGE_KEY := json_text "{'user_id':4}" ]}.

(** The same cached id, written differently. *)
Definition cache_of_4' : Storage :=
  {[ STORAGE_KEY := json_text " { 'email' : 'bob@example.com', 'user_id' : 4.0 } " ]}.





(** Two triggers as the server lists them. *)
Definition trigger_7 : gmap jsstring JsVal :=
  {[ u16 "id" := JNum 7;
     u16 "name" := JStr (u16 "Boss Emails");
     u16 "triggerType" := JStr (u16 "sender_exact");
     u16 "condition" := JStr (u16 "boss@co.com");
     u16 "action" := JStr (u16 "log_message");
     u16 "isActive" := JBool true ]}.

Definition trigger_8 : gmap jsstring JsVal :=
  {[ u16 "id" := JNum 8;
     u16 "name" := JStr (u16 "Invoices");
     u16 "triggerType" := JStr (u16 "subject_contains");
     u16 "condition" := JStr (u16 "invoice");
     u16 "action" := JStr (u16 "send_notification");
     u16 "isActive" := JBool false ]}.


(** A storage whose session entry is the JSON text of the number zero. *)
Definition cache_of_zero : Storage :=
  {[ STORAGE_KEY := u16 "0" ]}.

End Samples.

(* ===================================================================== *)
(** ** components/TriggerManager.jsx: creating, deleting, the form         *)
(* ===================================================================== *)

Module TriggerCrud.
Import Js Eff Api TriggerManager.
#[local] Open Scope eff_scope.

Section WithServer.
Variable server : Server.
Variable userId : JsVal.

Definition handleCreateTrigger (triggerData : JsVal) : M unit :=
  try_catch
    (call server "createTrigger" [userId; triggerData] ;;;
     fetchTriggers server userId ;;;
     emit (SetState "showCreateForm" (JBool false)) ;;;
     emit (Toast TSuccess [Lit "Trigger created successfully!"]))
    (fun _ =>
       emit (Toast TError [Lit "Failed to create trigger"]) ;;;
       emit (ConsoleError "Create trigger error:")).

Definition handleDeleteTrigger (triggerId : JsVal) : M unit :=
  try_catch
    (call server "deleteTrigger" [userId; triggerId] ;;;
     fetchTriggers server userId ;;;
     emit (Toast TSuccess [Lit "Trigger deleted successfully!"]))
    (fun _ =>
       emit (Toast TError [Lit "Failed to delete trigger"]) ;;;
       emit (ConsoleError "Delete trigger error:")).

End WithServer.

(** *** TriggerForm *)

(** The state [formData] starts from the trigger being edited ([undefined]
    for a new one): each field is the trigger's, or a default when that is
    falsy. *)
Definition initialFormData (trigger : JsVal) : gmap jsstring JsVal :=
  {[ u16 "name" := js_or (get_opt trigger "name") (JStr []);
     u16 "description" := js_or (get_opt trigger "description") (JStr []);
     u16 "triggerType" :=
       js_or (get_opt trigger "triggerType") (JStr (u16 "sender_contains"));
     u16 "condition" := js_or (get_opt trigger "condition") (JStr []);
     u16 "action" := js_or (get_opt trigger "action") (JStr (u16 "log_message")) ]}.

(** The [onChange] of the input or select of field [k]:
    [setFormData({...formData, k: e.target.value})]. *)
Definition change (k : string) (value : jsstring) (formData : gmap jsstring JsVal)
  : gmap jsstring JsVal :=
  <[u16 k := JStr value]> formData.

(** The property of [formData] an input edits. *)
Definition key_of (f : Field) : string :=
  match f with
  | NameInput => "name"
  | TriggerTypeSelect => "triggerType"
  | ConditionInput => "condition"
  | ActionSelect => "action"
  | DescriptionInput => "description"
  end.

(** What a field falls back to when the trigger's value is falsy. *)
Definition default_of (f : Field) : JsVal :=
  match f with
  | TriggerTypeSelect => JStr (u16 "sender_contains")
  | ActionSelect => JStr (u16 "log_message")
  | _ => JStr []
  end.

(** The form after the user's edits, oldest first. *)
Definition after_edits (edits : list (Field * jsstring))
           (formData : gmap jsstring JsVal) : gmap jsstring JsVal :=
  fold_left (fun fd e => change (key_of (fst e)) (snd e) fd) edits formData.

(** [v.trim()] *)
Definition js_trim (v : JsVal) : Completion JsVal :=
  match v with
  | JStr s => Return (JStr (EmailList.trim s))
  | JUndefined | JNull =>
      Throw (TypeError "Cannot read properties of null or undefined: trim")
  | _ => Throw (TypeError "formData.name.trim is not a function")
  end.

(** [handleSubmit], after [e.preventDefault()] (which only keeps the browser
    from submitting the form itself): a blank name is refused, otherwise
    [onSave] gets [{...trigger, ...formData}]. *)
Definition handleSubmit (onSave : JsVal -> M unit) (trigger : JsVal)
           (formData : gmap jsstring JsVal) : M unit :=
  trimmed <- lift (js_trim (field formData "name")) ;;
  if negb (truthy trimmed) then
    emit (Toast TError [Lit "Please enter a trigger name"])
  else onSave (JObj (formData ∪ spread trigger)).

End TriggerCrud.

(* ===================================================================== *)
(** ** Inputs used in further examples                                     *)
(* ===================================================================== *)

Module Fixtures.
Import Js Eff.

(** What a user typed into a form: the field and the new text, oldest
    first. *)
Definition typing : list (TriggerManager.Field * jsstring) :=
  [ (TriggerManager.NameInput, u16 "Boss");
    (TriggerManager.ConditionInput, u16 "boss@co.com");
    (TriggerManager.TriggerTypeSelect, u16 "attachment_exists") ].

(** A trigger with every property the form edits. *)
Definition trigger_9 : gmap jsstring JsVal :=
  {[ u16 "id" := JNum 9;
     u16 "name" := JStr (u16 "Late mail");
     u16 "description" := JStr [];
     u16 "triggerType" := JStr (u16 "time_range");
     u16 "condition" := JStr (u16 "22:00-06:00");
     u16 "action" := JStr (u16 "mark_as_read");
     u16 "isActive" := JBool true ]}.

(** An email as the server lists it. *)
Definition mail (id : Z) : JsVal :=
  JObj {[ u16 "provider_type" := JStr (u16 "gmail");
          u16 "message" := JObj {[ u16 "id" := JNum (inject_Z id) ]} ]}.

(** A response body with four emails and three triggers, two of them
    active, and the server that answers every request with it. *)
Definition mailbox_data : JsVal :=
  JObj {[ u16 "emails" := JArr [mail 1; mail 2; mail 3; mail 4];
          u16 "triggers" := JArr [ JObj Samples.trigger_7;
                                   JObj Samples.trigger_8;
                                   JObj trigger_9 ] ]}.

Definition mailbox : Server := fun _ _ => Resolve mailbox_data.

(** The figures of that mailbox. *)
Definition mailbox_stats : JsVal :=
  JObj {[ u16 "totalEmails" := JNum 4;
          u16 "activeTriggers" := JNum 2;
          u16 "recentEmails" := JArr [mail 1; mail 2; mail 3];
          u16 "connectionStatus" := JStr (u16 "connected") ]}.

(** A session as the callback page stores it, and a [JSON.stringify] that
    is right on that user. *)
Definition session_text : jsstring :=
  json_text "{'user_id':1,'email':'ann@example.com'}".

Definition stringify_ann : JsVal -> jsstring := fun _ => session_text.

(** A [decodeURIComponent] for texts without escapes. *)
Definition decode_plain : jsstring -> Completion jsstring := Return.

(** A storage whose entry is not JSON. *)
Definition stale : SavedUser.Storage :=
  {[ SavedUser.STORAGE_KEY := u16 "[object Object]" ]}.

End Fixtures.

(* ===================================================================== *)
(** ** Shapes of text                                                      *)
(* ===================================================================== *)

Module TextShape.
Import Js EmailList.

(** [/<[^>]*>/.test(s)]: some '<' of [s] has a '>' after it. *)
Fixpoint has_tag (s : jsstring) : bool :=
  match s with
  | [] => false
  | c :: r => ((c =? ch "<") && has_char (ch ">") r) || has_tag r
  end.

(** Every white-space code unit of [s] is a space, and no two are next to
    each other; [after_space] tells that a space stands just before [s]. *)
Fixpoint single_spaced (after_space : bool) (s : jsstring) : bool :=
  match s with
  | [] => true
  | c :: r =>
      if is_space c then (c =? 32) && negb after_space && single_spaced true r
      else single_spaced false r
  end.

(** [s] neither starts nor ends with white space. *)
Definition trimmed (s : jsstring) : bool :=
  match s with
  | [] => true
  | c :: _ => negb (is_space c) && negb (is_space (List.last s c))
  end.

End TextShape.

(* ===================================================================== *)
(** ** pages/EmailsPage.jsx                                                *)
(* ===================================================================== *)

Module EmailsPage.
Import Js Eff Api.
#[local] Open Scope eff_scope.

Section WithServer.
Variable server : Server.
Variable user : JsVal.

(** [fetchEmails]; EmailDashboard has the same function word for word. *)
Definition fetchEmails : M unit :=
  emit (SetState "loading" (JBool true)) ;;;
  try_finally
    (try_catch
       (userId <- lift (get user "user_id") ;;
        response <- call server "getUserEmails" [userId] ;;
        data <- lift (get response "data") ;;
        emails <- lift (get data "emails") ;;
        emit (SetState "emails" (js_or emails (JArr []))))
       (fun _ =>
          emit (Toast TError [Lit "Failed to fetch emails"]) ;;;
          emit (ConsoleError "Email fetch error:")))
    (emit (SetState "loading" (JBool false))).

(** [ticks] runs of the interval's callback, one after the other. *)
Fixpoint refreshes (ticks : nat) : M unit :=
  match ticks with
  | O => ret tt
  | S n => fetchEmails ;;; refreshes n
  end.

(** The page from its mount until the interval has fired [ticks] times:
    the effect fetches once and then [setInterval(fetchEmails, 30000)]
    fetches again at every tick. *)
Definition mount (ticks : nat) : M unit :=
  fetchEmails ;;; refreshes ticks.

End WithServer.
End EmailsPage.

(* ===================================================================== *)
(** ** LoginCard                                                           *)
(* ===================================================================== *)

Module LoginCard.
Import Js Eff Api.
#[local] Open Scope eff_scope.

Section WithServer.
Variable server : Server.
(** Whether the browser can parse a value, turned into a string, as a URL
    relative to the address of the page. *)
Variable href_parses : JsVal -> bool.

(** [window.location.href = url]: the setter throws a SyntaxError
    DOMException when the value does not parse as a URL; otherwise the
    browser starts to navigate there. *)
Definition set_href (url : JsVal) : Completion unit :=
  if href_parses url then Return tt else Throw SyntaxError.

(** [handleProviderLogin]; the result is the value assigned to
    [window.location.href], if the assignment is reached and does not
    throw. *)
Definition handleProviderLogin (provider : JsVal) : M (option JsVal) :=
  emit (SetState "loading" provider) ;;;
  try_catch
    (response <- call server "getAuthUrl" [provider] ;;
     data <- lift (get response "data") ;;
     authUrl <- lift (get data "authorization_url") ;;
     emit (Toast TLoading [Lit "Redirecting to OAuth provider..."]) ;;;
     lift (set_href authUrl) ;;;
     ret (Some authUrl))
    (fun _ =>
       emit (SetState "loading" JNull) ;;;
       emit (Toast TError [Lit "Failed to start "; Hole provider; Lit " login"]) ;;;
       ret None).

End WithServer.
End LoginCard.

(* ===================================================================== *)
(** ** components/Breadcrumb.jsx                                           *)
(* ===================================================================== *)

Module Breadcrumb.

(** [s.split('/')]: the pieces between the slashes; the empty string gives
    one empty piece. *)
Fixpoint split (s : string) : list string :=
  match s with
  | EmptyString => [EmptyString]
  | String c r =>
      if Ascii.eqb c "/" then EmptyString :: split r
      else match split r with
           | [] => [String c EmptyString]
           | piece :: pieces => String c piece :: pieces
           end
  end.

(** [x => x] as a filter: the empty string is falsy. *)
Definition nonempty (x : string) : bool :=
  match x with
  | EmptyString => false
  | _ => true
  end.

(** [location.pathname.split('/').filter((x) => x)] *)
Definition pathnames (pathname : string) : list string :=
  List.filter nonempty (split pathname).

(** [l.join('/')] *)
Fixpoint join (l : list string) : string :=
  match l with
  | [] => EmptyString
  | [x] => x
  | x :: rest => (x ++ "/" ++ join rest)%string
  end.

(** What [routeNames[pathname]] can be. *)
Inductive Name : Type :=
| Text (s : string)
| Inherited (member : string).

Definition routeNames : list (string * string) :=
  [ ("dashboard", "Dashboard");
    ("emails", "Emails");
    ("triggers", "Triggers");
    ("settings", "Settings");
    ("login", "Login") ].

(** The members every object literal inherits from [Object.prototype]; a
    lookup by such a name finds a function (for [__proto__] the prototype
    itself), which is truthy and is not text. *)
Definition object_prototype : list string :=
  [ "constructor"; "hasOwnProperty"; "isPrototypeOf"; "propertyIsEnumerable";
    "toLocaleString"; "toString"; "valueOf"; "__proto__";
    "__defineGetter__"; "__defineSetter__"; "__lookupGetter__";
    "__lookupSetter__" ].

Definition upper (c : ascii) : ascii :=
  let n := nat_of_ascii c in
  if ((97 <=? n) && (n <=? 122))%nat then ascii_of_nat (n - 32) else c.

(** [pathname.charAt(0).toUpperCase() + pathname.slice(1)], for the ASCII
    text a location's pathname is. *)
Definition capitalize (s : string) : string :=
  match s with
  | EmptyString => EmptyString
  | String c r => String (upper c) r
  end.

(** [routeNames[pathname] || pathname.charAt(0).toUpperCase() + pathname.slice(1)] *)
Definition displayName (pathname : string) : Name :=
  match Api.property pathname routeNames with
  | Some name => Text name
  | None =>
      if existsb (String.eqb pathname) object_prototype then Inherited pathname
      else Text (capitalize pathname)
  end.

(** One entry after the home link: the last is a [span], the others are
    links. *)
Inductive Crumb : Type :=
| Link (to : string) (name : Name)
| Current (name : Name).

(** [`/${pathnames.slice(0, index + 1).join('/')}`] *)
Definition routeTo (pathnames : list string) (index : nat) : string :=
  String "/" (join (firstn (index + 1) pathnames)).

(** The callback of [pathnames.map], from [index] on. *)
Fixpoint crumbs_from (all : list string) (index : nat) (rest : list string)
  : list Crumb :=
  match rest with
  | [] => []
  | pathname :: rest' =>
      (if (index =? List.length all - 1)%nat
       then Current (displayName pathname)
       else Link (routeTo all index) (displayName pathname))
      :: crumbs_from all (S index) rest'
  end.

(** What the component renders after its home link; [None] is the [null]
    it returns on the dashboard home. *)
Definition Breadcrumb (pathname : string) : option (list Crumb) :=
  if String.eqb pathname "/dashboard" then None
  else Some (crumbs_from (pathnames pathname) 0 (pathnames pathname)).

End Breadcrumb.

(* ===================================================================== *)
(** ** App.jsx: the session                                                *)
(* ===================================================================== *)

Module Auth.
Import Js Eff SavedUser.

(** What [initializeAuth] reads of [window.location.search]:
    [urlParams.get(name)] for its three names, [None] standing for
    [null]. *)
Record Query : Type := mkQuery {
  oauth_success : option jsstring;
  oauth_error : option jsstring;
  user_data : option jsstring
}.

(** One thing done to the page. *)
Inductive Step : Type :=
| Show (e : Event)
| SetUser (userData : JsVal)
| SetLoading (b : bool)
| SetIsProcessingOAuth (b : bool)
| SetItem (key : string) (value : jsstring)
| RemoveItem (key : string)
| ReplaceState
| NavigateTo (to : string) (replace : bool).

(** A step taken at once, or the steps of a callback given to
    [setTimeout]. *)
Inductive Act : Type :=
| Now (s : Step)
| Later (ms : nat) (callback : list Step).

(** A string or [null] in a condition. *)
Definition given (v : option jsstring) : bool :=
  match v with
  | Some s => truthy (JStr s)
  | None => false
  end.

Section WithBuiltins.
(** [decodeURIComponent], which throws on a malformed escape, and
    [JSON.stringify] on the values it is given here. *)
Variable decodeURIComponent : jsstring -> Completion jsstring.
Variable stringify : JsVal -> jsstring.

(** The first [try]: [userData] after it, with what it logs. *)
Definition from_storage (callbackUserData : option jsstring) : list Act * JsVal :=
  match callbackUserData with
  | Some text =>
      if truthy (JStr text) then
        match JSON_parse text with
        | Return parsed =>
            ([Now (Show (ConsoleLog "✅ Got user data from localStorage:"))], parsed)
        | Throw _ =>
            ([Now (Show (ConsoleError "❌ Failed to parse localStorage OAuth data:"))],
             JNull)
        end
      else ([], JNull)
  | None => ([], JNull)
  end.

(** The second [try], the fallback to the URL. *)
Definition from_url (userData : JsVal) (urlUserData : option jsstring)
  : list Act * JsVal :=
  match urlUserData with
  | Some text =>
      if negb (truthy userData) && truthy (JStr text) then
        match decodeURIComponent text with
        | Return decoded =>
            match JSON_parse decoded with
            | Return parsed =>
                ([Now (Show (ConsoleLog "✅ Got user data from URL params:"))], parsed)
            | Throw _ =>
                ([Now (Show (ConsoleError "❌ Failed to parse URL OAuth data:"))],
                 userData)
            end
        | Throw _ =>
            ([Now (Show (ConsoleError "❌ Failed to parse URL OAuth data:"))], userData)
        end
      else ([], userData)
  | None => ([], userData)
  end.

Definition initializeAuth (query : Query) (localStorage : Storage) : list Act :=
  [ Now (Show (ConsoleLog "🔍 App useEffect running"));
    Now (Show (ConsoleLog "🔗 URL params - success:")) ]
  ++
  if given (oauth_error query) then
    [ Now (Show (Toast TError [Lit "OAuth authentication failed. Please try again."]));
      Now ReplaceState;
      Now (NavigateTo "/login" false);
      Now (SetLoading false) ]
  else if given (oauth_success query) then
    let urlUserData := user_data query in
    let callbackUserData := getItem localStorage STORAGE_KEY in
    let '(logged1, userData1) := from_storage callbackUserData in
    let '(logged2, userData) := from_url userData1 urlUserData in
    [ Now (Show (ConsoleLog "🚀 OAuth success detected - processing..."));
      Now (SetIsProcessingOAuth true);
      Now (Show (ConsoleLog "📞 OAuth success - callback data:"));
      Now (Show (ConsoleLog "🔗 OAuth success - URL data:")) ]
    ++ logged1 ++ logged2 ++
    if truthy userData then
      [ Now ReplaceState;
        Now (SetUser userData) ]
      ++ (if negb (given callbackUserData)
          then [Now (SetItem STORAGE_KEY (stringify userData))]
          else [])
      ++ [ Now (Show (Toast TSuccess [ Lit "Welcome back, ";
                                       Hole (get_opt userData "email");
                                       Lit "! 🎉" ]));
           Now (Show (ConsoleLog "🏠 Navigating to dashboard..."));
           Later 200 [ SetLoading false;
                       SetIsProcessingOAuth false;
                       NavigateTo "/dashboard" true ] ]
    else
      [ Now (Show (ConsoleLog "❌ No user data found in localStorage or URL params"));
        Now (Show (Toast TError [Lit "Authentication data not found"]));
        Now (SetIsProcessingOAuth false);
        Now (NavigateTo "/login" false);
        Now (SetLoading false) ]
  else
    let savedUser := getItem localStorage STORAGE_KEY in
    [ Now (Show (ConsoleLog "📱 Saved user from localStorage:")) ]
    ++ (match savedUser with
        | Some text =>
            if truthy (JStr text) then
              match JSON_parse text with
              | Return userData =>
                  [ Now (Show (ConsoleLog "✅ Setting user from localStorage:"));
                    Now (SetUser userData) ]
              | Throw _ =>
                  [ Now (Show (ConsoleError "Error parsing saved user:"));
                    Now (RemoveItem STORAGE_KEY) ]
              end
            else []
        | None => []
        end)
    ++ [ Now (SetLoading false) ].

(** [handleLogin] *)
Definition handleLogin (userData : JsVal) : list Act :=
  [ Now (SetUser userData);
    Now (SetItem STORAGE_KEY (stringify userData));
    Now (Show (Toast TSuccess [Lit "Welcome to your dashboard! 🎉"]));
    Now (NavigateTo "/dashboard" false) ].

End WithBuiltins.

(** *** The page the steps act on *)

(** The state of [AppContent], the storage, the location, the callbacks
    that wait for their timer, and what was shown or logged. *)
Record World : Type := mkWorld {
  state : App.State;
  localStorage : Storage;
  pathname : string;
  search : option Query;
  timers : list (nat * list Step);
  shown : Log
}.

Definition step (w : World) (s : Step) : World :=
  match s with
  | Show e =>
      mkWorld (state w) (localStorage w) (pathname w) (search w) (timers w)
              (shown w ++ [e])
  | SetUser userData =>
      mkWorld (App.mkState userData (App.loading (state w))
                           (App.isProcessingOAuth (state w)))
              (localStorage w) (pathname w) (search w) (timers w) (shown w)
  | SetLoading b =>
      mkWorld (App.mkState (App.user (state w)) b
                           (App.isProcessingOAuth (state w)))
              (localStorage w) (pathname w) (search w) (timers w) (shown w)
  | SetIsProcessingOAuth b =>
      mkWorld (App.mkState (App.user (state w)) (App.loading (state w)) b)
              (localStorage w) (pathname w) (search w) (timers w) (shown w)
  | SetItem key value =>
      mkWorld (state w) (<[key := value]> (localStorage w)) (pathname w)
              (search w) (timers w) (shown w)
  | RemoveItem key =>
      mkWorld (state w) (delete key (localStorage w)) (pathname w)
              (search w) (timers w) (shown w)
  | ReplaceState =>
      mkWorld (state w) (localStorage w) (pathname w) None (timers w) (shown w)
  | NavigateTo to _ =>
      mkWorld (state w) (localStorage w) to None (timers w) (shown w)
  end.

Definition act (w : World) (a : Act) : World :=
  match a with
  | Now s => step w s
  | Later ms callback =>
      mkWorld (state w) (localStorage w) (pathname w) (search w)
              (timers w ++ [(ms, callback)]) (shown w)
  end.

(** The synchronous run of a handler. *)
Definition run (acts : list Act) (w : World) : World := fold_left act acts w.

(** The timers fire, in the order they were set. *)
Definition fire (w : World) : World :=
  fold_left step (concat (List.map snd (timers w)))
            (mkWorld (state w) (localStorage w) (pathname w) (search w) []
                     (shown w)).

(** The page when [AppContent] mounts: [useState(null)], [useState(true)],
    [useState(false)]. *)
Definition loaded (pathname : string) (query : Query) (localStorage : Storage)
  : World :=
  mkWorld (App.mkState JNull true false) localStorage pathname (Some query) [] [].

(** What is on the screen. *)
Definition screen (w : World) : App.Element :=
  App.AppContent (state w) (pathname w).

(** A location without a query. *)
Definition no_query : Query := mkQuery None None None.

Section Mounted.
Variable decodeURIComponent : jsstring -> Completion jsstring.
Variable stringify : JsVal -> jsstring.

(** The page once [initializeAuth] has run, one time, on the page as it
    mounts; the callback given to [setTimeout] is still waiting. *)
Definition started (path : string) (query : Query) (storage : Storage) : World :=
  run (initializeAuth decodeURIComponent stringify query storage)
      (loaded path query storage).

(** The page once the timer of that run has fired as well. *)
Definition settled (path : string) (query : Query) (storage : Storage) : World :=
  fire (started path query storage).

(** What [initializeAuth] reads of the location of a page: nothing once
    the query is gone. *)
Definition current_query (w : World) : Query :=
  match search w with
  | Some query => query
  | None => no_query
  end.

(** The effect has [navigate] as its dependency: when a navigation has
    changed the path, [initializeAuth] runs again, on the page as it is
    then. *)
Definition rerun (w : World) : World :=
  run (initializeAuth decodeURIComponent stringify (current_query w)
                      (localStorage w))
      w.

End Mounted.

End Auth.

(* ===================================================================== *)
(** ** What the handlers are observed to send and to show                  *)
(* ===================================================================== *)

Module Observed.
Import Js Eff Api DashboardHome.

(** The requests of the methods of [emailAPI] the handlers call. *)
Definition triggers_request (userId : JsVal) : Request :=
  api_get [Lit "/users/"; Hole userId; Lit "/triggers"] [].

Definition emails_request (userId limit : JsVal) : Request :=
  api_get [Lit "/users/"; Hole userId; Lit "/emails"] [("limit", limit)].

Definition delete_request (userId triggerId : JsVal) : Request :=
  api_delete [Lit "/users/"; Hole userId; Lit "/triggers/"; Hole triggerId].

Definition create_request (userId triggerData : JsVal) : Request :=
  api_post [Lit "/users/"; Hole userId; Lit "/triggers"] (Some triggerData).

Definition update_request (userId triggerId updated : JsVal) : Request :=
  api_put [Lit "/users/"; Hole userId; Lit "/triggers/"; Hole triggerId]
          (Some updated).

Definition auth_url_request (provider : JsVal) : Request :=
  api_get [Lit "/auth/"; Hole provider; Lit "/login"] [].

(** What the interceptor shows for an error. *)
Definition shown (error : gmap jsstring JsVal) : JsVal :=
  js_or (get_opt (get_opt (field error "response") "data") "detail")
        (js_or (field error "message") (JStr (u16 "An error occurred"))).

(** The events with which a failed load of the dashboard ends. *)
Definition load_failed : Log :=
  [ ConsoleError "Failed to load dashboard data:";
    Toast TError [Lit "Failed to load dashboard data"];
    SetState "loading" (JBool false) ].

(** The figures [loadDashboardData] computes from the two response bodies,
    in the order it evaluates them. *)
Definition figures (emailsData emails0 triggersData : JsVal) : Completion JsVal :=
  match get triggersData "triggers" with
  | Throw e => Throw e
  | Return triggers0 =>
  match count_active (js_or triggers0 (JArr [])) with
  | Throw e => Throw e
  | Return activeTriggers =>
  match (if negb (truthy emailsData) then Return (JStr (u16 "error"))
         else match get emailsData "error" with
              | Throw e => Throw e
              | Return err =>
                  Return (JStr (u16 (if truthy err then "error" else "connected")))
              end) with
  | Throw e => Throw e
  | Return connectionStatus =>
  match js_length (js_or emails0 (JArr [])) with
  | Throw e => Throw e
  | Return totalEmails =>
  match slice_3 (js_or emails0 (JArr [])) with
  | Throw e => Throw e
  | Return recentEmails =>
      Return (JObj (<[u16 "totalEmails" := totalEmails]>
                   (<[u16 "activeTriggers" := activeTriggers]>
                   (<[u16 "recentEmails" := recentEmails]>
                   (<[u16 "connectionStatus" := connectionStatus]> ∅)))))
  end end end end end.

(** No slash in a piece of a path. *)
Fixpoint slashless (s : string) : bool :=
  match s with
  | EmptyString => true
  | String c r => negb (Ascii.eqb c "/") && slashless r
  end.

(** [k] slashes. *)
Fixpoint slashes (k : nat) : string :=
  match k with
  | O => EmptyString
  | S k' => String "/" (slashes k')
  end.


End Observed.

(** Locations and pages for the examples of the session. *)
Module Sessions.
Import Js Eff Auth.

(** The query of an OAuth redirect that carries the user in the URL. *)
Definition redirect : Query :=
  mkQuery (Some (u16 "true")) None (Some Fixtures.session_text).

(** The login page before anyone has logged in. *)
Definition fresh : World := loaded "/login" no_query ∅.

End Sessions.

(* ===================================================================== *)
(** * Properties                                                           *)
(* ===================================================================== *)

(** ** [JSON.parse] never runs out of its recursion budget *)

Module JsonFacts.
Import Js.

Lemma skip_ws_length (s : jsstring) :
  (List.length (skip_ws s) <= List.length s)%nat.
Proof.
  induction s as [|c r IH]; simpl; [lia|].
  destruct (is_ws c); simpl; lia.
Qed.

Lemma take_digits_length (s : jsstring) :
  forall acc n m k r, take_digits s acc n = (m, k, r) ->
    (List.length r <= List.length s)%nat.
Proof.
  induction s as [|c s IH]; simpl; intros acc n m k r H.
  - inversion H; simpl; lia.
  - destruct (is_digit c).
    + apply IH in H. lia.
    + inversion H; simpl; lia.
Qed.

Lemma number_sign_length (s : jsstring) b r :
  number_sign s = (b, r) -> (List.length r <= List.length s)%nat.
Proof.
  unfold number_sign. destruct s as [|c s]; [|destruct (c =? ch "-")];
    intros H; inversion H; simpl; lia.
Qed.

Lemma number_int_length (s : jsstring) m r :
  number_int s = Some (m, r) -> (List.length r < List.length s)%nat.
Proof.
  unfold number_int. destruct s as [|c s]; [discriminate|].
  destruct (c =? ch "0"); [intros H; inversion H; simpl; lia|].
  destruct (is_digit c) eqn:D; [|discriminate].
  simpl. rewrite D.
  destruct (take_digits s _ _) as [[m' k] r'] eqn:T.
  intros H; inversion H; subst. apply take_digits_length in T. simpl; lia.
Qed.

Lemma number_frac_length m (s : jsstring) m' k r :
  number_frac m s = Some (m', k, r) -> (List.length r <= List.length s)%nat.
Proof.
  unfold number_frac. destruct s as [|c s]; [intros H; inversion H; simpl; lia|].
  destruct (c =? ch ".").
  - destruct (take_digits s m 0) as [[m1 k1] r1] eqn:T.
    apply take_digits_length in T.
    destruct k1; [discriminate|]. intros H; inversion H; subst. simpl; lia.
  - intros H; inversion H; simpl; lia.
Qed.

Lemma exp_sign_length (s : jsstring) b r :
  exp_sign s = (b, r) -> (List.length r <= List.length s)%nat.
Proof.
  unfold exp_sign.
  destruct s as [|d r0]; [|destruct (d =? ch "-"); [|destruct (d =? ch "+")]];
    intros H; inversion H; simpl; lia.
Qed.

Lemma number_exp_length (s : jsstring) e r :
  number_exp s = Some (e, r) -> (List.length r <= List.length s)%nat.
Proof.
  unfold number_exp. destruct s as [|c s]; [intros H; inversion H; simpl; lia|].
  destruct ((c =? ch "e") || (c =? ch "E")).
  - destruct (exp_sign s) as [eneg r1] eqn:Es. apply exp_sign_length in Es.
    destruct (take_digits r1 0 0) as [[e1 k1] r2] eqn:T.
    apply take_digits_length in T.
    destruct k1; [discriminate|]. intros H; inversion H; subst. simpl; lia.
  - intros H; inversion H; simpl; lia.
Qed.

Lemma parse_number_not_stuck (s : jsstring) : parse_number s <> Stuck.
Proof.
  unfold parse_number. destruct (number_sign s) as [neg s1].
  destruct (number_int s1) as [[m s2]|]; [|discriminate].
  destruct (number_frac m s2) as [[[m' k] s3]|]; [|discriminate].
  destruct (number_exp s3) as [[e s4]|]; discriminate.
Qed.

Lemma parse_number_length (s : jsstring) q r :
  parse_number s = Got q r -> (List.length r < List.length s)%nat.
Proof.
  unfold parse_number. destruct (number_sign s) as [neg s1] eqn:E1.
  destruct (number_int s1) as [[m s2]|] eqn:E2; [|discriminate].
  destruct (number_frac m s2) as [[[m' k] s3]|] eqn:E3; [|discriminate].
  destruct (number_exp s3) as [[e s4]|] eqn:E4; [|discriminate].
  intros H; inversion H; subst.
  apply number_sign_length in E1. apply number_int_length in E2.
  apply number_frac_length in E3. apply number_exp_length in E4. lia.
Qed.

Lemma parse_chars_spec (n : nat) :
  forall (s acc : jsstring), (List.length s <= n)%nat ->
    parse_chars s acc <> Stuck /\
    forall k r, parse_chars s acc = Got k r -> (List.length r < List.length s)%nat.
Proof.
  induction n as [|n IH]; intros s acc Hn.
  - destruct s; [|simpl in Hn; lia]. simpl. split; [discriminate|discriminate].
  - destruct s as [|c r]; [simpl; split; discriminate|].
    simpl in Hn.
    assert (Hrec : forall (s' acc' : jsstring), (List.length s' <= List.length r)%nat ->
              parse_chars s' acc' <> Stuck /\
              forall k r', parse_chars s' acc' = Got k r' ->
                           (List.length r' < List.length (c :: r))%nat).
    { intros s' acc' Hs. destruct (IH s' acc') as [H1 H2]; [lia|].
      split; [exact H1|]. intros k r' Hk. apply H2 in Hk. simpl. lia. }
    cbn [parse_chars].
    destruct (c =? dquote).
    { split; [discriminate|]. intros k r' H; inversion H; subst. simpl; lia. }
    destruct (c <? 32); [split; discriminate|].
    destruct (c =? ch "\"); [|apply Hrec; lia].
    destruct r as [|e r1]; [split; discriminate|].
    repeat (match goal with
            | |- context [if ?b then parse_chars r1 _ else _] =>
                destruct b; [apply Hrec; simpl; lia|]
            end).
    destruct (e =? ch "u"); [|split; discriminate].
    destruct r1 as [|h1 [|h2 [|h3 [|h4 r2]]]]; try (split; discriminate).
    destruct (hex_val h1), (hex_val h2), (hex_val h3), (hex_val h4);
      try (split; discriminate).
    apply Hrec. simpl. lia.
Qed.

Lemma parse_chars_not_stuck (s acc : jsstring) : parse_chars s acc <> Stuck.
Proof. apply (parse_chars_spec (List.length s)); lia. Qed.

Lemma parse_chars_length (s acc k r : jsstring) :
  parse_chars s acc = Got k r -> (List.length r < List.length s)%nat.
Proof. apply (parse_chars_spec (List.length s)); lia. Qed.

Lemma parse_string_not_stuck (s : jsstring) : parse_string s <> Stuck.
Proof.
  unfold parse_string. destruct s as [|c r]; [discriminate|].
  destruct (c =? dquote); [apply parse_chars_not_stuck|discriminate].
Qed.

Lemma parse_string_length (s k r : jsstring) :
  parse_string s = Got k r -> (List.length r < List.length s)%nat.
Proof.
  unfold parse_string. destruct s as [|c s]; [discriminate|].
  destruct (c =? dquote); [|discriminate].
  intros H. apply parse_chars_length in H. simpl. lia.
Qed.

Lemma expect_length (lit s r : jsstring) :
  expect lit s = Some r -> (List.length r + List.length lit = List.length s)%nat.
Proof.
  revert s. induction lit as [|a lit IH]; intros s; simpl.
  - intros H; inversion H; lia.
  - destruct s as [|b s]; [discriminate|].
    destruct (a =? b); [|discriminate].
    intros H. apply IH in H. simpl. lia.
Qed.

Lemma parse_word_not_stuck w v (s : jsstring) : parse_word w v s <> Stuck.
Proof. unfold parse_word. destruct (expect _ _); discriminate. Qed.

Lemma parse_word_length w v (s : jsstring) v' r :
  w <> EmptyString -> parse_word w v s = Got v' r ->
  (List.length r < List.length s)%nat.
Proof.
  unfold parse_word. intros Hw. destruct (expect (u16 w) s) eqn:E; [|discriminate].
  intros H; inversion H; subst. apply expect_length in E.
  destruct w; [congruence|]. simpl in E. lia.
Qed.


(** The defining equations of the three mutually recursive functions. *)
Lemma parse_value_S fuel (s : jsstring) :
  parse_value (S fuel) s =
  match skip_ws s with
  | [] => Bad
  | c :: r =>
      if c =? ch "{" then
        match skip_ws r with
        | c' :: r' =>
            if c' =? ch "}" then Got (JObj ∅) r'
            else parse_members fuel (c' :: r') ∅
        | [] => Bad
        end
      else if c =? ch "[" then
        match skip_ws r with
        | c' :: r' =>
            if c' =? ch "]" then Got (JArr []) r'
            else parse_elements fuel (c' :: r') []
        | [] => Bad
        end
      else if c =? dquote then
        match parse_chars r [] with
        | Got str r' => Got (JStr str) r'
        | Bad => Bad
        | Stuck => Stuck
        end
      else if c =? ch "t" then parse_word "true" (JBool true) (c :: r)
      else if c =? ch "f" then parse_word "false" (JBool false) (c :: r)
      else if c =? ch "n" then parse_word "null" JNull (c :: r)
      else
        match parse_number (c :: r) with
        | Got q r' => Got (JNum q) r'
        | Bad => Bad
        | Stuck => Stuck
        end
  end.
Proof. reflexivity. Qed.

Lemma parse_elements_S fuel (s : jsstring) acc :
  parse_elements (S fuel) s acc =
  match parse_value fuel s with
  | Got v r =>
      match skip_ws r with
      | c :: r' =>
          if c =? ch "," then parse_elements fuel r' (acc ++ [v])
          else if c =? ch "]" then Got (JArr (acc ++ [v])) r'
          else Bad
      | [] => Bad
      end
  | Bad => Bad
  | Stuck => Stuck
  end.
Proof. reflexivity. Qed.

Lemma parse_members_S fuel (s : jsstring) acc :
  parse_members (S fuel) s acc =
  match parse_string (skip_ws s) with
  | Got k r =>
      match skip_ws r with
      | c :: r' =>
          if c =? ch ":" then
            match parse_value fuel r' with
            | Got v r'' =>
                match skip_ws r'' with
                | d :: r3 =>
                    if d =? ch "," then parse_members fuel r3 (<[k := v]> acc)
                    else if d =? ch "}" then Got (JObj (<[k := v]> acc)) r3
                    else Bad
                | [] => Bad
                end
            | Bad => Bad
            | Stuck => Stuck
            end
          else Bad
      | [] => Bad
      end
  | Bad => Bad
  | Stuck => Stuck
  end.
Proof. reflexivity. Qed.

(** [skip_ws s] named, with the bound on its length. *)
Ltac name_ws s w E :=
  let H := fresh "Hws" in
  pose proof (skip_ws_length s) as H;
  destruct (skip_ws s) as [|? w] eqn:E; simpl in H.

(** Every successful parse consumes input. *)
Lemma parse_consumes (fuel : nat) :
  (forall s v r, parse_value fuel s = Got v r ->
                 (List.length r < List.length s)%nat) /\
  (forall s acc v r, parse_elements fuel s acc = Got v r ->
                     (List.length r < List.length s)%nat) /\
  (forall s acc v r, parse_members fuel s acc = Got v r ->
                     (List.length r < List.length s)%nat).
Proof.
  induction fuel as [|fuel (IHv & IHe & IHm)].
  { repeat split; intros; discriminate. }
  repeat split.
  - intros s v r. rewrite parse_value_S.
    name_ws s w E; [discriminate|].
    destruct (_ =? ch "{").
    { name_ws w w' E'; [discriminate|].
      destruct (_ =? ch "}"); [intros H; inversion H; subst; lia|].
      intros H. apply IHm in H. simpl in H. lia. }
    destruct (_ =? ch "[").
    { name_ws w w' E'; [discriminate|].
      destruct (_ =? ch "]"); [intros H; inversion H; subst; lia|].
      intros H. apply IHe in H. simpl in H. lia. }
    destruct (_ =? dquote).
    { destruct (parse_chars w []) eqn:P; try discriminate.
      apply parse_chars_length in P. intros H; inversion H; subst. lia. }
    destruct (_ =? ch "t").
    { intros H. apply parse_word_length in H; [simpl in H; lia|discriminate]. }
    destruct (_ =? ch "f").
    { intros H. apply parse_word_length in H; [simpl in H; lia|discriminate]. }
    destruct (_ =? ch "n").
    { intros H. apply parse_word_length in H; [simpl in H; lia|discriminate]. }
    destruct (parse_number _) eqn:P; try discriminate.
    apply parse_number_length in P. simpl in P.
    intros H; inversion H; subst. lia.
  - intros s acc v r. rewrite parse_elements_S.
    destruct (parse_value fuel s) as [| |v1 r1] eqn:P; try discriminate.
    apply IHv in P.
    name_ws r1 w E; [discriminate|].
    destruct (_ =? ch ",").
    { intros H. apply IHe in H. lia. }
    destruct (_ =? ch "]"); [|discriminate].
    intros H; inversion H; subst. lia.
  - intros s acc v r. rewrite parse_members_S.
    pose proof (skip_ws_length s) as Hs.
    destruct (parse_string (skip_ws s)) as [| |k r1] eqn:P; try discriminate.
    apply parse_string_length in P.
    name_ws r1 w E; [discriminate|].
    destruct (_ =? ch ":"); [|discriminate].
    destruct (parse_value fuel w) as [| |v1 r2] eqn:Pv; try discriminate.
    apply IHv in Pv.
    name_ws r2 w2 E2; [discriminate|].
    destruct (_ =? ch ",").
    { intros H. apply IHm in H. lia. }
    destruct (_ =? ch "}"); [|discriminate].
    intros H; inversion H; subst. lia.
Qed.

(** With enough fuel the recursion budget is never what stops a parse. *)
Lemma parse_fuel_enough (fuel : nat) :
  (forall s, (2 * List.length s < fuel)%nat -> parse_value fuel s <> Stuck) /\
  (forall s acc, (2 * List.length s + 1 < fuel)%nat ->
                 parse_elements fuel s acc <> Stuck) /\
  (forall s acc, (2 * List.length s + 1 < fuel)%nat ->
                 parse_members fuel s acc <> Stuck).
Proof.
  induction fuel as [|fuel (IHv & IHe & IHm)].
  { repeat split; intros; lia. }
  repeat split.
  - intros s Hf. rewrite parse_value_S.
    name_ws s w E; [discriminate|].
    destruct (_ =? ch "{").
    { name_ws w w' E'; [discriminate|].
      destruct (_ =? ch "}"); [discriminate|].
      apply IHm. simpl. lia. }
    destruct (_ =? ch "[").
    { name_ws w w' E'; [discriminate|].
      destruct (_ =? ch "]"); [discriminate|].
      apply IHe. simpl. lia. }
    destruct (_ =? dquote).
    { pose proof (parse_chars_not_stuck w []).
      destruct (parse_chars w []); congruence. }
    destruct (_ =? ch "t"); [apply parse_word_not_stuck|].
    destruct (_ =? ch "f"); [apply parse_word_not_stuck|].
    destruct (_ =? ch "n"); [apply parse_word_not_stuck|].
    match goal with
    | |- context [parse_number ?x] =>
        pose proof (parse_number_not_stuck x); destruct (parse_number x); congruence
    end.
  - intros s acc Hf. rewrite parse_elements_S.
    pose proof (IHv s ltac:(lia)) as Hv.
    destruct (parse_value fuel s) as [| |v1 r1] eqn:P; try congruence.
    apply parse_consumes in P.
    name_ws r1 w E; [discriminate|].
    destruct (_ =? ch ","); [apply IHe; lia|].
    destruct (_ =? ch "]"); discriminate.
  - intros s acc Hf. rewrite parse_members_S.
    pose proof (skip_ws_length s) as Hs.
    pose proof (parse_string_not_stuck (skip_ws s)) as Hk.
    destruct (parse_string (skip_ws s)) as [| |k r1] eqn:P; try congruence.
    apply parse_string_length in P.
    name_ws r1 w E; [discriminate|].
    destruct (_ =? ch ":"); [|discriminate].
    pose proof (IHv w ltac:(lia)) as Hv.
    destruct (parse_value fuel w) as [| |v1 r2] eqn:Pv; try congruence.
    apply parse_consumes in Pv.
    name_ws r2 w2 E2; [discriminate|].
    destruct (_ =? ch ","); [apply IHm; lia|].
    destruct (_ =? ch "}"); discriminate.
Qed.

(** [JSON.parse] is decided by the grammar alone: the budget it grants the
    parser always suffices. *)
Lemma JSON_parse_budget (text : jsstring) :
  parse_value (2 * List.length text + 1) text <> Stuck.
Proof. apply parse_fuel_enough. lia. Qed.

(** [JSON.parse] on sample texts. *)
Example JSON_parse_user :
  JSON_parse (json_text "{ 'user_id': 4, 'email': 'bob@example.com' }")
  = Return (JObj {[ u16 "user_id" := JNum 4;
                    u16 "email" := JStr (u16 "bob@example.com") ]}).
Proof. vm_compute. reflexivity. Qed.

Example JSON_parse_values :
  JSON_parse (json_text "[true, false, null, -1.5e1, 0.25, 'aA\n', [], {}]")
  = Return (JArr [JBool true; JBool false; JNull; JNum (-15); JNum (1 # 4);
                  JStr [97; 65; 10]%N; JArr []; JObj ∅]).
Proof. vm_compute. reflexivity. Qed.

Example JSON_parse_last_key_wins :
  JSON_parse (json_text "{'user_id':1,'user_id':2}")
  = Return (JObj {[ u16 "user_id" := JNum 2 ]}).
Proof. vm_compute. reflexivity. Qed.

Example JSON_parse_rejects :
  List.map (fun s => JSON_parse (json_text s))
           [""; "01"; "[1,]"; "{'a':1,}"; "{a:1}"; "nul"; "1."; "-"; "'a"; "[1 2]";
            "undefined"; "1 2"]
  = List.repeat (Throw SyntaxError) 12.
Proof. vm_compute. reflexivity. Qed.

Example JSON_parse_primitives :
  List.map (fun s => JSON_parse (json_text s)) [" 0 "; "'x'"; "null"; "-0"]
  = [Return (JNum 0); Return (JStr (u16 "x")); Return JNull; Return (JNum 0)].
Proof. vm_compute. reflexivity. Qed.

End JsonFacts.

(** ** Running handlers *)

Module EffFacts.
Import Js Eff.

Lemma requests_app (l l' : Log) : requests (l ++ l') = requests l ++ requests l'.
Proof. unfold requests. apply omap_app. Qed.

Lemma bind_lift_Return {A B} (a : A) (k : A -> M B) past :
  bind (lift (Return a)) k past = k a past.
Proof.
  unfold bind, lift. simpl. rewrite app_nil_r. destruct (k a past); reflexivity.
Qed.





End EffFacts.

(** ** Enabling and disabling a trigger *)

Module ToggleFacts.
Import Js Eff Api TriggerManager EffFacts.

Lemma strict_eq_refl (v : JsVal) : is_primitive v = true -> strict_eq v v = true.
Proof.
  destruct v; simpl; try congruence; intros _.
  - apply Bool.eqb_reflx.
  - apply Qeq_bool_iff. reflexivity.
  - unfold jsstring_eqb. apply bool_decide_eq_true. reflexivity.
Qed.

Lemma find_by_id_unique (triggers : list JsVal) (t : gmap jsstring JsVal) :
  List.In (JObj t) triggers ->
  List.Forall (fun x => exists f, x = JObj f) triggers ->
  is_primitive (field t "id") = true ->
  (forall t', List.In (JObj t') triggers ->
              strict_eq (field t' "id") (field t "id") = true -> t' = t) ->
  find_by_id triggers (field t "id") = Return (JObj t).
Proof.
  intros Hin Hobj Hprim Huniq.
  induction triggers as [|x rest IH]; [destruct Hin|].
  inversion Hobj as [|? ? [f ->] Hrest]; subst.
  simpl. destruct (strict_eq (field f "id") (field t "id")) eqn:E.
  - rewrite (Huniq f); [reflexivity|left; reflexivity|exact E].
  - destruct Hin as [Hx|Hin].
    + inversion Hx; subst. rewrite (strict_eq_refl _ Hprim) in E. discriminate.
    + apply IH; [exact Hin|exact Hrest|].
      intros t' Ht'. apply Huniq. right. exact Ht'.
Qed.

Lemma isActive_is_not_id : u16 "isActive" <> u16 "id".
Proof. intros H. vm_compute in H. discriminate. Qed.






(** Everything a toggle does when the server answers. *)
Example toggle_trace :
  events (toggleTrigger Samples.quiet (JNum 1)
            [JObj Samples.trigger_7; JObj Samples.trigger_8] (JNum 8))
  = [ Http (api_put [Lit "/users/"; Hole (JNum 1); Lit "/triggers/"; Hole (JNum 8)]
                    (Some (JObj (<[u16 "isActive" := JBool true]> Samples.trigger_8))));
      SetState "loading" (JBool true);
      Http (api_get [Lit "/users/"; Hole (JNum 1); Lit "/triggers"] []);
      SetState "triggers" (JArr []);
      SetState "loading" (JBool false);
      SetState "editingTrigger" JNull;
      Toast TSuccess [Lit "Trigger updated successfully!"] ].
Proof. vm_compute. reflexivity. Qed.

(** [find] stops at the first trigger with the id: were two triggers to
    share one, a toggle on either would send the first. *)
Example toggle_with_a_shared_id :
  find_by_id [JObj Samples.trigger_7;
              JObj (<[u16 "id" := JNum 7]> Samples.trigger_8)] (JNum 7)
  = Return (JObj Samples.trigger_7).
Proof. vm_compute. reflexivity. Qed.

End ToggleFacts.

(** ** The effective user id *)

Module SavedUserFacts.
Import Js Eff Api SavedUser EffFacts.


(** The effect sends nothing, and what it sets is the override. *)
Lemma effect_run (user own : JsVal) (localStorage : Storage) past :
  get user "user_id" = Return own ->
  exists log,
    effect user localStorage past = (log, Return (override own localStorage))
    /\ requests log = [].
Proof.
  intros Hown. unfold effect, override, cached_user_id.
  destruct (getItem localStorage STORAGE_KEY) as [savedUser|];
    [|eexists; split; reflexivity].
  destruct (truthy (JStr savedUser)); [|eexists; split; reflexivity].
  unfold try_catch, bind, lift, emit, ret.
  destruct (JSON_parse savedUser) as [userData|e]; simpl;
    [|eexists; split; reflexivity].
  destruct (get userData "user_id") as [cached|e]; simpl;
    [|eexists; split; reflexivity].
  rewrite Hown. simpl. unfold strict_neq.
  destruct (strict_eq cached own); simpl; eexists; split; reflexivity.
Qed.

Lemma renders_run (user own : JsVal) (localStorage : Storage) :
  get user "user_id" = Return own ->
  outcome (renders user localStorage)
  = Return (own :: match override own localStorage with
                   | Some cached => [cached]
                   | None => []
                   end).
Proof.
  intros Hown. unfold outcome, renders, initialState. rewrite Hown.
  rewrite bind_lift_Return. unfold bind.
  destruct (effect_run user own localStorage [] Hown) as (log & -> & _).
  simpl. destruct (override own localStorage); reflexivity.
Qed.

Lemma settled_run (user own : JsVal) (localStorage : Storage) :
  get user "user_id" = Return own ->
  outcome (settled user localStorage)
  = Return (default own (override own localStorage)).
Proof.
  intros Hown. pose proof (renders_run user own localStorage Hown) as H.
  unfold outcome, settled, bind in *.
  destruct (renders user localStorage []) as [log c]. simpl in H. subst c.
  simpl. destruct (override own localStorage); reflexivity.
Qed.

(** The requests of a mounted component are those of its child run with the
    user's own id and then, if the cache overrides it, with the cached
    one. *)
Lemma mounted_requests (child : JsVal -> M unit) (user own : JsVal)
      (localStorage : Storage) :
  get user "user_id" = Return own ->
  requests (events (mounted child user localStorage))
  = requests (events (bind (child own)
                        (fun _ => match override own localStorage with
                                  | Some cached => child cached
                                  | None => ret tt
                                  end))).
Proof.
  intros Hown. unfold events, mounted, initialState. rewrite Hown.
  rewrite bind_lift_Return.
  remember (match override own localStorage with
            | Some cached => child cached
            | None => ret tt
            end) as again eqn:Hagain.
  assert (Hk : forall past, exists elog,
             bind (effect user localStorage)
                  (fun set => match set with
                              | Some id1 => child id1
                              | None => ret tt
                              end) past
             = (elog ++ fst (again past), snd (again past))
             /\ requests elog = []).
  { intros past. unfold bind.
    destruct (effect_run user own localStorage past Hown) as (elog & -> & Hnone).
    exists elog. split; [|exact Hnone].
    rewrite Hnone, app_nil_r, <- Hagain.
    destruct (again past); reflexivity. }
  unfold bind at 1 3.
  destruct (child own []) as [log [[]|e]]; [|reflexivity].
  destruct (Hk ([] ++ requests log)) as (elog & -> & Hnone).
  destruct (again ([] ++ requests log)) as [log' c'].
  simpl. rewrite !requests_app, Hnone. reflexivity.
Qed.

(** C1, amended: each of the three components first renders with the
    user's own [user_id]; its effect then replaces that id by the one of the
    cached entry when the entry is usable and its id is not strictly equal
    to the user's, and leaves it otherwise.  Runs whose caches hold the same
    id send the same requests from the dashboard and from the triggers page
    and settle on the same id in the settings page. *)
Theorem effective_user_id_follows_usable_cache :
  forall (server : Server) (user own : JsVal) (cache cache' : Storage),
    get user "user_id" = Return own ->
    outcome (renders user cache)
    = Return (own :: match override own cache with
                     | Some cached => [cached]
                     | None => []
                     end)
    /\ outcome (settled user cache) = Return (default own (override own cache))
    /\ (cached_user_id cache = cached_user_id cache' ->
        requests (events (DashboardLayout.mount server user cache))
        = requests (events (DashboardLayout.mount server user cache'))
        /\ requests (events (TriggersPage.mount server user cache))
           = requests (events (TriggersPage.mount server user cache'))
        /\ outcome (settled user cache) = outcome (settled user cache')).
Proof.
  intros server user own cache cache' Hown.
  split; [apply renders_run, Hown|].
  split; [apply settled_run, Hown|].
  intros Hsame.
  assert (Ho : override own cache = override own cache')
    by (unfold override; rewrite Hsame; reflexivity).
  unfold DashboardLayout.mount, TriggersPage.mount.
  rewrite !(mounted_requests _ user own) by exact Hown.
  rewrite !(settled_run user own) by exact Hown.
  rewrite Ho. repeat split.
Qed.

Lemma effective_user_id_follows_usable_cache_witness :
  outcome (renders Samples.user_1 Samples.cache_of_4)
  = Return [JNum 1; JNum 4]
  /\ outcome (settled Samples.user_1 Samples.cache_of_4) = Return (JNum 4)
  /\ requests (events (DashboardLayout.mount Samples.quiet Samples.user_1
                         Samples.cache_of_4))
     = requests (events (DashboardLayout.mount Samples.quiet Samples.user_1
                           Samples.cache_of_4'))
  /\ requests (events (TriggersPage.mount Samples.quiet Samples.user_1
                         Samples.cache_of_4))
     = requests (events (TriggersPage.mount Samples.quiet Samples.user_1
                           Samples.cache_of_4'))
  /\ outcome (settled Samples.user_1 Samples.cache_of_4)
     = outcome (settled Samples.user_1 Samples.cache_of_4').
Proof.
  destruct (effective_user_id_follows_usable_cache
              Samples.quiet Samples.user_1 (JNum 1)
              Samples.cache_of_4 Samples.cache_of_4' eq_refl)
    as (H1 & H2 & H3).
  split; [exact H1|]. split; [exact H2|].
  apply H3. vm_compute. reflexivity.
Defined.

(** C1, as stated, fails: the two caches differ in the [emailTriggerUser]
    entry only, the user's id is 1, yet with the entry of user 4 the page
    settles on id 4 and asks for the triggers of user 4. *)
Lemma cached_user_id_replaces_the_users :
  delete STORAGE_KEY Samples.cache_of_4 = delete STORAGE_KEY (∅ : Storage)
  /\ initialState Samples.user_1 = Return (JNum 1)
  /\ outcome (settled Samples.user_1 ∅) = Return (JNum 1)
  /\ outcome (settled Samples.user_1 Samples.cache_of_4) = Return (JNum 4)
  /\ requests (events (TriggersPage.mount Samples.quiet Samples.user_1 ∅))
     = [ api_get [Lit "/users/"; Hole (JNum 1); Lit "/triggers"] [] ]
  /\ requests (events (TriggersPage.mount Samples.quiet Samples.user_1
                         Samples.cache_of_4))
     = [ api_get [Lit "/users/"; Hole (JNum 1); Lit "/triggers"] [];
         api_get [Lit "/users/"; Hole (JNum 4); Lit "/triggers"] [] ].
Proof. repeat split; vm_compute; reflexivity. Qed.

End SavedUserFacts.

(** ** The test actions and the response interceptor *)

Module ApiFacts.
Import Js Eff Api.

(** What the settings page tells the user about a probe result, once it
    has one: success when both flags hold, one diagnostic when only the
    profile can be read, another otherwise. *)
Lemma report_tells_the_probe_result (profileOk messagesOk : bool) past :
  SettingsPage.report (Samples.probe_result profileOk messagesOk) past
  = ([ ToastDismiss;
       (if profileOk && messagesOk then
          Toast TSuccess [Lit "✅ Email permissions working! You can read emails."]
        else if profileOk then
          Toast TError [Lit "❌ Can access profile but cannot read emails. Check permissions."]
        else
          Toast TError [Lit "❌ Cannot access Microsoft Graph API. Token may be invalid."]);
       ConsoleLog "Permission Test Results:" ],
     Return tt).
Proof. destruct profileOk, messagesOk; reflexivity. Qed.

(** C2: a click on 'Test Email Permissions' reads [emailAPI.testEmailPermissions],
    which [emailAPI] does not have; the call throws before any request is
    sent, and whatever the backend would answer the user is told 'Failed to
    test permissions'. *)
Theorem permission_probe_is_not_in_emailAPI :
  forall (server : Server) (effectiveUserId : JsVal),
    property "testEmailPermissions" emailAPI = None
    /\ events (SettingsPage.testEmailPermissions server effectiveUserId)
       = [ Toast TLoading [Lit "Testing email permissions..."];
           ToastDismiss;
           Toast TError [Lit "Failed to test permissions"];
           ConsoleError "Permission test error:" ]
    /\ requests (events (SettingsPage.testEmailPermissions server effectiveUserId))
       = [].
Proof. intros server effectiveUserId. split; [|split]; reflexivity. Qed.

(** C3: a click on 'Test Triggers' reads [emailAPI.testTrigger], which
    [emailAPI] does not have; the call throws before any request is sent,
    and whatever the backend would answer the user is told 'Failed to test
    triggers'. *)
Theorem test_trigger_is_not_in_emailAPI :
  forall (server : Server) (effectiveUserId : JsVal),
    property "testTrigger" emailAPI = None
    /\ events (EmailDashboard.handleTestTrigger server effectiveUserId)
       = [ Toast TError [Lit "Failed to test triggers"] ]
    /\ requests (events (EmailDashboard.handleTestTrigger server effectiveUserId))
       = [].
Proof. intros server effectiveUserId. split; [|split]; reflexivity. Qed.





End ApiFacts.

(** ** The email list *)

Module EmailListFacts.
Import Js EmailList.


Lemma cut_string (s : jsstring) (n : nat) :
  exists t, cut (JStr s) n = Return (JStr t) /\ (List.length t <= n + 3)%nat.
Proof.
  unfold cut. destruct (Nat.ltb_spec n (List.length s)).
  - eexists; split; [reflexivity|].
    rewrite List.length_app, List.length_firstn. simpl. lia.
  - eexists; split; [reflexivity|]. lia.
Qed.

Lemma js_or_strings (a b : jsstring) :
  exists t, js_or (JStr a) (js_or (JStr b) (JStr [])) = JStr t.
Proof.
  unfold js_or. destruct (truthy (JStr a)); [eauto|].
  destruct (truthy (JStr b)); eauto.
Qed.

Lemma truncateText_string dom (s : jsstring) (n : nat) :
  exists t, truncateText dom (JStr s) n = Return (JStr t)
            /\ (List.length t <= n + 3)%nat.
Proof.
  unfold truncateText.
  destruct (truthy (JStr s)); simpl negb; cbv iota.
  2:{ exists []. split; [reflexivity|simpl; lia]. }
  unfold includes.
  destruct (has_char (ch "<") s); [|apply cut_string].
  destruct (has_char (ch ">") s); [|apply cut_string].
  simpl andb. cbv iota.
  destruct (dom (JStr s)) as [e|tc it]; [apply cut_string|].
  destruct (js_or_strings tc it) as [t ->]. apply cut_string.
Qed.





(** The fallback that strips tags, and the cut. *)
Example fallback_strips_tags :
  truncateText Samples.no_document (JStr (u16 "<p>Hello <b>world</b></p>  a < b")) 100
  = Return (JStr (u16 "Hello world a < b")).
Proof. vm_compute. reflexivity. Qed.

Example long_text_is_cut :
  truncateText Samples.no_document (JStr (u16 "abcdefghij")) 4
  = Return (JStr (u16 "abcd...")).
Proof. vm_compute. reflexivity. Qed.

End EmailListFacts.

(** ** The trigger management surface: enums and the condition input *)

Module TriggerFormFacts.
Import Js TriggerManager RuleEngine.

(** C6: the values offered by the two selects of the trigger form are, in
    order and without repetition, the names of the seven trigger types and
    of the six actions of the specification; a string is offered exactly
    when it names a member of the enum, and the enums have no other
    member. *)
Theorem offered_types_are_the_closed_enums :
  offered triggerTypes = List.map trigger_type_name all_trigger_types
  /\ offered actionTypes = List.map action_name all_actions
  /\ List.NoDup (offered triggerTypes)
  /\ List.NoDup (offered actionTypes)
  /\ (forall t : TriggerType, List.In t all_trigger_types)
  /\ (forall a : Action, List.In a all_actions)
  /\ (forall s, List.In s (offered triggerTypes) <-> exists t, trigger_type_name t = s)
  /\ (forall s, List.In s (offered actionTypes) <-> exists a, action_name a = s).
Proof.
  assert (Ht : forall t : TriggerType, List.In t all_trigger_types)
    by (intros []; simpl; tauto).
  assert (Ha : forall a : Action, List.In a all_actions)
    by (intros []; simpl; tauto).
  assert (Et : offered triggerTypes = List.map trigger_type_name all_trigger_types)
    by reflexivity.
  assert (Ea : offered actionTypes = List.map action_name all_actions)
    by reflexivity.
  repeat split; try assumption.
  - unfold offered, triggerTypes; simpl.
    repeat (constructor; [simpl; intuition discriminate|]). constructor.
  - unfold offered, actionTypes; simpl.
    repeat (constructor; [simpl; intuition discriminate|]). constructor.
  - rewrite Et, List.in_map_iff. intros (t & E & _). eauto.
  - intros [t <-]. rewrite Et. apply List.in_map, Ht.
  - rewrite Ea, List.in_map_iff. intros (a & E & _). eauto.
  - intros [a <-]. rewrite Ea. apply List.in_map, Ha.
Qed.

Lemma needsCondition_false_iff (triggerType : JsVal) :
  needsCondition triggerType = false <-> triggerType = JStr (u16 "attachment_exists").
Proof.
  unfold needsCondition, existsb. rewrite orb_false_r, negb_false_iff.
  destruct triggerType; simpl; try (split; [discriminate|discriminate]).
  unfold jsstring_eqb. rewrite bool_decide_eq_true.
  split; [intros <-; reflexivity|intros H; inversion H; reflexivity].
Qed.

(** C7: the form shows the condition input unless the selected trigger type
    is the string [attachment_exists], and only then omits it; of the seven
    types on offer that is the sixth alone. *)
Theorem condition_input_omitted_exactly_for_attachment_exists :
  forall triggerType : JsVal,
    (List.In ConditionInput (form_fields triggerType)
       <-> triggerType <> JStr (u16 "attachment_exists"))
    /\ (needsCondition triggerType = false
          <-> triggerType = JStr (u16 "attachment_exists"))
    /\ List.map (fun t => needsCondition (JStr (u16 t))) (offered triggerTypes)
       = [true; true; true; true; true; false; true].
Proof.
  intros triggerType. split; [|split; [apply needsCondition_false_iff|reflexivity]].
  unfold form_fields. rewrite <- needsCondition_false_iff.
  destruct (needsCondition triggerType); simpl.
  - split; [discriminate|tauto].
  - split; [|congruence].
    intros [H|[H|[H|[H|[]]]]]; discriminate.
Qed.

End TriggerFormFacts.

(** ** The router of App.jsx *)

Module AppFacts.
Import Js App.

Lemma logged_out_route (m : Matched) :
  route_element JNull m = LoginPage \/ route_element JNull m = Navigate "/login".
Proof. destruct m; simpl; auto. Qed.

Lemma falsy_user_route (user : JsVal) (m : Matched) :
  truthy user = false ->
  route_element user m = LoginPage \/ route_element user m = Navigate "/login".
Proof. intros H. destruct m; simpl; rewrite H; auto. Qed.

(** C10, amended: the routes test the user for truthiness.  With a falsy
    user ([null] is one) the routes, once rendered, give the login page or a
    redirect to [/login] at every path, and no state of the component
    renders the dashboard layout (so none of its child pages); with a truthy
    user the login route, and so the path [/login], redirects to
    [/dashboard]. *)
Theorem routes_guard_the_dashboard :
  forall (pathname : string) (loading processing : bool) (user : JsVal),
    (truthy user = false ->
     (AppContent (mkState user false false) pathname = LoginPage
      \/ AppContent (mkState user false false) pathname = Navigate "/login")
     /\ (forall u page,
           AppContent (mkState user loading processing) pathname
           <> DashboardLayout u page))
    /\ (truthy user = true ->
        route_element user RouteLogin = Navigate "/dashboard"
        /\ AppContent (mkState user false false) "/login"
           = Navigate "/dashboard")
    /\ truthy JNull = false.
Proof.
  intros pathname l p user. split; [|split; [|reflexivity]].
  - intros Hfalsy. split.
    + unfold AppContent; simpl. apply falsy_user_route, Hfalsy.
    + intros u page. unfold AppContent; simpl.
      destruct (l || p); [discriminate|].
      destruct (falsy_user_route user (matchRoutes pathname) Hfalsy) as [-> | ->];
        discriminate.
  - intros Htruthy. split.
    + simpl. rewrite Htruthy. reflexivity.
    + unfold AppContent. simpl orb. cbv iota.
      change (matchRoutes "/login") with RouteLogin.
      simpl. rewrite Htruthy. reflexivity.
Qed.

(** C10, as stated, fails: with the session entry [0] the load sets the
    user to the number zero, which is not [null], and the path [/login]
    shows the login page. *)
Lemma non_null_user_sees_the_login_page :
  user (Auth.state (Auth.started Fixtures.decode_plain Fixtures.stringify_ann
                                 "/login" Auth.no_query Samples.cache_of_zero))
  = JNum 0
  /\ JNum 0 <> JNull
  /\ AppContent (Auth.state (Auth.started Fixtures.decode_plain Fixtures.stringify_ann
                                          "/login" Auth.no_query
                                          Samples.cache_of_zero))
                "/login"
     = LoginPage.
Proof.
  split; [vm_compute; reflexivity|]. split; [discriminate|].
  vm_compute. reflexivity.
Qed.

(** Paths and the routes they select. *)
Example routes :
  List.map matchRoutes
    ["/login"; "/Login/"; "/"; "/dashboard"; "/dashboard/emails";
     "/dashboard/triggers/"; "/dashboard/settings"; "/dashboard/other"; "/nowhere"]
  = [RouteLogin; RouteLogin; RouteRoot;
     RouteDashboard DashboardHome; RouteDashboard EmailsPage;
     RouteDashboard TriggersPage; RouteDashboard SettingsPage;
     RouteSplat; RouteSplat].
Proof. reflexivity. Qed.

End AppFacts.

(** ** The [time_range] match of the rule engine *)

Module RuleEngineFacts.
Import RuleEngine.
#[local] Open Scope nat_scope.

(** A window that ends before it starts holds the times from its start to
    midnight and from midnight to its end. *)
Lemma within_wraps (from to t : TimeOfDay) :
  minutes to < minutes from ->
  within from to t = true <-> minutes from <= minutes t \/ minutes t <= minutes to.
Proof.
  intros H. unfold within.
  destruct (Nat.leb_spec (minutes from) (minutes to)); [lia|].
  rewrite orb_true_iff, !Nat.leb_le. tauto.
Qed.

(** C8: whatever the day, a [time_range] rule with condition
    "22:00-06:00" matches a message received at 23:30 and one received at
    05:00, and does not match one received at 12:00. *)
Theorem time_range_spans_midnight :
  forall d : Z,
    time_range_matches "22:00-06:00" (mkReceived d (mkTime 23 30)) = true
    /\ time_range_matches "22:00-06:00" (mkReceived d (mkTime 5 0)) = true
    /\ time_range_matches "22:00-06:00" (mkReceived d (mkTime 12 0)) = false.
Proof. intros d. split; [|split]; reflexivity. Qed.

End RuleEngineFacts.

(** ** Requests and their two outcomes *)

Module CallFacts.
Import Js Eff Api Observed.

Lemma api_call_run (server : Server) (req : Request) past :
  api_call server req past
  = match server past req with
    | Resolve data => ([Http req], Return (JObj {[ u16 "data" := data ]}))
    | Reject error =>
        ([Http req; Toast TError [Hole (shown error)]], Throw (Rejected (JObj error)))
    end.
Proof. unfold api_call. destruct (server past req); reflexivity. Qed.

Lemma field_data (data : JsVal) : field {[ u16 "data" := data ]} "data" = data.
Proof. unfold field. rewrite lookup_singleton_eq. reflexivity. Qed.

End CallFacts.

Module FetchTriggersFacts.
Import Js Eff Api TriggerManager Observed CallFacts.

Lemma fetchTriggers_run (server : Server) (userId : JsVal) past :
  fetchTriggers server userId past
  = match server past (triggers_request userId) with
    | Resolve data =>
        match get data "triggers" with
        | Return triggers =>
            ([ SetState "loading" (JBool true);
               Http (triggers_request userId);
               SetState "triggers" (js_or triggers (JArr []));
               SetState "loading" (JBool false) ], Return tt)
        | Throw _ =>
            ([ SetState "loading" (JBool true);
               Http (triggers_request userId);
               Toast TError [Lit "Failed to fetch triggers"];
               ConsoleError "Fetch triggers error:";
               SetState "loading" (JBool false) ], Return tt)
        end
    | Reject error =>
        ([ SetState "loading" (JBool true);
           Http (triggers_request userId);
           Toast TError [Hole (shown error)];
           Toast TError [Lit "Failed to fetch triggers"];
           ConsoleError "Fetch triggers error:";
           SetState "loading" (JBool false) ], Return tt)
    end.
Proof.
  unfold fetchTriggers, try_finally, try_catch, bind, emit, lift.
  change (call server "getTriggers" [userId])
    with (api_call server (triggers_request userId)).
  simpl requests. rewrite app_nil_r, api_call_run.
  destruct (server past (triggers_request userId)) as [data|error]; simpl.
  - rewrite field_data. destruct (get data "triggers"); reflexivity.
  - reflexivity.
Qed.

End FetchTriggersFacts.

(** Splits a membership in a list that is written out, and closes the
    cases in which the element is another constructor. *)
Ltac in_cases :=
  repeat match goal with
         | H : List.In _ _ |- _ => progress simpl in H
         | H : _ \/ _ |- _ => destruct H as [H|H]
         | H : False |- _ => destruct H
         end;
  try discriminate.

Module TriggerListFacts.
Import Js Eff Api TriggerManager TriggerCrud Observed CallFacts FetchTriggersFacts.


(** X2: [fetchTriggers] replaces the list exactly when the request resolved
    with a body that is not [null] or [undefined], and then with the body's
    [triggers], or the empty array when that is falsy; in every other case
    the list is left as it was and the user is told 'Failed to fetch
    triggers'. *)
Theorem fetchTriggers_replaces_list_only_on_success :
  forall (server : Server) (userId : JsVal) (past : list Request),
    let log := fst (fetchTriggers server userId past) in
    (forall v, List.In (SetState "triggers" v) log
               <-> exists data t,
                     server past (triggers_request userId) = Resolve data
                     /\ get data "triggers" = Return t
                     /\ v = js_or t (JArr []))
    /\ ((exists v, List.In (SetState "triggers" v) log)
        \/ List.In [Lit "Failed to fetch triggers"] (error_toasts log))
    /\ ~ ((exists v, List.In (SetState "triggers" v) log)
          /\ List.In [Lit "Failed to fetch triggers"] (error_toasts log)).
Proof.
  intros server userId past log. subst log. rewrite fetchTriggers_run.
  destruct (server past (triggers_request userId)) as [data|error];
    [destruct (get data "triggers") as [t|e] eqn:E|]; simpl.
  - split; [|split].
    + intros v. split.
      * intros H. in_cases. inversion H; subst. exists data, t. auto.
      * intros (d & t' & Hd & Ht & ->). inversion Hd; subst.
        rewrite E in Ht. inversion Ht; subst. auto.
    + left. eauto.
    + intros [_ H]. in_cases.
  - split; [|split].
    + intros v. split.
      * intros H. in_cases.
      * intros (d & t' & Hd & Ht & _). inversion Hd; subst. congruence.
    + right. left. reflexivity.
    + intros [[v H] _]. in_cases.
  - split; [|split].
    + intros v. split.
      * intros H. in_cases.
      * intros (d & t' & Hd & _). discriminate.
    + right. right. left. reflexivity.
    + intros [[v H] _]. in_cases.
Qed.

Lemma fetchTriggers_returns (server : Server) (userId : JsVal) past :
  exists log,
    fetchTriggers server userId past = (log, Return tt)
    /\ requests log = [triggers_request userId].
Proof.
  rewrite fetchTriggers_run.
  destruct (server past (triggers_request userId)) as [data|error];
    [destruct (get data "triggers")|]; eexists; split; reflexivity.
Qed.

End TriggerListFacts.

Module MutationFacts.
Import Js Eff Api TriggerManager TriggerCrud Observed CallFacts FetchTriggersFacts
       TriggerListFacts.

Lemma handleDeleteTrigger_run (server : Server) (userId triggerId : JsVal) past :
  handleDeleteTrigger server userId triggerId past
  = match server past (delete_request userId triggerId) with
    | Resolve _ =>
        (Http (delete_request userId triggerId)
           :: fst (fetchTriggers server userId
                     (past ++ [delete_request userId triggerId]))
           ++ [Toast TSuccess [Lit "Trigger deleted successfully!"]],
         Return tt)
    | Reject error =>
        ([ Http (delete_request userId triggerId);
           Toast TError [Hole (shown error)];
           Toast TError [Lit "Failed to delete trigger"];
           ConsoleError "Delete trigger error:" ], Return tt)
    end.
Proof.
  unfold handleDeleteTrigger, try_catch, bind at 1.
  change (call server "deleteTrigger" [userId; triggerId])
    with (api_call server (delete_request userId triggerId)).
  rewrite api_call_run.
  destruct (server past (delete_request userId triggerId)) as [data|error].
  - simpl requests. unfold bind.
    destruct (fetchTriggers_returns server userId
                (past ++ [delete_request userId triggerId])) as (flog & -> & _).
    reflexivity.
  - reflexivity.
Qed.

Lemma handleCreateTrigger_run (server : Server) (userId triggerData : JsVal) past :
  handleCreateTrigger server userId triggerData past
  = match server past (create_request userId triggerData) with
    | Resolve _ =>
        (Http (create_request userId triggerData)
           :: fst (fetchTriggers server userId
                     (past ++ [create_request userId triggerData]))
           ++ [SetState "showCreateForm" (JBool false);
               Toast TSuccess [Lit "Trigger created successfully!"]],
         Return tt)
    | Reject error =>
        ([ Http (create_request userId triggerData);
           Toast TError [Hole (shown error)];
           Toast TError [Lit "Failed to create trigger"];
           ConsoleError "Create trigger error:" ], Return tt)
    end.
Proof.
  unfold handleCreateTrigger, try_catch, bind at 1.
  change (call server "createTrigger" [userId; triggerData])
    with (api_call server (create_request userId triggerData)).
  rewrite api_call_run.
  destruct (server past (create_request userId triggerData)) as [data|error].
  - simpl requests. unfold bind.
    destruct (fetchTriggers_returns server userId
                (past ++ [create_request userId triggerData])) as (flog & -> & _).
    reflexivity.
  - reflexivity.
Qed.

Lemma handleUpdateTrigger_run (server : Server) (userId : JsVal)
      (updated : gmap jsstring JsVal) past :
  handleUpdateTrigger server userId (JObj updated) past
  = let req := update_request userId (field updated "id") (JObj updated) in
    match server past req with
    | Resolve _ =>
        (Http req
           :: fst (fetchTriggers server userId (past ++ [req]))
           ++ [SetState "editingTrigger" JNull;
               Toast TSuccess [Lit "Trigger updated successfully!"]],
         Return tt)
    | Reject error =>
        ([ Http req;
           Toast TError [Hole (shown error)];
           Toast TError [Lit "Failed to update trigger"];
           ConsoleError "Update trigger error:" ], Return tt)
    end.
Proof.
  cbv zeta.
  unfold handleUpdateTrigger, try_catch, bind at 1, lift. simpl get.
  simpl requests. rewrite app_nil_r. unfold bind at 1.
  change (call server "updateTrigger" [userId; field updated "id"; JObj updated])
    with (api_call server (update_request userId (field updated "id") (JObj updated))).
  rewrite api_call_run.
  destruct (server past _) as [data|error].
  - simpl requests. unfold bind.
    destruct (fetchTriggers_returns server userId
                (past ++ [update_request userId (field updated "id") (JObj updated)]))
      as (flog & -> & _).
    reflexivity.
  - reflexivity.
Qed.

End MutationFacts.

Module MutationTheorems.
Import Js Eff Api TriggerManager TriggerCrud Observed CallFacts FetchTriggersFacts
       TriggerListFacts MutationFacts EffFacts.

(** The log of a refresh holds no success toast and no state change other
    than [loading] and [triggers]. *)
Lemma refresh_log (server : Server) (userId : JsVal) past :
  let flog := fst (fetchTriggers server userId past) in
  requests flog = [triggers_request userId]
  /\ (forall m, ~ List.In (Toast TSuccess m) flog)
  /\ (forall v, ~ List.In (SetState "showCreateForm" v) flog)
  /\ (forall v, ~ List.In (SetState "editingTrigger" v) flog).
Proof.
  cbv zeta. rewrite fetchTriggers_run.
  destruct (server past (triggers_request userId)) as [data|error];
    [destruct (get data "triggers")|]; simpl;
    (split; [reflexivity|]); repeat split; intros ? H; in_cases.
Qed.

(** Unfolds the handler, takes the two answers of the server apart and
    names the log of the refresh. *)
Ltac mutation_cases run server userId req :=
  unfold events, outcome; rewrite run; cbv zeta;
  destruct (server [] req) as [data|error] eqn:Hreply;
  [ destruct (refresh_log server userId ([] ++ [req])) as (Hreq & Hnos & Hnoc & Hnoe);
    set (flog := fst (fetchTriggers server userId ([] ++ [req]))) in * | ];
  cbn [fst snd].

(** X3: [handleDeleteTrigger] never throws.  It says 'Trigger deleted
    successfully!' exactly when the DELETE request resolved, also when the
    refresh that follows fails; a rejected DELETE is followed by no refresh
    at all. *)
Theorem delete_succeeds_iff_request_resolved :
  forall (server : Server) (userId triggerId : JsVal),
    let log := events (handleDeleteTrigger server userId triggerId) in
    outcome (handleDeleteTrigger server userId triggerId) = Return tt
    /\ (List.In (Toast TSuccess [Lit "Trigger deleted successfully!"]) log
        <-> exists data, server [] (delete_request userId triggerId) = Resolve data)
    /\ requests log
       = match server [] (delete_request userId triggerId) with
         | Resolve _ => [delete_request userId triggerId; triggers_request userId]
         | Reject _ => [delete_request userId triggerId]
         end.
Proof.
  intros server userId triggerId.
  mutation_cases handleDeleteTrigger_run server userId
                 (delete_request userId triggerId).
  - split; [reflexivity|]. split.
    + split; [eauto|]. intros _. right. apply List.in_or_app. right. left. reflexivity.
    + change (requests (Http ?r :: ?l)) with (r :: requests l).
      rewrite requests_app, Hreq. reflexivity.
  - split; [reflexivity|]. split; [|reflexivity].
    split; [intros H; in_cases|intros [d Hd]; discriminate].
Qed.

(** X4: [handleCreateTrigger] never throws.  The create form is closed and
    'Trigger created successfully!' is shown exactly when the POST request
    resolved, also when the refresh that follows fails; after a rejected
    POST nothing is refreshed and the form stays open. *)
Theorem create_succeeds_iff_request_resolved :
  forall (server : Server) (userId triggerData : JsVal),
    let log := events (handleCreateTrigger server userId triggerData) in
    outcome (handleCreateTrigger server userId triggerData) = Return tt
    /\ (List.In (Toast TSuccess [Lit "Trigger created successfully!"]) log
        <-> exists data, server [] (create_request userId triggerData) = Resolve data)
    /\ (List.In (SetState "showCreateForm" (JBool false)) log
        <-> exists data, server [] (create_request userId triggerData) = Resolve data)
    /\ requests log
       = match server [] (create_request userId triggerData) with
         | Resolve _ => [create_request userId triggerData; triggers_request userId]
         | Reject _ => [create_request userId triggerData]
         end.
Proof.
  intros server userId triggerData.
  mutation_cases handleCreateTrigger_run server userId
                 (create_request userId triggerData).
  - split; [reflexivity|]. split; [|split].
    + split; [eauto|]. intros _. right. apply List.in_or_app. right.
      right. left. reflexivity.
    + split; [eauto|]. intros _. right. apply List.in_or_app. right.
      left. reflexivity.
    + change (requests (Http ?r :: ?l)) with (r :: requests l).
      rewrite requests_app, Hreq. reflexivity.
  - split; [reflexivity|]. split; [|split; [|reflexivity]].
    + split; [intros H; in_cases|intros [d Hd]; discriminate].
    + split; [intros H; in_cases|intros [d Hd]; discriminate].
Qed.

(** X5: [handleUpdateTrigger] on an object never throws.  It leaves the
    edit form ([editingTrigger] back to [null]) and says 'Trigger updated
    successfully!' exactly when the PUT request resolved, also when the
    refresh that follows fails; after a rejected PUT nothing is refreshed
    and the trigger stays in edit. *)
Theorem update_succeeds_iff_request_resolved :
  forall (server : Server) (userId : JsVal) (updated : gmap jsstring JsVal),
    let req := update_request userId (field updated "id") (JObj updated) in
    let log := events (handleUpdateTrigger server userId (JObj updated)) in
    outcome (handleUpdateTrigger server userId (JObj updated)) = Return tt
    /\ (List.In (Toast TSuccess [Lit "Trigger updated successfully!"]) log
        <-> exists data, server [] req = Resolve data)
    /\ (List.In (SetState "editingTrigger" JNull) log
        <-> exists data, server [] req = Resolve data)
    /\ requests log
       = match server [] req with
         | Resolve _ => [req; triggers_request userId]
         | Reject _ => [req]
         end.
Proof.
  intros server userId updated.
  mutation_cases handleUpdateTrigger_run server userId
                 (update_request userId (field updated "id") (JObj updated)).
  - split; [reflexivity|]. split; [|split].
    + split; [eauto|]. intros _. right. apply List.in_or_app. right.
      right. left. reflexivity.
    + split; [eauto|]. intros _. right. apply List.in_or_app. right.
      left. reflexivity.
    + change (requests (Http ?r :: ?l)) with (r :: requests l).
      rewrite requests_app, Hreq. reflexivity.
  - split; [reflexivity|]. split; [|split; [|reflexivity]].
    + split; [intros H; in_cases|intros [d Hd]; discriminate].
    + split; [intros H; in_cases|intros [d Hd]; discriminate].
Qed.

End MutationTheorems.

(** ** The trigger form *)

Module FormFacts.
Import Js Eff Api TriggerManager TriggerCrud.

Lemma key_of_inj (f g : Field) : u16 (key_of f) = u16 (key_of g) -> f = g.
Proof. destruct f, g; intros H; try reflexivity; vm_compute in H; discriminate. Qed.

(** The form data always has the five properties of the form and no
    other. *)
Lemma initialFormData_keys (trigger : JsVal) (k : jsstring) :
  is_Some (initialFormData trigger !! k) <-> exists f, k = u16 (key_of f).
Proof.
  unfold initialFormData. split.
  - intros [v H].
    apply lookup_insert_Some in H as [[Hk _]|[_ H]];
      [exists NameInput; symmetry; exact Hk|].
    apply lookup_insert_Some in H as [[Hk _]|[_ H]];
      [exists DescriptionInput; symmetry; exact Hk|].
    apply lookup_insert_Some in H as [[Hk _]|[_ H]];
      [exists TriggerTypeSelect; symmetry; exact Hk|].
    apply lookup_insert_Some in H as [[Hk _]|[_ H]];
      [exists ConditionInput; symmetry; exact Hk|].
    apply lookup_singleton_Some in H as [Hk _].
    exists ActionSelect; symmetry; exact Hk.
  - intros [f ->]. destruct f; vm_compute; eauto.
Qed.

Lemma after_edits_keys (edits : list (Field * jsstring))
      (fd : gmap jsstring JsVal) :
  (forall k, is_Some (fd !! k) <-> exists f, k = u16 (key_of f)) ->
  forall k, is_Some (after_edits edits fd !! k) <-> exists f, k = u16 (key_of f).
Proof.
  revert fd. induction edits as [|[f v] edits IH]; intros fd Hfd; [exact Hfd|].
  simpl. apply IH. intros k. unfold change.
  destruct (decide (u16 (key_of f) = k)) as [<-|Hne].
  - rewrite lookup_insert_eq. split; [eauto|]. intros _. eauto.
  - rewrite lookup_insert_ne by exact Hne. apply Hfd.
Qed.

Lemma initialFormData_lookup (trigger : JsVal) (f : Field) :
  initialFormData trigger !! u16 (key_of f)
  = Some (js_or (get_opt trigger (key_of f)) (default_of f)).
Proof. destruct f; reflexivity. Qed.

Lemma form_keys (trigger : JsVal) (edits : list (Field * jsstring)) (k : jsstring) :
  is_Some (after_edits edits (initialFormData trigger) !! k)
  <-> exists f, k = u16 (key_of f).
Proof. apply after_edits_keys, initialFormData_keys. Qed.

Lemma handleSubmit_run (onSave : JsVal -> M unit) (trigger : JsVal)
      (formData : gmap jsstring JsVal) (s : jsstring) past :
  field formData "name" = JStr s ->
  handleSubmit onSave trigger formData past
  = match EmailList.trim s with
    | [] => ([Toast TError [Lit "Please enter a trigger name"]], Return tt)
    | _ => onSave (JObj (formData ∪ spread trigger)) past
    end.
Proof.
  intros Hname. unfold handleSubmit. rewrite Hname. simpl js_trim.
  rewrite EffFacts.bind_lift_Return.
  destruct (EmailList.trim s); reflexivity.
Qed.

(** X6: with a name that is a string, [handleSubmit] refuses a name made of
    white space only (an error toast, and [onSave] is not called);
    otherwise, after any edits of the form, it saves an object that has the
    form's value in each of the five properties of the form and the
    trigger's own value in every other one ([id] and [isActive] among
    them). *)
Theorem submit_saves_form_over_trigger :
  forall (onSave : JsVal -> M unit) (trigger : JsVal)
         (edits : list (Field * jsstring)) (s : jsstring) (past : list Request),
    let formData := after_edits edits (initialFormData trigger) in
    field formData "name" = JStr s ->
    if bool_decide (EmailList.trim s = []) then
      handleSubmit onSave trigger formData past
      = ([Toast TError [Lit "Please enter a trigger name"]], Return tt)
    else
      exists saved,
        handleSubmit onSave trigger formData past = onSave (JObj saved) past
        /\ (forall f, saved !! u16 (key_of f) = formData !! u16 (key_of f))
        /\ (forall k, (forall f, k <> u16 (key_of f)) ->
                      saved !! k = spread trigger !! k).
Proof.
  intros onSave trigger edits s past formData Hname.
  assert (Hkeys : forall k, is_Some (formData !! k) <-> exists f, k = u16 (key_of f))
    by (intros k; apply form_keys).
  clearbody formData.
  rewrite (handleSubmit_run _ _ _ s) by exact Hname.
  case_bool_decide as Hblank; [rewrite Hblank; reflexivity|].
  exists (formData ∪ spread trigger). split; [|split].
  - destruct (EmailList.trim s); [congruence|reflexivity].
  - intros f.
    destruct (proj2 (Hkeys (u16 (key_of f)))) as [v Hv]; [eauto|].
    rewrite Hv. apply lookup_union_Some_l. exact Hv.
  - intros k Hk. apply lookup_union_r.
    destruct (formData !! k) eqn:E; [|reflexivity].
    destruct (proj1 (Hkeys k)) as [f ->]; [eauto|].
    destruct (Hk f). reflexivity.
Qed.

Lemma submit_saves_form_over_trigger_witness :
  exists saved,
    handleSubmit (handleUpdateTrigger Samples.quiet (JNum 1))
                 (JObj Fixtures.trigger_9)
                 (after_edits Fixtures.typing (initialFormData (JObj Fixtures.trigger_9)))
                 []
    = handleUpdateTrigger Samples.quiet (JNum 1) (JObj saved) []
    /\ (forall f, saved !! u16 (key_of f)
                  = after_edits Fixtures.typing
                      (initialFormData (JObj Fixtures.trigger_9)) !! u16 (key_of f))
    /\ (forall k, (forall f, k <> u16 (key_of f)) ->
                  saved !! k = spread (JObj Fixtures.trigger_9) !! k).
Proof.
  exact (submit_saves_form_over_trigger
           (handleUpdateTrigger Samples.quiet (JNum 1)) (JObj Fixtures.trigger_9)
           Fixtures.typing (u16 "Boss") [] eq_refl).
Defined.

(** X7: opening the edit form of a trigger and saving it untouched hands
    [onSave] the trigger itself, provided its name is a string that is not
    blank and each of its other four form properties is present and either
    truthy or already the form's default; no property is lost or added. *)
Theorem untouched_edit_saves_the_trigger :
  forall (onSave : JsVal -> M unit) (t : gmap jsstring JsVal) (s : jsstring)
         (past : list Request),
    t !! u16 "name" = Some (JStr s) ->
    EmailList.trim s <> [] ->
    (forall f, exists v, t !! u16 (key_of f) = Some v
                         /\ js_or v (default_of f) = v) ->
    handleSubmit onSave (JObj t) (initialFormData (JObj t)) past
    = onSave (JObj t) past.
Proof.
  intros onSave t s past Hname Hblank Hkept.
  assert (Hfield : forall f, initialFormData (JObj t) !! u16 (key_of f)
                             = t !! u16 (key_of f)).
  { intros f. rewrite initialFormData_lookup.
    destruct (Hkept f) as (v & Hv & Hor).
    unfold get_opt, get, field. rewrite Hv. simpl. rewrite Hor. reflexivity. }
  rewrite (handleSubmit_run _ _ _ s).
  2:{ pose proof (Hfield NameInput) as Hn. simpl key_of in Hn.
      unfold field. rewrite Hn, Hname. reflexivity. }
  destruct (EmailList.trim s) eqn:E; [congruence|].
  f_equal. f_equal. simpl spread. apply map_eq. intros k.
  destruct (initialFormData (JObj t) !! k) as [v|] eqn:Ek.
  - rewrite (lookup_union_Some_l _ _ _ _ Ek).
    destruct (proj1 (initialFormData_keys (JObj t) k)) as [f ->]; [rewrite Ek; eauto|].
    rewrite <- Hfield. symmetry. exact Ek.
  - apply lookup_union_r. exact Ek.
Qed.

Lemma untouched_edit_saves_the_trigger_witness :
  handleSubmit (handleUpdateTrigger Samples.quiet (JNum 1))
               (JObj Fixtures.trigger_9) (initialFormData (JObj Fixtures.trigger_9)) []
  = handleUpdateTrigger Samples.quiet (JNum 1) (JObj Fixtures.trigger_9) [].
Proof.
  apply (untouched_edit_saves_the_trigger _ _ (u16 "Late mail")).
  - reflexivity.
  - vm_compute. discriminate.
  - intros f. destruct f; eexists; split; reflexivity.
Defined.

(** X8: choosing [attachment_exists] takes the condition input off the form
    but not the condition out of the form data: whatever the condition was,
    it is saved with the trigger. *)
Theorem hidden_condition_is_still_saved :
  forall (onSave : JsVal -> M unit) (trigger : JsVal)
         (edits : list (Field * jsstring)) (s : jsstring) (past : list Request),
    let before := after_edits edits (initialFormData trigger) in
    let formData := change "triggerType" (u16 "attachment_exists") before in
    field before "name" = JStr s ->
    EmailList.trim s <> [] ->
    ~ List.In ConditionInput (form_fields (field formData "triggerType"))
    /\ exists saved,
         handleSubmit onSave trigger formData past = onSave (JObj saved) past
         /\ saved !! u16 "triggerType" = Some (JStr (u16 "attachment_exists"))
         /\ saved !! u16 "condition" = before !! u16 "condition"
         /\ is_Some (saved !! u16 "condition").
Proof.
  intros onSave trigger edits s past before formData Hname Hblank.
  assert (Htype : formData !! u16 "triggerType"
                  = Some (JStr (u16 "attachment_exists")))
    by (unfold formData, change; apply lookup_insert_eq).
  assert (Hcond : formData !! u16 "condition" = before !! u16 "condition")
    by (unfold formData, change; apply lookup_insert_ne;
        intros H; vm_compute in H; discriminate).
  destruct (proj2 (form_keys trigger edits (u16 "condition"))) as [c Hc];
    [exists ConditionInput; reflexivity|]. fold before in Hc.
  split.
  - unfold field. rewrite Htype. simpl. intros H. in_cases.
  - exists (formData ∪ spread trigger). split; [|split; [|split]].
    + rewrite (handleSubmit_run _ _ _ s).
      * destruct (EmailList.trim s); [congruence|reflexivity].
      * unfold field, formData, change.
        rewrite lookup_insert_ne by (intros H; vm_compute in H; discriminate).
        exact Hname.
    + apply lookup_union_Some_l. exact Htype.
    + rewrite Hc. apply lookup_union_Some_l. rewrite Hcond. exact Hc.
    + exists c. apply lookup_union_Some_l. rewrite Hcond. exact Hc.
Qed.

Lemma hidden_condition_is_still_saved_witness :
  ~ List.In ConditionInput
      (form_fields
         (field (change "triggerType" (u16 "attachment_exists")
                   (after_edits Fixtures.typing (initialFormData JUndefined)))
                "triggerType"))
  /\ exists saved,
       handleSubmit (handleCreateTrigger Samples.quiet (JNum 1)) JUndefined
         (change "triggerType" (u16 "attachment_exists")
            (after_edits Fixtures.typing (initialFormData JUndefined))) []
       = handleCreateTrigger Samples.quiet (JNum 1) (JObj saved) []
       /\ saved !! u16 "triggerType" = Some (JStr (u16 "attachment_exists"))
       /\ saved !! u16 "condition"
          = after_edits Fixtures.typing (initialFormData JUndefined) !! u16 "condition"
       /\ is_Some (saved !! u16 "condition").
Proof.
  apply (hidden_condition_is_still_saved
           (handleCreateTrigger Samples.quiet (JNum 1)) JUndefined
           Fixtures.typing (u16 "Boss") []).
  - reflexivity.
  - vm_compute. discriminate.
Defined.

End FormFacts.

(** ** More on enabling and disabling *)

Module ToggleMoreFacts.
Import Js Eff Api TriggerManager Observed EffFacts ToggleFacts MutationFacts.



Lemma toggleTrigger_found (server : Server) (userId triggerId : JsVal)
      (triggers : list JsVal) (t : gmap jsstring JsVal) past :
  find_by_id triggers triggerId = Return (JObj t) ->
  toggleTrigger server userId triggers triggerId past
  = handleUpdateTrigger server userId
      (JObj (<[u16 "isActive" := js_not (field t "isActive")]> t)) past.
Proof.
  intros H. unfold toggleTrigger. rewrite H.
  etransitivity; [apply bind_lift_Return|]. simpl truthy. cbv iota. simpl get.
  etransitivity; [apply bind_lift_Return|]. reflexivity.
Qed.



(** X10: toggling twice is a round trip: when [isActive] of a trigger is a
    boolean, the object sent by a toggle of the object sent by a toggle
    of the trigger is the trigger again. *)
Theorem toggle_twice_restores_the_trigger :
  forall (server server' : Server) (userId : JsVal) (t : gmap jsstring JsVal)
         (b : bool),
    t !! u16 "isActive" = Some (JBool b) ->
    is_primitive (field t "id") = true ->
    exists (once : gmap jsstring JsVal) (then_ then_' : Log),
      events (toggleTrigger server userId [JObj t] (field t "id"))
      = Http (update_request userId (field t "id") (JObj once)) :: then_
      /\ once !! u16 "isActive" = Some (JBool (negb b))
      /\ events (toggleTrigger server' userId [JObj once] (field t "id"))
         = Http (update_request userId (field t "id") (JObj t)) :: then_'.
Proof.
  intros server server' userId t b Hactive Hprim.
  set (once := <[u16 "isActive" := js_not (field t "isActive")]> t).
  assert (Hid : field once "id" = field t "id")
    by (unfold field, once; rewrite lookup_insert_ne by apply isActive_is_not_id;
        reflexivity).
  assert (Hnot : js_not (field t "isActive") = JBool (negb b))
    by (unfold field; rewrite Hactive; reflexivity).
  assert (Hback : <[u16 "isActive" := js_not (field once "isActive")]> once = t).
  { unfold once at 2. rewrite insert_insert_eq. apply insert_id.
    rewrite Hactive. f_equal. unfold field, once.
    rewrite lookup_insert_eq, Hnot. simpl. unfold js_not. simpl.
    rewrite negb_involutive. reflexivity. }
  assert (Hfind : forall (x : gmap jsstring JsVal),
             field x "id" = field t "id" ->
             find_by_id [JObj x] (field t "id") = Return (JObj x)).
  { intros x Hx. simpl. rewrite Hx, (strict_eq_refl _ Hprim). reflexivity. }
  assert (Hrun : forall (srv : Server) (x : gmap jsstring JsVal),
             field x "id" = field t "id" ->
             exists l,
               events (toggleTrigger srv userId [JObj x] (field t "id"))
               = Http (update_request userId (field t "id")
                         (JObj (<[u16 "isActive" := js_not (field x "isActive")]> x)))
                 :: l).
  { intros srv x Hx.
    unfold events.
    rewrite (toggleTrigger_found _ _ _ _ x) by exact (Hfind x Hx).
    rewrite handleUpdateTrigger_run. cbv zeta.
    replace (field (<[u16 "isActive" := js_not (field x "isActive")]> x) "id")
      with (field t "id")
      by (unfold field; rewrite lookup_insert_ne by apply isActive_is_not_id;
          symmetry; exact Hx).
    destruct (srv [] _); eexists; reflexivity. }
  destruct (Hrun server t eq_refl) as [l1 H1].
  destruct (Hrun server' once Hid) as [l2 H2].
  rewrite Hback in H2.
  exists once, l1, l2. split; [exact H1|]. split; [|exact H2].
  unfold once. rewrite lookup_insert_eq, Hnot. reflexivity.
Qed.

Lemma toggle_twice_restores_the_trigger_witness :
  exists (once : gmap jsstring JsVal) (then_ then_' : Log),
    events (toggleTrigger Samples.quiet (JNum 1) [JObj Samples.trigger_7]
              (field Samples.trigger_7 "id"))
    = Http (update_request (JNum 1) (field Samples.trigger_7 "id") (JObj once))
      :: then_
    /\ once !! u16 "isActive" = Some (JBool (negb true))
    /\ events (toggleTrigger Samples.unreachable (JNum 1) [JObj once]
                 (field Samples.trigger_7 "id"))
       = Http (update_request (JNum 1) (field Samples.trigger_7 "id")
                 (JObj Samples.trigger_7))
         :: then_'.
Proof.
  apply (toggle_twice_restores_the_trigger
           Samples.quiet Samples.unreachable (JNum 1) Samples.trigger_7 true);
    reflexivity.
Defined.

End ToggleMoreFacts.

(** ** The text of a body preview *)

Module PreviewFacts.
Import Js EmailList TextShape.

(** The defining equations, for rewriting. *)
Lemma has_char_cons c x (r : jsstring) :
  has_char c (x :: r) = (c =? x) || has_char c r.
Proof. reflexivity. Qed.

Lemma has_tag_cons c (r : jsstring) :
  has_tag (c :: r) = ((c =? ch "<") && has_char (ch ">") r) || has_tag r.
Proof. reflexivity. Qed.

Lemma strip_tags_cons inside c (r : jsstring) :
  strip_tags inside (c :: r)
  = if inside then
      if c =? ch ">" then 32 :: strip_tags false r else strip_tags true r
    else if (c =? ch "<") && has_char (ch ">") r then strip_tags true r
    else c :: strip_tags false r.
Proof. reflexivity. Qed.

Lemma collapse_spaces_cons b c (r : jsstring) :
  collapse_spaces b (c :: r)
  = if is_space c then
      if b then collapse_spaces true r else 32 :: collapse_spaces true r
    else c :: collapse_spaces false r.
Proof. reflexivity. Qed.

Lemma single_spaced_cons b c (r : jsstring) :
  single_spaced b (c :: r)
  = if is_space c then (c =? 32) && negb b && single_spaced true r
    else single_spaced false r.
Proof. reflexivity. Qed.

Lemma has_char_app c (a b : jsstring) :
  has_char c (a ++ b) = has_char c a || has_char c b.
Proof. unfold has_char. apply List.existsb_app. Qed.

Lemma space_32 : is_space 32 = true.
Proof. reflexivity. Qed.

Lemma space_is_no_bracket (c : N) :
  is_space c = true -> (c =? ch "<") = false /\ (ch ">" =? c) = false.
Proof.
  intros H. split; apply N.eqb_neq; intros E; subst c; vm_compute in H;
    discriminate.
Qed.

(** Stripping adds no '>'. *)
Lemma strip_tags_gt (s : jsstring) :
  forall inside, has_char (ch ">") s = false ->
                 has_char (ch ">") (strip_tags inside s) = false.
Proof.
  induction s as [|c r IH]; intros inside H; [reflexivity|].
  rewrite has_char_cons in H. apply orb_false_iff in H as [Hc Hr].
  rewrite strip_tags_cons, Hr, andb_false_r.
  destruct inside.
  - rewrite N.eqb_sym, Hc. apply IH, Hr.
  - rewrite has_char_cons, Hc. apply IH, Hr.
Qed.

Lemma strip_tags_no_tag (s : jsstring) :
  forall inside, has_tag (strip_tags inside s) = false.
Proof.
  induction s as [|c r IH]; intros inside; [reflexivity|].
  rewrite strip_tags_cons. destruct inside.
  - destruct (c =? ch ">"); [|apply IH].
    rewrite has_tag_cons, IH. reflexivity.
  - destruct (c =? ch "<") eqn:Hlt.
    + rewrite andb_true_l.
      destruct (has_char (ch ">") r) eqn:Hgt; [apply IH|].
      rewrite has_tag_cons, Hlt, (strip_tags_gt r false Hgt), IH. reflexivity.
    + rewrite andb_false_l, has_tag_cons, Hlt, IH. reflexivity.
Qed.

Lemma collapse_spaces_gt (s : jsstring) :
  forall b, has_char (ch ">") (collapse_spaces b s) = has_char (ch ">") s.
Proof.
  induction s as [|c r IH]; intros b; [reflexivity|].
  rewrite collapse_spaces_cons, has_char_cons. destruct (is_space c) eqn:Hs.
  - destruct (space_is_no_bracket c Hs) as [_ Hgt]. rewrite Hgt.
    destruct b; [apply IH|]. rewrite has_char_cons, IH. reflexivity.
  - rewrite has_char_cons, IH. reflexivity.
Qed.

Lemma collapse_spaces_tag (s : jsstring) :
  forall b, has_tag (collapse_spaces b s) = has_tag s.
Proof.
  induction s as [|c r IH]; intros b; [reflexivity|].
  rewrite collapse_spaces_cons, has_tag_cons. destruct (is_space c) eqn:Hs.
  - destruct (space_is_no_bracket c Hs) as [Hlt _]. rewrite Hlt.
    destruct b; [apply IH|]. rewrite has_tag_cons, IH. reflexivity.
  - rewrite has_tag_cons, collapse_spaces_gt, IH. reflexivity.
Qed.

Lemma has_tag_app (a b : jsstring) :
  has_tag (a ++ b) = false -> has_tag a = false /\ has_tag b = false.
Proof.
  induction a as [|c a IH]; [simpl; auto|].
  rewrite <- List.app_comm_cons, !has_tag_cons.
  intros H. apply orb_false_iff in H as [H1 H2].
  destruct (IH H2) as [Ha Hb]. rewrite Ha, Hb, orb_false_r. split; [|reflexivity].
  apply andb_false_iff in H1 as [H1|H1]; [rewrite H1; reflexivity|].
  rewrite has_char_app in H1. apply orb_false_iff in H1 as [H1 _].
  rewrite H1. apply andb_false_r.
Qed.

Lemma trim_start_suffix (s : jsstring) :
  exists ws, s = ws ++ trim_start s /\ forallb is_space ws = true.
Proof.
  induction s as [|c r (ws & E & Hws)]; [exists []; auto|].
  simpl. destruct (is_space c) eqn:Hs.
  - exists (c :: ws). simpl. rewrite Hs, Hws, <- E. auto.
  - exists []. auto.
Qed.

(** [trim s] is [s] without white space on either side. *)
Lemma trim_infix (s : jsstring) :
  exists before after,
    s = before ++ trim s ++ after
    /\ forallb is_space before = true /\ forallb is_space after = true.
Proof.
  unfold trim.
  destruct (trim_start_suffix s) as (ws & E & Hws).
  destruct (trim_start_suffix (rev (trim_start s))) as (ws' & E' & Hws').
  exists ws, (rev ws'). split; [|split].
  - rewrite E at 1. f_equal.
    rewrite <- (rev_involutive (trim_start s)) at 1. rewrite E' at 1.
    rewrite rev_app_distr. reflexivity.
  - exact Hws.
  - apply List.forallb_forall. intros x Hx. apply List.in_rev in Hx.
    revert x Hx. apply List.forallb_forall. exact Hws'.
Qed.

Lemma collapse_spaces_single (s : jsstring) :
  forall b, single_spaced b (collapse_spaces b s) = true.
Proof.
  induction s as [|c r IH]; intros b; [reflexivity|].
  rewrite collapse_spaces_cons. destruct (is_space c) eqn:Hs.
  - destruct b; [apply IH|].
    rewrite single_spaced_cons, space_32, (IH true). reflexivity.
  - rewrite single_spaced_cons, Hs. apply IH.
Qed.

Lemma single_spaced_weaken (s : jsstring) :
  forall b, single_spaced b s = true -> single_spaced false s = true.
Proof.
  destruct s as [|c r]; intros b H; [reflexivity|].
  rewrite single_spaced_cons in *. destruct (is_space c); [|exact H].
  apply andb_true_iff in H as [H Hr]. apply andb_true_iff in H as [H _].
  rewrite H, Hr. reflexivity.
Qed.

Lemma single_spaced_app (a b : jsstring) :
  forall p, single_spaced p (a ++ b) = true ->
            single_spaced p a = true /\ single_spaced false b = true.
Proof.
  induction a as [|c a IH]; intros p H.
  - split; [reflexivity|]. apply (single_spaced_weaken _ p), H.
  - rewrite <- List.app_comm_cons in H. rewrite single_spaced_cons in *.
    destruct (is_space c).
    + apply andb_true_iff in H as [H Hr]. destruct (IH _ Hr) as [Ha Hb].
      rewrite H, Ha. auto.
    + apply IH, H.
Qed.

Lemma trim_start_head (s : jsstring) c r :
  trim_start s = c :: r -> is_space c = false.
Proof.
  induction s as [|x s IH]; [discriminate|].
  simpl. destruct (is_space x) eqn:Hx; [exact IH|].
  intros H. inversion H; subst. exact Hx.
Qed.

Lemma last_of_app (a b : jsstring) d :
  b <> [] -> List.last (a ++ b) d = List.last b d.
Proof.
  intros Hb. induction a as [|x a IH]; [reflexivity|].
  simpl. destruct (a ++ b) eqn:E; [|exact IH].
  destruct a, b; try discriminate. congruence.
Qed.

Lemma trim_trimmed (s : jsstring) : trimmed (trim s) = true.
Proof.
  unfold trim.
  destruct (trim_start_suffix (rev (trim_start s))) as (ws & E & _).
  destruct (trim_start (rev (trim_start s))) as [|c u] eqn:Hu; [reflexivity|].
  pose proof (trim_start_head _ _ _ Hu) as Hc.
  (* the last unit of [c :: u] is the first of [trim_start s] *)
  assert (Hlast : is_space (List.last (c :: u) c) = false).
  { destruct (trim_start s) as [|x t] eqn:Ht.
    - simpl in E. destruct ws; discriminate.
    - pose proof (trim_start_head _ _ _ Ht) as Hx.
      assert (El : List.last (rev (x :: t)) c = x)
        by (simpl; apply List.last_last).
      rewrite E in El.
      rewrite last_of_app in El by discriminate. rewrite El. exact Hx. }
  (* [rev (c :: u)] starts with that unit and ends with [c] *)
  unfold trimmed. simpl rev.
  destruct (rev u ++ [c]) as [|y w] eqn:Er; [reflexivity|].
  apply andb_true_iff. split.
  - assert (Ey : y = List.last (c :: u) c).
    { assert (Hr : rev (c :: u) = y :: w) by (simpl; exact Er).
      apply (f_equal (@rev N)) in Hr. rewrite rev_involutive in Hr.
      rewrite Hr. simpl rev. symmetry. apply List.last_last. }
    rewrite Ey, Hlast. reflexivity.
  - rewrite <- Er, List.last_last, Hc. reflexivity.
Qed.

Lemma strip_tags_length (s : jsstring) :
  forall inside, (List.length (strip_tags inside s) <= List.length s)%nat.
Proof.
  induction s as [|c r IH]; intros inside; [simpl; lia|].
  rewrite strip_tags_cons. pose proof (IH true). pose proof (IH false).
  destruct inside; [destruct (c =? ch ">")|destruct ((c =? ch "<") && _)];
    cbn [List.length]; lia.
Qed.

Lemma collapse_spaces_length (s : jsstring) :
  forall b, (List.length (collapse_spaces b s) <= List.length s)%nat.
Proof.
  induction s as [|c r IH]; intros b; [simpl; lia|].
  rewrite collapse_spaces_cons. pose proof (IH true). pose proof (IH false).
  destruct (is_space c); [destruct b|]; cbn [List.length]; lia.
Qed.

Lemma trim_length (s : jsstring) : (List.length (trim s) <= List.length s)%nat.
Proof.
  destruct (trim_infix s) as (a & z & E & _).
  rewrite E at 2. rewrite !List.length_app. lia.
Qed.

(** X11: when the text has a '<' and a '>' and the browser fails to parse
    it, the preview is cut from a text with no tag left in it (no '<' with
    a '>' after it), with single spaces as its only white space and none at
    either end, and no longer than the original. *)
Theorem fallback_preview_is_clean :
  forall (dom : JsVal -> DomOutcome) (s : jsstring) (length : nat) (e : Exn),
    has_char (ch "<") s = true ->
    has_char (ch ">") s = true ->
    dom (JStr s) = DomThrows e ->
    exists t,
      truncateText dom (JStr s) length = cut (JStr t) length
      /\ has_tag t = false
      /\ single_spaced false t = true
      /\ trimmed t = true
      /\ (List.length t <= List.length s)%nat.
Proof.
  intros dom s length e Hlt Hgt Hdom.
  exists (trim (collapse_spaces false (strip_tags false s))).
  split; [|split; [|split; [|split]]].
  - unfold truncateText, includes. rewrite Hlt, Hgt, Hdom.
    destruct s; [discriminate|]. reflexivity.
  - destruct (trim_infix (collapse_spaces false (strip_tags false s)))
      as (a & z & E & _).
    pose proof (strip_tags_no_tag s false) as Hs.
    rewrite <- (collapse_spaces_tag _ false), E in Hs.
    apply has_tag_app in Hs as [_ Hs]. apply has_tag_app in Hs as [Hs _].
    exact Hs.
  - destruct (trim_infix (collapse_spaces false (strip_tags false s)))
      as (a & z & E & _).
    pose proof (collapse_spaces_single (strip_tags false s) false) as Hs.
    rewrite E in Hs.
    apply single_spaced_app in Hs as [_ Hs].
    apply single_spaced_app in Hs as [Hs _]. exact Hs.
  - apply trim_trimmed.
  - pose proof (trim_length (collapse_spaces false (strip_tags false s))).
    pose proof (collapse_spaces_length (strip_tags false s) false).
    pose proof (strip_tags_length s false). lia.
Qed.

Lemma fallback_preview_is_clean_witness :
  exists t,
    truncateText Samples.no_document
      (JStr (u16 "<p>Dear  Ann,</p> <b>pay</b> now ")) 20
    = cut (JStr t) 20
    /\ has_tag t = false
    /\ single_spaced false t = true
    /\ trimmed t = true
    /\ (List.length t <= List.length (u16 "<p>Dear  Ann,</p> <b>pay</b> now "))%nat.
Proof.
  apply (fallback_preview_is_clean Samples.no_document
           (u16 "<p>Dear  Ann,</p> <b>pay</b> now ") 20
           (TypeError "document is not defined"));
    reflexivity.
Defined.

(** X12: a text that lacks a '<' or lacks a '>' is never handed to the
    browser as HTML: whatever the browser would do, the preview is the text
    itself when it has at most [length] code units, and otherwise its first
    [length] code units followed by three dots. *)
Theorem plain_text_never_reaches_the_dom :
  forall (dom : JsVal -> DomOutcome) (s : jsstring) (length : nat),
    has_char (ch "<") s && has_char (ch ">") s = false ->
    truncateText dom (JStr s) length
    = Return (JStr (if (length <? List.length s)%nat
                    then firstn length s ++ u16 "..."
                    else s))
    /\ truncateText dom (JStr s) length
       = truncateText Samples.no_document (JStr s) length.
Proof.
  intros dom s length H.
  assert (E : forall d, truncateText d (JStr s) length
                        = Return (JStr (if (length <? List.length s)%nat
                                        then firstn length s ++ u16 "..."
                                        else s))).
  { intros d. unfold truncateText, includes.
    destruct s as [|c r]; [reflexivity|].
    change (negb (truthy (JStr (c :: r)))) with false. cbv iota.
    remember (has_char (ch "<") (c :: r)) as lt eqn:Elt.
    remember (has_char (ch ">") (c :: r)) as gt eqn:Egt.
    clear Elt Egt.
    destruct lt, gt; try discriminate H; cbn [andb]; cbv iota;
      unfold cut; destruct (length <? List.length (c :: r))%nat; reflexivity. }
  split; [apply E|]. rewrite !E. reflexivity.
Qed.

Lemma plain_text_never_reaches_the_dom_witness :
  truncateText (fun _ => DomText (u16 "other") []) (JStr (u16 "1 < 2, as ever")) 5
  = Return (JStr (if (5 <? List.length (u16 "1 < 2, as ever"))%nat
                  then firstn 5 (u16 "1 < 2, as ever") ++ u16 "..."
                  else u16 "1 < 2, as ever"))
  /\ truncateText (fun _ => DomText (u16 "other") []) (JStr (u16 "1 < 2, as ever")) 5
     = truncateText Samples.no_document (JStr (u16 "1 < 2, as ever")) 5.
Proof.
  apply (plain_text_never_reaches_the_dom
           (fun _ => DomText (u16 "other") []) (u16 "1 < 2, as ever") 5).
  reflexivity.
Defined.

End PreviewFacts.

(** ** The dashboard's figures *)

Module DashboardFacts.
Import Js Eff Api DashboardHome Observed CallFacts FetchTriggersFacts.

Lemma requests_one (r : Request) : requests [Http r] = [r].
Proof. reflexivity. Qed.

Lemma loadDashboardData_run (server : Server) (userId : JsVal) past :
  loadDashboardData server userId past
  = let er := emails_request userId (JNum 5) in
    let tr := triggers_request userId in
    match server past er with
    | Reject error =>
        (SetState "loading" (JBool true) :: Http er
           :: Toast TError [Hole (shown error)] :: load_failed, Return tt)
    | Resolve emailsData =>
        match get emailsData "emails" with
        | Throw _ =>
            (SetState "loading" (JBool true) :: Http er :: load_failed, Return tt)
        | Return emails0 =>
            match server (past ++ [er]) tr with
            | Reject error =>
                (SetState "loading" (JBool true) :: Http er :: Http tr
                   :: Toast TError [Hole (shown error)] :: load_failed, Return tt)
            | Resolve triggersData =>
                match figures emailsData emails0 triggersData with
                | Throw _ =>
                    (SetState "loading" (JBool true) :: Http er :: Http tr
                       :: load_failed, Return tt)
                | Return stats =>
                    ([ SetState "loading" (JBool true); Http er; Http tr;
                       SetState "stats" stats;
                       SetState "loading" (JBool false) ], Return tt)
                end
            end
        end
    end.
Proof.
  cbv zeta.
  unfold loadDashboardData, try_finally, try_catch.
  change (call server "getUserEmails" [userId; JNum 5])
    with (api_call server (emails_request userId (JNum 5))).
  change (call server "getTriggers" [userId])
    with (api_call server (triggers_request userId)).
  unfold bind, emit, lift, ret. cbn [requests omap].
  rewrite app_nil_r, api_call_run.
  destruct (server past (emails_request userId (JNum 5))) as [emailsData|error];
    [|reflexivity].
  cbn [get]. rewrite field_data.
  destruct (get emailsData "emails") as [emails0|e]; [|reflexivity].
  rewrite requests_one. change (requests []) with (@nil Request).
  rewrite !app_nil_r, api_call_run.
  destruct (server (past ++ [emails_request userId (JNum 5)])
                   (triggers_request userId)) as [triggersData|error];
    [|reflexivity].
  cbn [get]. rewrite field_data. unfold figures.
  destruct (get triggersData "triggers") as [triggers0|e]; [|reflexivity].
  destruct (count_active (js_or triggers0 (JArr []))) as [activeTriggers|e];
    [|reflexivity].
  destruct (negb (truthy emailsData)).
  - destruct (js_length (js_or emails0 (JArr []))) as [totalEmails|e];
      [|reflexivity].
    destruct (slice_3 (js_or emails0 (JArr []))) as [recentEmails|e];
      reflexivity.
  - destruct (get emailsData "error") as [err|e]; [|reflexivity].
    destruct (js_length (js_or emails0 (JArr []))) as [totalEmails|e];
      [|reflexivity].
    destruct (slice_3 (js_or emails0 (JArr []))) as [recentEmails|e];
      reflexivity.
Qed.

Lemma filter_active_length (l kept : list JsVal) :
  filter_active l = Return kept -> (List.length kept <= List.length l)%nat.
Proof.
  revert kept. induction l as [|t rest IH]; intros kept H.
  - inversion H. simpl. lia.
  - simpl in H. destruct (get t "isActive") as [a|e]; [|discriminate].
    destruct (filter_active rest) as [kept'|e]; [|discriminate].
    specialize (IH kept' eq_refl). inversion H.
    destruct (truthy a); simpl; lia.
Qed.

Lemma get_opt_Return (v x : JsVal) (k : string) :
  get v k = Return x -> get_opt v k = x.
Proof. unfold get_opt. intros ->. reflexivity. Qed.


(** X14: the figures the dashboard publishes are consistent with the two
    response bodies: the total is the length of the emails, the recent
    emails are their first three (all of them when there are fewer), the
    number of active triggers is at most the number of triggers listed, and
    the connection status is 'connected' or 'error'. *)
Theorem dashboard_figures_are_consistent :
  forall (server : Server) (effectiveUserId : JsVal) (past : list Request)
         (emailsData triggersData stats : JsVal),
    server past (emails_request effectiveUserId (JNum 5)) = Resolve emailsData ->
    server (past ++ [emails_request effectiveUserId (JNum 5)])
           (triggers_request effectiveUserId) = Resolve triggersData ->
    List.In (SetState "stats" stats)
            (fst (loadDashboardData server effectiveUserId past)) ->
    exists (triggers : list JsVal) (total active : nat),
      js_or (get_opt triggersData "triggers") (JArr []) = JArr triggers
      /\ js_length (js_or (get_opt emailsData "emails") (JArr []))
         = Return (of_nat total)
      /\ slice_3 (js_or (get_opt emailsData "emails") (JArr []))
         = Return (get_opt stats "recentEmails")
      /\ get_opt stats "totalEmails" = of_nat total
      /\ js_length (get_opt stats "recentEmails") = Return (of_nat (Nat.min 3 total))
      /\ get_opt stats "activeTriggers" = of_nat active
      /\ (active <= List.length triggers)%nat
      /\ (get_opt stats "connectionStatus" = JStr (u16 "connected")
          \/ get_opt stats "connectionStatus" = JStr (u16 "error")).
Proof.
  intros server userId past emailsData triggersData stats He Ht Hin.
  rewrite loadDashboardData_run in Hin. cbv zeta in Hin.
  rewrite He in Hin. unfold load_failed in Hin.
  destruct (get emailsData "emails") as [emails0|e] eqn:Hemails;
    [|simpl in Hin; in_cases].
  rewrite Ht in Hin.
  destruct (figures emailsData emails0 triggersData) as [stats'|e] eqn:Hfig;
    [|simpl in Hin; in_cases].
  assert (stats' = stats) as ->.
  { simpl in Hin. in_cases. inversion Hin. reflexivity. }
  clear Hin. unfold figures in Hfig.
  rewrite (get_opt_Return _ _ _ Hemails).
  destruct (get triggersData "triggers") as [triggers0|e] eqn:Htr; [|discriminate].
  rewrite (get_opt_Return _ _ _ Htr).
  unfold count_active in Hfig.
  destruct (js_or triggers0 (JArr [])) as [| | | | |triggers|]; try discriminate.
  destruct (filter_active triggers) as [kept|e] eqn:Hkept; [|discriminate].
  apply filter_active_length in Hkept.
  remember (if negb (truthy emailsData) then Return (JStr (u16 "error"))
            else match get emailsData "error" with
                 | Return err =>
                     Return (JStr (u16 (if truthy err then "error" else "connected")))
                 | Throw e => Throw e
                 end) as status eqn:Hstatus.
  assert (Hs : forall v, status = Return v ->
               v = JStr (u16 "connected") \/ v = JStr (u16 "error")).
  { intros v Hv. subst status. destruct (negb (truthy emailsData)).
    - inversion Hv. right. reflexivity.
    - destruct (get emailsData "error") as [err|e]; [|discriminate].
      inversion Hv. destruct (truthy err); [right|left]; reflexivity. }
  clear Hstatus. destruct status as [connectionStatus|e]; [|discriminate].
  specialize (Hs connectionStatus eq_refl).
  exists triggers.
  destruct (js_or emails0 (JArr [])) as [| | | |s|emails|]; try discriminate.
  - exists (List.length s), (List.length kept).
    simpl in Hfig. inversion Hfig. subst stats. clear Hfig.
    repeat split; try reflexivity; try assumption.
    match goal with
    | |- js_length ?x = _ => change x with (JStr (firstn 3 s))
    end.
    unfold js_length. rewrite List.length_firstn. reflexivity.
  - exists (List.length emails), (List.length kept).
    simpl in Hfig. inversion Hfig. subst stats. clear Hfig.
    repeat split; try reflexivity; try assumption.
    match goal with
    | |- js_length ?x = _ => change x with (JArr (firstn 3 emails))
    end.
    unfold js_length. rewrite List.length_firstn. reflexivity.
Qed.

Lemma dashboard_figures_are_consistent_witness :
  exists (triggers : list JsVal) (total active : nat),
    js_or (get_opt Fixtures.mailbox_data "triggers") (JArr []) = JArr triggers
    /\ js_length (js_or (get_opt Fixtures.mailbox_data "emails") (JArr []))
       = Return (of_nat total)
    /\ slice_3 (js_or (get_opt Fixtures.mailbox_data "emails") (JArr []))
       = Return (get_opt Fixtures.mailbox_stats "recentEmails")
    /\ get_opt Fixtures.mailbox_stats "totalEmails" = of_nat total
    /\ js_length (get_opt Fixtures.mailbox_stats "recentEmails")
       = Return (of_nat (Nat.min 3 total))
    /\ get_opt Fixtures.mailbox_stats "activeTriggers" = of_nat active
    /\ (active <= List.length triggers)%nat
    /\ (get_opt Fixtures.mailbox_stats "connectionStatus" = JStr (u16 "connected")
        \/ get_opt Fixtures.mailbox_stats "connectionStatus" = JStr (u16 "error")).
Proof.
  apply (dashboard_figures_are_consistent
           Fixtures.mailbox (JNum 1) []
           Fixtures.mailbox_data Fixtures.mailbox_data Fixtures.mailbox_stats
           eq_refl eq_refl).
  vm_compute. right. right. right. left. reflexivity.
Defined.

End DashboardFacts.

(** ** The emails page *)

Module EmailsPageFacts.
Import Js Eff Api SavedUser EmailsPage Observed EffFacts CallFacts FetchTriggersFacts
       DashboardFacts.










End EmailsPageFacts.

(** ** The login card *)

Module LoginCardFacts.
Import Js Eff Api LoginCard Observed EffFacts CallFacts.

(** X17: a click on a provider button leaves the page exactly when the
    request for the authorization URL resolved with a body that is not
    [null] or [undefined] and the browser takes the body's
    [authorization_url] as a URL; [loading] then stays on the provider.  In
    every other case the page is not left, [loading] is reset to [null] and
    the user is told that the login could not be started, also after
    'Redirecting to OAuth provider...' was shown.  The handler never
    throws. *)
Theorem provider_login_redirects_or_resets :
  forall (server : Server) (href_parses : JsVal -> bool) (provider : JsVal)
         (past : list Request),
    (exists data authUrl,
        server past (auth_url_request provider) = Resolve data
        /\ get data "authorization_url" = Return authUrl
        /\ href_parses authUrl = true
        /\ handleProviderLogin server href_parses provider past
           = ([ SetState "loading" provider;
                Http (auth_url_request provider);
                Toast TLoading [Lit "Redirecting to OAuth provider..."] ],
              Return (Some authUrl)))
    \/ ((forall data authUrl,
           server past (auth_url_request provider) = Resolve data ->
           get data "authorization_url" = Return authUrl ->
           href_parses authUrl = false)
        /\ exists shown_first,
             handleProviderLogin server href_parses provider past
             = (SetState "loading" provider
                  :: Http (auth_url_request provider)
                  :: shown_first
                  ++ [ SetState "loading" JNull;
                       Toast TError [Lit "Failed to start "; Hole provider;
                                     Lit " login"] ],
                Return None)
             /\ requests shown_first = []).
Proof.
  intros server href_parses provider past.
  unfold handleProviderLogin, try_catch, bind, emit, lift, ret, set_href.
  change (call server "getAuthUrl" [provider])
    with (api_call server (auth_url_request provider)).
  change (requests [SetState "loading" provider]) with (@nil Request).
  rewrite !app_nil_r, api_call_run.
  destruct (server past (auth_url_request provider)) as [data|error].
  - cbn [get]. rewrite field_data.
    destruct (get data "authorization_url") as [authUrl|e] eqn:Hurl.
    + destruct (href_parses authUrl) eqn:Hparses.
      * left. exists data, authUrl. split; [reflexivity|].
        split; [exact Hurl|]. split; [exact Hparses|reflexivity].
      * right. split.
        -- intros data' authUrl' H H'. inversion H. subst data'.
           rewrite Hurl in H'. inversion H'. subst authUrl'. exact Hparses.
        -- exists [Toast TLoading [Lit "Redirecting to OAuth provider..."]].
           split; reflexivity.
    + right. split.
      * intros data' authUrl' H H'. inversion H. subst data'.
        rewrite Hurl in H'. discriminate H'.
      * exists []. split; reflexivity.
  - right. split.
    + intros data authUrl H. discriminate H.
    + exists [Toast TError [Hole (shown error)]]. split; reflexivity.
Qed.

End LoginCardFacts.

(** ** The breadcrumb *)

Module BreadcrumbFacts.
Import Breadcrumb Observed.

Lemma split_cons (c : ascii) (r : string) :
  split (String c r)
  = if Ascii.eqb c "/" then EmptyString :: split r
    else match split r with
         | [] => [String c EmptyString]
         | piece :: pieces => String c piece :: pieces
         end.
Proof. reflexivity. Qed.




Lemma split_piece (x rest : string) :
  slashless x = true ->
  split (x ++ String "/" rest) = x :: split rest.
Proof.
  induction x as [|c r IH]; intros Hx; [reflexivity|].
  cbn [slashless] in Hx. apply andb_prop in Hx as [Hc Hr].
  apply negb_true_iff in Hc.
  change (String c r ++ String "/" rest)%string
    with (String c (r ++ String "/" rest)%string).
  rewrite split_cons, Hc, (IH Hr). reflexivity.
Qed.

Lemma split_last (x : string) : slashless x = true -> split x = [x].
Proof.
  induction x as [|c r IH]; intros Hx; [reflexivity|].
  cbn [slashless] in Hx. apply andb_prop in Hx as [Hc Hr].
  apply negb_true_iff in Hc.
  rewrite split_cons, Hc, (IH Hr). reflexivity.
Qed.









Lemma lower_slash (c : ascii) : Ascii.eqb (App.lower c) "/" = Ascii.eqb c "/".
Proof. destruct c as [[] [] [] [] [] [] [] []]; reflexivity. Qed.

Lemma lower_upper (c : ascii) : App.lower (upper c) = App.lower c.
Proof. destruct c as [[] [] [] [] [] [] [] []]; reflexivity. Qed.

Lemma lowercase_slashless (s : string) :
  slashless (App.lowercase s) = slashless s.
Proof.
  induction s as [|c r IH]; [reflexivity|].
  cbn [App.lowercase slashless]. rewrite lower_slash, IH. reflexivity.
Qed.

(** A path is what [strip_slashes] keeps of it, followed by slashes. *)
Lemma strip_slashes_spec (s : string) :
  exists k, s = (App.strip_slashes s ++ slashes k)%string.
Proof.
  induction s as [|c r [k IH]]; [exists 0%nat; reflexivity|].
  cbn [App.strip_slashes].
  destruct (App.strip_slashes r) as [|c' r'] eqn:Hr.
  - destruct (Ascii.eqb_spec c "/") as [->|Hc].
    + exists (S k). rewrite IH. reflexivity.
    + exists k. rewrite IH at 1. reflexivity.
  - exists k. rewrite IH at 1. reflexivity.
Qed.

Lemma split_slashes (k : nat) :
  List.filter nonempty (split (slashes k)) = [].
Proof.
  induction k as [|k IH]; [reflexivity|].
  cbn [slashes]. rewrite split_cons. cbn [Ascii.eqb Bool.eqb List.filter nonempty].
  exact IH.
Qed.

Lemma pathnames_one (d : string) (k : nat) :
  slashless d = true -> nonempty d = true ->
  pathnames (String "/" (d ++ slashes k)) = [d].
Proof.
  intros Hs Hn. unfold pathnames. rewrite split_cons.
  cbn [Ascii.eqb Bool.eqb List.filter nonempty].
  destruct k as [|k].
  - replace (d ++ slashes 0)%string with d
      by (clear; induction d as [|c r IH]; [reflexivity|];
          cbn [slashes] in *; change (String c r ++ EmptyString)%string
            with (String c (r ++ EmptyString)%string); rewrite <- IH; reflexivity).
    rewrite (split_last _ Hs). cbn [List.filter]. rewrite Hn. reflexivity.
  - cbn [slashes]. rewrite (split_piece _ _ Hs). cbn [List.filter].
    rewrite Hn, split_slashes. reflexivity.
Qed.

Lemma displayName_dashboard (d : string) :
  App.lowercase d = "dashboard"%string ->
  exists name, displayName d = Text name
               /\ App.lowercase name = "dashboard"%string.
Proof.
  intros Hd. unfold displayName, routeNames. cbn [Api.property].
  destruct (String.eqb_spec "dashboard" d) as [<-|_];
    [exists "Dashboard"%string; split; reflexivity|].
  destruct (String.eqb_spec "emails" d) as [<-|_]; [discriminate Hd|].
  destruct (String.eqb_spec "triggers" d) as [<-|_]; [discriminate Hd|].
  destruct (String.eqb_spec "settings" d) as [<-|_]; [discriminate Hd|].
  destruct (String.eqb_spec "login" d) as [<-|_]; [discriminate Hd|].
  destruct (existsb (String.eqb d) object_prototype) eqn:Hproto.
  - apply List.existsb_exists in Hproto as (member & Hin & Heq).
    apply String.eqb_eq in Heq. subst member.
    cbn [object_prototype List.In] in Hin.
    repeat (destruct Hin as [<-|Hin]; [discriminate Hd|]). destruct Hin.
  - exists (capitalize d). split; [reflexivity|].
    destruct d as [|c r]; [discriminate Hd|].
    cbn [capitalize App.lowercase] in *. rewrite lower_upper. exact Hd.
Qed.

(** X19: the breadcrumb hides itself only at the path that is exactly
    [/dashboard]; at every other spelling of a path the router takes to
    the dashboard home (other letter case, slashes at the end) it shows one
    crumb, the current one, named after the segment. *)
Theorem breadcrumb_shows_on_other_dashboard_paths :
  forall (pathname : string),
    App.matchRoutes pathname = App.RouteDashboard App.DashboardHome ->
    pathname <> "/dashboard"%string ->
    exists name,
      Breadcrumb pathname = Some [Current (Text name)]
      /\ App.lowercase name = "dashboard"%string.
Proof.
  intros pathname Hroute Hother.
  assert (Hp : App.lowercase (App.strip_slashes pathname) = "/dashboard"%string).
  { unfold App.matchRoutes in Hroute. cbv zeta in Hroute.
    destruct (String.eqb _ "/login"); [discriminate|].
    destruct (String.eqb_spec (App.lowercase (App.strip_slashes pathname))
                              "/dashboard") as [H|_]; [exact H|].
    repeat (destruct (String.eqb _ _); [discriminate|]). discriminate. }
  destruct (strip_slashes_spec pathname) as (k & Hk).
  destruct (App.strip_slashes pathname) as [|c0 d]; [discriminate Hp|].
  cbn [App.lowercase] in Hp. inversion Hp as [[Hc0 Hd]].
  assert (c0 = "/"%char) as ->.
  { apply Ascii.eqb_eq. rewrite <- lower_slash, Hc0. reflexivity. }
  assert (Hs : slashless d = true)
    by (rewrite <- lowercase_slashless, Hd; reflexivity).
  assert (Hn : nonempty d = true) by (destruct d; [discriminate Hd|reflexivity]).
  change (String "/" d ++ slashes k)%string
    with (String "/" (d ++ slashes k)%string) in Hk.
  destruct (displayName_dashboard d Hd) as (name & Hname & Hlow).
  exists name. split; [|congruence].
  unfold Breadcrumb.
  destruct (String.eqb_spec pathname "/dashboard") as [H|_]; [contradiction|].
  rewrite Hk, (pathnames_one d k Hs Hn).
  cbn [crumbs_from List.length Nat.sub Nat.eqb]. rewrite Hname. reflexivity.
Qed.

Lemma breadcrumb_shows_on_other_dashboard_paths_witness :
  exists name,
    Breadcrumb "/Dashboard/" = Some [Current (Text name)]
    /\ App.lowercase name = "dashboard"%string.
Proof.
  apply (breadcrumb_shows_on_other_dashboard_paths "/Dashboard/").
  - reflexivity.
  - discriminate.
Defined.

End BreadcrumbFacts.

(** ** The session *)

(** Evaluates the steps of a run that is written out. *)
Ltac play :=
  cbn [Auth.run Auth.fire fold_left Auth.act Auth.step app concat List.map snd fst
       Auth.state Auth.localStorage Auth.pathname Auth.search Auth.timers
       Auth.shown Auth.loaded Auth.screen
       App.user App.loading App.isProcessingOAuth orb negb andb].

Ltac play_in H :=
  cbn [Auth.run Auth.fire fold_left Auth.act Auth.step app concat List.map snd fst
       Auth.state Auth.localStorage Auth.pathname Auth.search Auth.timers
       Auth.shown Auth.loaded Auth.screen
       App.user App.loading App.isProcessingOAuth orb negb andb] in H.


Module AuthFacts.
Import Js Eff SavedUser Auth.

Lemma screen_login (user : JsVal) :
  truthy user = false ->
  App.AppContent (App.mkState user false false) "/login" = App.LoginPage.
Proof.
  intros H. unfold App.AppContent.
  cbn [App.loading App.isProcessingOAuth App.user orb].
  change (App.matchRoutes "/login") with App.RouteLogin.
  unfold App.route_element. rewrite H. reflexivity.
Qed.


Lemma screen_logged_out (user : JsVal) :
  truthy user = false ->
  App.AppContent (App.mkState user false false) "/dashboard"
  = App.Navigate "/login".
Proof.
  intros H. unfold App.AppContent.
  cbn [App.loading App.isProcessingOAuth App.user orb].
  change (App.matchRoutes "/dashboard") with (App.RouteDashboard App.DashboardHome).
  unfold App.route_element. rewrite H. reflexivity.
Qed.

Lemma JSON_parse_nonempty (text : jsstring) (v : JsVal) :
  JSON_parse text = Return v -> truthy (JStr text) = true.
Proof. destruct text; [discriminate|reflexivity]. Qed.

Section WithBuiltins.
Variable decodeURIComponent : jsstring -> Completion jsstring.
Variable stringify : JsVal -> jsstring.


(** The plain load, by what the storage holds. *)
Lemma plain_load (path : string) (query : Query) (storage : Storage) :
  given (oauth_error query) = false ->
  given (oauth_success query) = false ->
  exists logged,
    started decodeURIComponent stringify path query storage
    = match getItem storage STORAGE_KEY with
      | Some text =>
          if truthy (JStr text) then
            match JSON_parse text with
            | Return userData =>
                mkWorld (App.mkState userData false false) storage path
                        (Some query) [] logged
            | Throw _ =>
                mkWorld (App.mkState JNull false false)
                        (delete STORAGE_KEY storage) path (Some query) [] logged
            end
          else mkWorld (App.mkState JNull false false) storage path
                       (Some query) [] logged
      | None => mkWorld (App.mkState JNull false false) storage path
                        (Some query) [] logged
      end.
Proof.
  intros Herr Hok. unfold started, initializeAuth. rewrite Herr, Hok.
  destruct (getItem storage STORAGE_KEY) as [text|];
    [destruct (truthy (JStr text)); [destruct (JSON_parse text)|]|];
    play; eexists; reflexivity.
Qed.

(** X21: a load without OAuth parameters never adds to the storage: every
    other entry is left alone and the session entry is kept or removed.
    Loading again from the storage it leaves changes nothing more and
    arrives at the same state. *)
Theorem plain_load_is_idempotent :
  forall (path : string) (query : Query) (storage : Storage),
    given (oauth_error query) = false ->
    given (oauth_success query) = false ->
    (forall key, key <> STORAGE_KEY ->
       localStorage (started decodeURIComponent stringify path query storage) !! key
       = storage !! key)
    /\ (localStorage (started decodeURIComponent stringify path query storage)
          !! STORAGE_KEY = storage !! STORAGE_KEY
        \/ localStorage (started decodeURIComponent stringify path query storage)
             !! STORAGE_KEY = None)
    /\ localStorage
         (started decodeURIComponent stringify path query
            (localStorage (started decodeURIComponent stringify path query storage)))
       = localStorage (started decodeURIComponent stringify path query storage)
    /\ state
         (started decodeURIComponent stringify path query
            (localStorage (started decodeURIComponent stringify path query storage)))
       = state (started decodeURIComponent stringify path query storage).
Proof.
  intros path query storage Herr Hok.
  destruct (plain_load path query storage Herr Hok) as (logged & ->).
  destruct (getItem storage STORAGE_KEY) as [text|] eqn:Hentry.
  - destruct (truthy (JStr text)) eqn:Htext.
    + destruct (JSON_parse text) as [userData|e] eqn:Hparse.
      * cbn [localStorage state].
        destruct (plain_load path query storage Herr Hok) as (logged' & ->).
        rewrite Hentry, Htext, Hparse. cbn [localStorage state].
        repeat split. left. reflexivity.
      * cbn [localStorage state].
        destruct (plain_load path query (delete STORAGE_KEY storage) Herr Hok)
          as (logged' & ->).
        unfold getItem. rewrite lookup_delete_eq. cbn [localStorage state].
        split; [|split; [|split]]; try reflexivity.
        -- intros key Hkey. apply lookup_delete_ne. congruence.
        -- right. reflexivity.
    + cbn [localStorage state].
      destruct (plain_load path query storage Herr Hok) as (logged' & ->).
      rewrite Hentry, Htext. cbn [localStorage state].
      repeat split. left. reflexivity.
  - cbn [localStorage state].
    destruct (plain_load path query storage Herr Hok) as (logged' & ->).
    rewrite Hentry. cbn [localStorage state].
    repeat split. left. reflexivity.
Qed.

(** The load after an OAuth success, by the user data it finds. *)
Lemma oauth_load (path : string) (query : Query) (storage : Storage) :
  given (oauth_error query) = false ->
  given (oauth_success query) = true ->
  exists logged,
    started decodeURIComponent stringify path query storage
    = let userData :=
        snd (from_url decodeURIComponent
                      (snd (from_storage (getItem storage STORAGE_KEY)))
                      (user_data query)) in
      if truthy userData then
        mkWorld (App.mkState userData true true)
                (if given (getItem storage STORAGE_KEY) then storage
                 else <[STORAGE_KEY := stringify userData]> storage)
                path None
                [(200%nat, [ SetLoading false; SetIsProcessingOAuth false;
                             NavigateTo "/dashboard" true ])]
                logged
      else
        mkWorld (App.mkState JNull false false) storage "/login" None [] logged.
Proof.
  intros Herr Hok. unfold started, initializeAuth. rewrite Herr, Hok. cbv zeta.
  destruct (from_storage (getItem storage STORAGE_KEY)) as [logged1 userData1]
    eqn:Hfirst.
  cbn [snd].
  destruct (from_url decodeURIComponent userData1 (user_data query))
    as [logged2 userData] eqn:Hsecond.
  cbn [snd].
  assert (Hshow : forall logs w,
             (logs = logged1 \/ logs = logged2) ->
             exists more, fold_left act logs w
                          = mkWorld (state w) (localStorage w) (pathname w)
                                    (search w) (timers w) (shown w ++ more)).
  { intros logs w Hlogs. unfold from_storage, from_url in Hfirst, Hsecond.
    destruct Hlogs as [-> | ->].
    - destruct (getItem storage STORAGE_KEY) as [text|];
        [destruct (truthy (JStr text)); [destruct (JSON_parse text)|]|];
        inversion Hfirst; destruct w; play;
        first [ exists []; rewrite app_nil_r; reflexivity
              | eexists; reflexivity ].
    - destruct (user_data query) as [text|];
        [destruct (negb (truthy userData1) && truthy (JStr text));
         [destruct (decodeURIComponent text) as [decoded|];
          [destruct (JSON_parse decoded)|]|]|];
        inversion Hsecond; destruct w; play;
        first [ exists []; rewrite app_nil_r; reflexivity
              | eexists; reflexivity ]. }
  unfold run. rewrite !fold_left_app.
  cbn [fold_left act step loaded state localStorage pathname search timers shown app].
  match goal with
  | |- context [fold_left act logged1 ?w] =>
      destruct (Hshow logged1 w (or_introl eq_refl)) as (more1 & ->)
  end.
  cbn [state localStorage pathname search timers shown].
  match goal with
  | |- context [fold_left act logged2 ?w] =>
      destruct (Hshow logged2 w (or_intror eq_refl)) as (more2 & ->)
  end.
  cbn [state localStorage pathname search timers shown].
  destruct (truthy userData).
  - destruct (given (getItem storage STORAGE_KEY)); play; eexists; reflexivity.
  - play. eexists. reflexivity.
Qed.

Lemma oauth_settled (path : string) (query : Query) (storage : Storage) :
  given (oauth_error query) = false ->
  given (oauth_success query) = true ->
  exists logged,
    settled decodeURIComponent stringify path query storage
    = let userData :=
        snd (from_url decodeURIComponent
                      (snd (from_storage (getItem storage STORAGE_KEY)))
                      (user_data query)) in
      if truthy userData then
        mkWorld (App.mkState userData false false)
                (if given (getItem storage STORAGE_KEY) then storage
                 else <[STORAGE_KEY := stringify userData]> storage)
                "/dashboard" None [] logged
      else
        mkWorld (App.mkState JNull false false) storage "/login" None [] logged.
Proof.
  intros Herr Hok. unfold settled.
  destruct (oauth_load path query storage Herr Hok) as (logged & ->). cbv zeta.
  destruct (truthy _); play; eexists; reflexivity.
Qed.

Lemma from_url_fallback (userData1 userData : JsVal) (text decoded : jsstring) :
  truthy userData1 = false ->
  truthy (JStr text) = true ->
  decodeURIComponent text = Return decoded ->
  JSON_parse decoded = Return userData ->
  snd (from_url decodeURIComponent userData1 (Some text)) = userData.
Proof.
  intros H1 Ht Hd Hp. unfold from_url. rewrite H1, Ht, Hd, Hp. reflexivity.
Qed.

Lemma from_storage_stale (text : jsstring) :
  (forall v, JSON_parse text = Return v -> truthy v = false) ->
  truthy (snd (from_storage (Some text))) = false.
Proof.
  intros H. unfold from_storage. destruct (truthy (JStr text)); [|reflexivity].
  destruct (JSON_parse text) as [v|e]; [|reflexivity]. apply H. reflexivity.
Qed.

(** A run of [initializeAuth] on a page whose query is gone. *)
Lemma rerun_plain (w : World) :
  search w = None ->
  exists logged,
    rerun decodeURIComponent stringify w
    = match getItem (localStorage w) STORAGE_KEY with
      | Some text =>
          if truthy (JStr text) then
            match JSON_parse text with
            | Return userData =>
                mkWorld (App.mkState userData false
                                     (App.isProcessingOAuth (state w)))
                        (localStorage w) (pathname w) None (timers w) logged
            | Throw _ =>
                mkWorld (App.mkState (App.user (state w)) false
                                     (App.isProcessingOAuth (state w)))
                        (delete STORAGE_KEY (localStorage w)) (pathname w) None
                        (timers w) logged
            end
          else mkWorld (App.mkState (App.user (state w)) false
                                    (App.isProcessingOAuth (state w)))
                       (localStorage w) (pathname w) None (timers w) logged
      | None => mkWorld (App.mkState (App.user (state w)) false
                                     (App.isProcessingOAuth (state w)))
                        (localStorage w) (pathname w) None (timers w) logged
      end.
Proof.
  intros Hsearch. unfold rerun, current_query, initializeAuth. rewrite Hsearch.
  cbn [no_query oauth_error oauth_success given].
  destruct w as [st storage path q pending logged]. cbn [search] in Hsearch.
  subst q. cbn [localStorage state pathname timers search].
  destruct (getItem storage STORAGE_KEY) as [text|];
    [destruct (truthy (JStr text)); [destruct (JSON_parse text)|]|];
    play; eexists; reflexivity.
Qed.

(** X22: a session entry that is there but useless (it is not JSON, or it
    is JSON for a falsy value) is not replaced when the OAuth redirect
    brings valid user data in the URL.  When the timer has fired the user of
    the URL is set, the page is at [/dashboard] and the storage is as it
    was.  If [initializeAuth] then runs again, as it does after a navigation
    that changed the path, an entry that is not JSON is removed and the user
    stays, and an entry that is JSON sets the user to its falsy value, which
    the routes answer with a redirect to [/login].  Either way no session
    is stored: a later load of the dashboard from the storage that is left
    finds no user and is redirected to the login. *)
Theorem stale_entry_loses_the_session :
  forall (path : string) (query : Query) (storage : Storage)
         (stale_text url_text decoded : jsstring) (userData : JsVal),
    given (oauth_error query) = false ->
    given (oauth_success query) = true ->
    getItem storage STORAGE_KEY = Some stale_text ->
    truthy (JStr stale_text) = true ->
    (forall v, JSON_parse stale_text = Return v -> truthy v = false) ->
    user_data query = Some url_text ->
    truthy (JStr url_text) = true ->
    decodeURIComponent url_text = Return decoded ->
    JSON_parse decoded = Return userData ->
    truthy userData = true ->
    state (settled decodeURIComponent stringify path query storage)
    = App.mkState userData false false
    /\ pathname (settled decodeURIComponent stringify path query storage)
       = "/dashboard"
    /\ localStorage (settled decodeURIComponent stringify path query storage)
       = storage
    /\ match JSON_parse stale_text with
       | Throw _ =>
           state (rerun decodeURIComponent stringify
                        (settled decodeURIComponent stringify path query storage))
           = App.mkState userData false false
           /\ localStorage
                (rerun decodeURIComponent stringify
                       (settled decodeURIComponent stringify path query storage))
              = delete STORAGE_KEY storage
       | Return v =>
           state (rerun decodeURIComponent stringify
                        (settled decodeURIComponent stringify path query storage))
           = App.mkState v false false
           /\ localStorage
                (rerun decodeURIComponent stringify
                       (settled decodeURIComponent stringify path query storage))
              = storage
           /\ screen (rerun decodeURIComponent stringify
                             (settled decodeURIComponent stringify path query
                                      storage))
              = App.Navigate "/login"
       end
    /\ (forall w,
          w = settled decodeURIComponent stringify path query storage
          \/ w = rerun decodeURIComponent stringify
                       (settled decodeURIComponent stringify path query storage) ->
          truthy (App.user (state (settled decodeURIComponent stringify
                                          "/dashboard" no_query (localStorage w))))
          = false
          /\ screen (settled decodeURIComponent stringify "/dashboard" no_query
                             (localStorage w))
             = App.Navigate "/login").
Proof.
  intros path query storage stale_text url_text decoded userData
         Herr Hok Hentry Hstale Hbad Hurl Hgiven Hdecode Hparse Huser.
  destruct (oauth_settled path query storage Herr Hok) as (logged & ->).
  cbv zeta. rewrite Hentry, Hurl.
  rewrite (from_url_fallback _ userData _ decoded
             (from_storage_stale _ Hbad) Hgiven Hdecode Hparse).
  rewrite Huser. cbn [given]. rewrite Hstale.
  cbn [localStorage state pathname].
  assert (Hlater : forall kept,
             kept = storage \/ kept = delete STORAGE_KEY storage ->
             truthy (App.user (state (settled decodeURIComponent stringify
                                             "/dashboard" no_query kept))) = false
             /\ screen (settled decodeURIComponent stringify "/dashboard" no_query
                                kept)
                = App.Navigate "/login").
  { intros kept Hkept. unfold settled.
    destruct (plain_load "/dashboard" no_query kept eq_refl eq_refl)
      as (logged' & ->).
    destruct Hkept as [-> | ->].
    - rewrite Hentry, Hstale.
      destruct (JSON_parse stale_text) as [v|e] eqn:Hv; play.
      + split; [apply Hbad; reflexivity|].
        apply screen_logged_out, Hbad. reflexivity.
      + split; reflexivity.
    - unfold getItem. rewrite lookup_delete_eq. play. split; reflexivity. }
  destruct (rerun_plain
              (mkWorld (App.mkState userData false false) storage "/dashboard"
                       None [] logged) eq_refl) as (logged' & Hrerun).
  cbn [localStorage state pathname timers] in Hrerun.
  rewrite Hentry, Hstale in Hrerun.
  split; [reflexivity|]. split; [reflexivity|]. split; [reflexivity|].
  rewrite Hrerun.
  destruct (JSON_parse stale_text) as [v|e] eqn:Hv.
  - split.
    + cbn [state localStorage screen pathname]. split; [reflexivity|].
      split; [reflexivity|]. apply screen_logged_out, Hbad. reflexivity.
    + intros w [-> | ->]; cbn [localStorage]; apply Hlater; left; reflexivity.
  - split.
    + cbn [state localStorage]. split; reflexivity.
    + intros w [-> | ->]; cbn [localStorage]; apply Hlater;
        [left|right]; reflexivity.
Qed.



(** X25: [handleLogin] sets the user, writes the session entry and goes to
    the dashboard, leaving every other entry alone; if parsing the text
    [JSON.stringify] gave returns the user data, a later load of the page
    restores that user. *)
Theorem login_survives_reload :
  forall (w : World) (userData : JsVal) (path : string),
    JSON_parse (stringify userData) = Return userData ->
    App.user (state (run (handleLogin stringify userData) w)) = userData
    /\ pathname (run (handleLogin stringify userData) w) = "/dashboard"
    /\ localStorage (run (handleLogin stringify userData) w)
       = <[STORAGE_KEY := stringify userData]> (localStorage w)
    /\ state (settled decodeURIComponent stringify path no_query
                      (localStorage (run (handleLogin stringify userData) w)))
       = App.mkState userData false false.
Proof.
  intros w userData path Hround. unfold handleLogin. play.
  split; [reflexivity|]. split; [reflexivity|]. split; [reflexivity|].
  unfold settled.
  destruct (plain_load path no_query
              (<[STORAGE_KEY := stringify userData]> (localStorage w))
              eq_refl eq_refl) as (logged' & ->).
  unfold getItem. rewrite lookup_insert_eq.
  rewrite (JSON_parse_nonempty _ _ Hround), Hround. play. reflexivity.
Qed.

End WithBuiltins.

(** X26: after an OAuth success a session entry that parses to a truthy
    value is the user: the user data of the URL is not decoded or parsed,
    so the page ends the same whatever it is, and nothing is written to the
    storage. *)
Theorem oauth_prefers_the_stored_session :
  forall (decode decode' : jsstring -> Completion jsstring)
         (stringify stringify' : JsVal -> jsstring)
         (path : string) (query : Query) (other : option jsstring)
         (storage : Storage) (text : jsstring) (userData : JsVal),
    given (oauth_error query) = false ->
    given (oauth_success query) = true ->
    getItem storage STORAGE_KEY = Some text ->
    JSON_parse text = Return userData ->
    truthy userData = true ->
    state (settled decode stringify path query storage)
    = App.mkState userData false false
    /\ localStorage (settled decode stringify path query storage) = storage
    /\ settled decode' stringify' path
               (mkQuery (oauth_success query) (oauth_error query) other) storage
       = settled decode stringify path query storage.
Proof.
  intros decode decode' stringify stringify' path query other storage text userData
         Herr Hok Hentry Hparse Huser.
  assert (Hrun : forall d s q,
             given (oauth_error q) = false -> given (oauth_success q) = true ->
             settled d s path q storage
             = mkWorld (App.mkState userData false false) storage "/dashboard"
                       None []
                       [ ConsoleLog "🔍 App useEffect running";
                         ConsoleLog "🔗 URL params - success:";
                         ConsoleLog "🚀 OAuth success detected - processing...";
                         ConsoleLog "📞 OAuth success - callback data:";
                         ConsoleLog "🔗 OAuth success - URL data:";
                         ConsoleLog "✅ Got user data from localStorage:";
                         Toast TSuccess [ Lit "Welcome back, ";
                                          Hole (get_opt userData "email");
                                          Lit "! 🎉" ];
                         ConsoleLog "🏠 Navigating to dashboard..." ]).
  { intros d s q He Hs.
    unfold settled, started, initializeAuth, from_storage, from_url.
    rewrite He, Hs, Hentry, (JSON_parse_nonempty _ _ Hparse), Hparse.
    cbn [given]. rewrite (JSON_parse_nonempty _ _ Hparse).
    destruct (user_data q); rewrite ?Huser; cbn [negb andb];
      rewrite ?Huser; reflexivity. }
  rewrite (Hrun decode stringify query Herr Hok).
  rewrite (Hrun decode' stringify'
             (mkQuery (oauth_success query) (oauth_error query) other) Herr Hok).
  repeat split.
Qed.

Lemma plain_load_is_idempotent_witness :
  (forall key, key <> STORAGE_KEY ->
     localStorage (started Fixtures.decode_plain Fixtures.stringify_ann
                           "/dashboard" no_query Fixtures.stale) !! key
     = Fixtures.stale !! key)
  /\ (localStorage (started Fixtures.decode_plain Fixtures.stringify_ann
                            "/dashboard" no_query Fixtures.stale)
        !! STORAGE_KEY = Fixtures.stale !! STORAGE_KEY
      \/ localStorage (started Fixtures.decode_plain Fixtures.stringify_ann
                               "/dashboard" no_query Fixtures.stale)
           !! STORAGE_KEY = None)
  /\ localStorage
       (started Fixtures.decode_plain Fixtures.stringify_ann "/dashboard" no_query
          (localStorage (started Fixtures.decode_plain Fixtures.stringify_ann
                                 "/dashboard" no_query Fixtures.stale)))
     = localStorage (started Fixtures.decode_plain Fixtures.stringify_ann
                             "/dashboard" no_query Fixtures.stale)
  /\ state
       (started Fixtures.decode_plain Fixtures.stringify_ann "/dashboard" no_query
          (localStorage (started Fixtures.decode_plain Fixtures.stringify_ann
                                 "/dashboard" no_query Fixtures.stale)))
     = state (started Fixtures.decode_plain Fixtures.stringify_ann
                      "/dashboard" no_query Fixtures.stale).
Proof.
  apply (plain_load_is_idempotent Fixtures.decode_plain Fixtures.stringify_ann
           "/dashboard" no_query Fixtures.stale);
    reflexivity.
Defined.

Lemma stale_entry_loses_the_session_witness :
  state (settled Fixtures.decode_plain Fixtures.stringify_ann "/"
                 Sessions.redirect Fixtures.stale)
  = App.mkState Samples.user_1 false false
  /\ pathname (settled Fixtures.decode_plain Fixtures.stringify_ann "/"
                       Sessions.redirect Fixtures.stale)
     = "/dashboard"
  /\ localStorage (settled Fixtures.decode_plain Fixtures.stringify_ann "/"
                           Sessions.redirect Fixtures.stale)
     = Fixtures.stale
  /\ match JSON_parse (u16 "[object Object]") with
     | Throw _ =>
         state (rerun Fixtures.decode_plain Fixtures.stringify_ann
                      (settled Fixtures.decode_plain Fixtures.stringify_ann "/"
                               Sessions.redirect Fixtures.stale))
         = App.mkState Samples.user_1 false false
         /\ localStorage
              (rerun Fixtures.decode_plain Fixtures.stringify_ann
                     (settled Fixtures.decode_plain Fixtures.stringify_ann "/"
                              Sessions.redirect Fixtures.stale))
            = delete STORAGE_KEY Fixtures.stale
     | Return v =>
         state (rerun Fixtures.decode_plain Fixtures.stringify_ann
                      (settled Fixtures.decode_plain Fixtures.stringify_ann "/"
                               Sessions.redirect Fixtures.stale))
         = App.mkState v false false
         /\ localStorage
              (rerun Fixtures.decode_plain Fixtures.stringify_ann
                     (settled Fixtures.decode_plain Fixtures.stringify_ann "/"
                              Sessions.redirect Fixtures.stale))
            = Fixtures.stale
         /\ screen (rerun Fixtures.decode_plain Fixtures.stringify_ann
                           (settled Fixtures.decode_plain Fixtures.stringify_ann "/"
                                    Sessions.redirect Fixtures.stale))
            = App.Navigate "/login"
     end
  /\ (forall w,
        w = settled Fixtures.decode_plain Fixtures.stringify_ann "/"
                    Sessions.redirect Fixtures.stale
        \/ w = rerun Fixtures.decode_plain Fixtures.stringify_ann
                     (settled Fixtures.decode_plain Fixtures.stringify_ann "/"
                              Sessions.redirect Fixtures.stale) ->
        truthy (App.user (state (settled Fixtures.decode_plain
                                        Fixtures.stringify_ann "/dashboard"
                                        no_query (localStorage w))))
        = false
        /\ screen (settled Fixtures.decode_plain Fixtures.stringify_ann
                           "/dashboard" no_query (localStorage w))
           = App.Navigate "/login").
Proof.
  apply (stale_entry_loses_the_session
           Fixtures.decode_plain Fixtures.stringify_ann "/" Sessions.redirect
           Fixtures.stale (u16 "[object Object]") Fixtures.session_text
           Fixtures.session_text Samples.user_1);
    try reflexivity.
  intros v H. vm_compute in H. discriminate H.
Defined.

(** An entry that is JSON for [null]: the run after the timer's navigation
    logs the user out again. *)
Example null_entry_logs_the_user_out :
  state (settled Fixtures.decode_plain Fixtures.stringify_ann "/"
                 Sessions.redirect {[ STORAGE_KEY := u16 "null" ]})
  = App.mkState Samples.user_1 false false
  /\ state (rerun Fixtures.decode_plain Fixtures.stringify_ann
                  (settled Fixtures.decode_plain Fixtures.stringify_ann "/"
                           Sessions.redirect {[ STORAGE_KEY := u16 "null" ]}))
     = App.mkState JNull false false.
Proof. split; vm_compute; reflexivity. Qed.

Lemma oauth_prefers_the_stored_session_witness :
  state (settled Fixtures.decode_plain Fixtures.stringify_ann "/"
                 Sessions.redirect Samples.cache_of_4)
  = App.mkState (JObj {[ u16 "user_id" := JNum 4 ]}) false false
  /\ localStorage (settled Fixtures.decode_plain Fixtures.stringify_ann "/"
                           Sessions.redirect Samples.cache_of_4)
     = Samples.cache_of_4
  /\ settled (fun _ => Throw SyntaxError) (fun _ => []) "/"
             (mkQuery (oauth_success Sessions.redirect)
                      (oauth_error Sessions.redirect) None)
             Samples.cache_of_4
     = settled Fixtures.decode_plain Fixtures.stringify_ann "/"
               Sessions.redirect Samples.cache_of_4.
Proof.
  apply (oauth_prefers_the_stored_session
           Fixtures.decode_plain (fun _ => Throw SyntaxError)
           Fixtures.stringify_ann (fun _ => []) "/" Sessions.redirect None
           Samples.cache_of_4 (json_text "{'user_id':4}")
           (JObj {[ u16 "user_id" := JNum 4 ]}));
    reflexivity.
Defined.



Lemma login_survives_reload_witness :
  App.user (state (run (handleLogin Fixtures.stringify_ann Samples.user_1)
                       Sessions.fresh))
  = Samples.user_1
  /\ pathname (run (handleLogin Fixtures.stringify_ann Samples.user_1)
                   Sessions.fresh)
     = "/dashboard"
  /\ localStorage (run (handleLogin Fixtures.stringify_ann Samples.user_1)
                       Sessions.fresh)
     = <[STORAGE_KEY := Fixtures.stringify_ann Samples.user_1]>
         (localStorage Sessions.fresh)
  /\ state (settled Fixtures.decode_plain Fixtures.stringify_ann "/dashboard/emails"
                    no_query
                    (localStorage
                       (run (handleLogin Fixtures.stringify_ann Samples.user_1)
                            Sessions.fresh)))
     = App.mkState Samples.user_1 false false.
Proof.
  apply (login_survives_reload
           Fixtures.decode_plain Fixtures.stringify_ann Sessions.fresh
           Samples.user_1 "/dashboard/emails").
  reflexivity.
Defined.

End AuthFacts.
